(** * CalculadoraCientifica: a shallow embedding and its properties

    The module under study is a thin facade over Python's [math] module:
    every method validates its arguments with [isinstance(num, (int, float))],
    emits one record through a process-wide [logging] logger and hands the
    computation to a Python operator or to a [math] function.

    The embedding follows the code line by line.  What the code leaves to
    the language is modelled here as CPython does it on an IEEE-754 platform:
    - [int] is unbounded ([Z]); [bool] is a subclass of [int];
    - [float] is binary64 (the primitive [float] of the prover, whose
      operations are specified bit for bit by [SpecFloat]; it has one
      NaN, so the sign and the payload of a NaN are not told apart);
    - mixed arithmetic converts the [int] operand to [float], which raises
      [OverflowError] when the integer is too large;
    - [math.sin], [math.cos], [math.tan], [math.log], [math.log10] and
      [math.pow] are CPython's wrappers around the C library, which is an
      interface ([Libm]) with the special values of C99 Annex F as laws. *)

From Stdlib Require Import ZArith Lia Bool List Ascii String Floats.
Import ListNotations.

Local Open Scope Z_scope.

(** ** Python values *)

(** The objects a caller can pass to a method.  [VObj c] stands for an
    instance of any other class, named by its qualified name [c]; such a
    class is not a subclass of [int] or [float]. *)
Inductive valor : Type :=
| VInt (z : Z)
| VBool (b : bool)
| VFloat (f : float)
| VStr (s : string)
| VNone
| VObj (clase : string).

(** [isinstance(num, (int, float))]: [bool] is a subclass of [int]. *)
Definition es_numero (num : valor) : bool :=
  match num with
  | VInt _ | VBool _ | VFloat _ => true
  | VStr _ | VNone | VObj _ => false
  end.

(** The name of the class of a value, and [str(type(num))]. *)
Definition nombre_clase (num : valor) : string :=
  match num with
  | VInt _ => "int"
  | VBool _ => "bool"
  | VFloat _ => "float"
  | VStr _ => "str"
  | VNone => "NoneType"
  | VObj c => c
  end.

Definition repr_type (num : valor) : string :=
  ("<class '" ++ nombre_clase num ++ "'>")%string.

(** ** Exceptions and outcomes *)

Inductive excepcion : Type :=
| TypeError (mensaje : string)
| ValueError (mensaje : string)
| OverflowError (mensaje : string)
| ZeroDivisionError (mensaje : string).

Definition es_TypeError (e : excepcion) : bool :=
  match e with TypeError _ => true | _ => false end.

Definition es_ValueError (e : excepcion) : bool :=
  match e with ValueError _ => true | _ => false end.

Definition es_OverflowError (e : excepcion) : bool :=
  match e with OverflowError _ => true | _ => false end.

Inductive resultado (A : Type) : Type :=
| Devuelve (a : A)
| Lanza (e : excepcion).

Arguments Devuelve {A} a.
Arguments Lanza {A} e.

(** ** The logger

    A record is what the code hands to [logger.info] or [logger.error]:
    the level, the message template and its arguments, as
    [logging.LogRecord] keeps them in [levelname], [msg] and [args].
    Rendering the template belongs to the handlers, which come further
    down; stamping the time and writing the line to the file and to the
    console are not modelled. *)

Inductive nivel : Type := INFO | ERROR.

Record LogRecord : Type := mkLogRecord {
  levelname : nivel;
  msg : string;
  args : list valor
}.

(** The records emitted so far, oldest first. *)
Definition bitacora : Type := list LogRecord.

(** ** Computations that log and may raise

    An exception does not undo the records already emitted, so the log is
    returned beside the outcome in both cases. *)

Definition M (A : Type) : Type := bitacora -> resultado A * bitacora.

Definition ret {A : Type} (a : A) : M A := fun l => (Devuelve a, l).

Definition raise {A : Type} (e : excepcion) : M A := fun l => (Lanza e, l).

Definition bind {A B : Type} (c : M A) (k : A -> M B) : M B :=
  fun l =>
    match c l with
    | (Devuelve a, l') => k a l'
    | (Lanza e, l') => (Lanza e, l')
    end.

Definition lift {A : Type} (r : resultado A) : M A := fun l => (r, l).

Declare Scope calc_scope.
Delimit Scope calc_scope with calc.
Notation "x <- c ;; k" := (bind c (fun x => k))
  (at level 61, c at next level, right associativity) : calc_scope.
Notation "c ;; k" := (bind c (fun _ => k))
  (at level 61, right associativity) : calc_scope.
Local Open Scope calc_scope.

Definition logger_info (plantilla : string) (argumentos : list valor) : M unit :=
  fun l => (Devuelve tt, l ++ [mkLogRecord INFO plantilla argumentos]).

Definition logger_error (plantilla : string) (argumentos : list valor) : M unit :=
  fun l => (Devuelve tt, l ++ [mkLogRecord ERROR plantilla argumentos]).

(** The outcome of a call on a log [l], and whether it is an exception
    of a given kind. *)
Definition salida {A : Type} (c : M A) (l : bitacora) : resultado A := fst (c l).

Definition lanza {A : Type} (clase : excepcion -> bool) (r : resultado A) : bool :=
  match r with
  | Lanza e => clase e
  | Devuelve _ => false
  end.

(** ** Numbers as Python computes with them *)

(** An integer as an unrounded binary number. *)
Definition Z2SF (z : Z) : spec_float :=
  match z with
  | Z0 => S754_zero false
  | Zpos p => S754_finite false p 0
  | Zneg p => S754_finite true p 0
  end.

Definition desborda : excepcion :=
  OverflowError "int too large to convert to float".

(** [PyLong_AsDouble]: the nearest double, ties to even; an integer that
    rounds to 2^1024 or beyond has none. *)
Definition PyLong_AsDouble (z : Z) : resultado float :=
  match binary_normalize prec emax z 0 false with
  | S754_infinity _ => Lanza desborda
  | sf => Devuelve (SF2Prim sf)
  end.

(** [PyFloat_AsDouble]: the C double behind a real number. *)
Definition PyFloat_AsDouble (v : valor) : resultado float :=
  match v with
  | VFloat f => Devuelve f
  | VInt z => PyLong_AsDouble z
  | VBool b => PyLong_AsDouble (Z.b2z b)
  | _ => Lanza (TypeError ("must be real number, not " ++ nombre_clase v))
  end.

(** The integer behind an [int] or a [bool]. *)
Definition entero (v : valor) : option Z :=
  match v with
  | VInt z => Some z
  | VBool b => Some (Z.b2z b)
  | _ => None
  end.

Definition no_soportado (op : string) (a b : valor) : excepcion :=
  TypeError ("unsupported operand type(s) for " ++ op ++ ": '"
             ++ nombre_clase a ++ "' and '" ++ nombre_clase b ++ "'").

(** [a + b], [a - b] and [a * b] between numbers: exact on two integers,
    IEEE-754 on doubles once an integer operand is converted.  Operands
    that are not numbers are outside the model (no method lets one reach
    an operator) and are answered with [TypeError]. *)
Definition aritmetica (op : string) (opZ : Z -> Z -> Z)
    (opF : float -> float -> float) (a b : valor) : resultado valor :=
  if es_numero a && es_numero b then
    match entero a, entero b with
    | Some x, Some y => Devuelve (VInt (opZ x y))
    | _, _ =>
        match PyFloat_AsDouble a with
        | Lanza e => Lanza e
        | Devuelve x =>
            match PyFloat_AsDouble b with
            | Lanza e => Lanza e
            | Devuelve y => Devuelve (VFloat (opF x y))
            end
        end
    end
  else Lanza (no_soportado op a b).

Definition py_add : valor -> valor -> resultado valor :=
  aritmetica "+" Z.add PrimFloat.add.

Definition py_sub : valor -> valor -> resultado valor :=
  aritmetica "-" Z.sub PrimFloat.sub.

Definition py_mul : valor -> valor -> resultado valor :=
  aritmetica "*" Z.mul PrimFloat.mul.

(** [a / b] on two integers ([long_true_divide]): the correctly rounded
    quotient of the integers themselves. *)
Definition long_true_divide (x y : Z) : resultado valor :=
  if y =? 0 then Lanza (ZeroDivisionError "division by zero")
  else
    match SFdiv prec emax (Z2SF x) (Z2SF y) with
    | S754_infinity _ =>
        Lanza (OverflowError "integer division result too large for a float")
    | sf => Devuelve (VFloat (SF2Prim sf))
    end.

(** [a / b] on doubles ([float_div]). *)
Definition float_div (x y : float) : resultado valor :=
  if (y =? 0)%float then Lanza (ZeroDivisionError "float division by zero")
  else Devuelve (VFloat (x / y)%float).

Definition py_truediv (a b : valor) : resultado valor :=
  if es_numero a && es_numero b then
    match entero a, entero b with
    | Some x, Some y => long_true_divide x y
    | _, _ =>
        match PyFloat_AsDouble a with
        | Lanza e => Lanza e
        | Devuelve x =>
            match PyFloat_AsDouble b with
            | Lanza e => Lanza e
            | Devuelve y => float_div x y
            end
        end
    end
  else Lanza (no_soportado "/" a b).

(** Comparisons with the literal [0].  [==] is defined on every object;
    the order is defined on numbers only. *)
Definition py_eq_0 (v : valor) : bool :=
  match v with
  | VInt z => z =? 0
  | VBool b => negb b
  | VFloat f => (f =? 0)%float
  | _ => false
  end.

Definition no_ordenado (op : string) (v : valor) : excepcion :=
  TypeError ("'" ++ op ++ "' not supported between instances of '"
             ++ nombre_clase v ++ "' and 'int'").

Definition py_lt_0 (v : valor) : resultado bool :=
  match v with
  | VInt z => Devuelve (z <? 0)
  | VBool _ => Devuelve false
  | VFloat f => Devuelve (f <? 0)%float
  | _ => Lanza (no_ordenado "<" v)
  end.

Definition py_le_0 (v : valor) : resultado bool :=
  match v with
  | VInt z => Devuelve (z <=? 0)
  | VBool b => Devuelve (negb b)
  | VFloat f => Devuelve (f <=? 0)%float
  | _ => Lanza (no_ordenado "<=" v)
  end.

(** ** The C library behind [math]

    [math] calls the platform's [sin], [cos], [tan], [log], [log10] and
    [pow].  Their values on ordinary arguments are whatever the library
    computes; the laws are the special values of C99 Annex F and the
    finiteness of the results on the arguments where the functions are
    defined, which is what decides the exceptions CPython raises.
    [sqrt] is not in the interface: IEEE-754 fixes it, and it is the
    primitive [PrimFloat.sqrt]. *)

Record Libm : Type := mkLibm {
  c_sin : float -> float;
  c_cos : float -> float;
  c_tan : float -> float;
  c_log : float -> float;
  c_log10 : float -> float;
  c_pow : float -> float -> float;
  (* F.9.1.5-7: an infinite angle is an invalid argument *)
  sin_infinito : forall x, is_infinity x = true -> is_nan (c_sin x) = true;
  cos_infinito : forall x, is_infinity x = true -> is_nan (c_cos x) = true;
  tan_infinito : forall x, is_infinity x = true -> is_nan (c_tan x) = true;
  (* a finite angle has a finite sine, cosine and tangent *)
  sin_finito : forall x, is_finite x = true -> is_finite (c_sin x) = true;
  cos_finito : forall x, is_finite x = true -> is_finite (c_cos x) = true;
  tan_finito : forall x, is_finite x = true -> is_finite (c_tan x) = true;
  (* a finite positive number has a finite logarithm *)
  log_finito : forall x,
    is_finite x = true -> (0 <? x)%float = true -> is_finite (c_log x) = true;
  log10_finito : forall x,
    is_finite x = true -> (0 <? x)%float = true -> is_finite (c_log10 x) = true;
  (* F.9.4.4: a zero base with a finite negative exponent is a pole *)
  pow_polo : forall x y,
    (x =? 0)%float = true -> is_finite y = true -> (y <? 0)%float = true ->
    is_infinity (c_pow x y) = true
}.

(** The functions of the smallest implementation of the interface: the
    special values and nothing else ([libm_minima] below).  It shows that
    the laws can be met, and it is the library used where a statement is
    run on concrete arguments. *)
Definition trig_minima (x : float) : float :=
  if is_finite x then zero else nan.

Definition pow_minima (x y : float) : float :=
  if (x =? 0)%float && is_finite y && (y <? 0)%float then infinity else one.

(** ** The [math] module (CPython, [Modules/mathmodule.c])

    The C functions are taken as pure: [errno] is assumed to be set only
    together with a result that is not finite, or on underflow, so the
    wrappers decide on the result alone. *)

Definition domain_error : excepcion := ValueError "math domain error".
Definition range_error : excepcion := OverflowError "math range error".

(** [math_1] with [can_overflow = 0]: a NaN out of a number and an
    infinity out of a finite number are both domain errors. *)
Definition math_1 (func : float -> float) (arg : valor) : resultado valor :=
  match PyFloat_AsDouble arg with
  | Lanza e => Lanza e
  | Devuelve x =>
      let r := func x in
      if is_nan r && negb (is_nan x) then Lanza domain_error
      else if is_infinity r && is_finite x then Lanza domain_error
      else Devuelve (VFloat r)
  end.

Definition math_sqrt (arg : valor) : resultado valor := math_1 PrimFloat.sqrt arg.

Definition math_sin (L : Libm) (arg : valor) : resultado valor := math_1 (c_sin L) arg.
Definition math_cos (L : Libm) (arg : valor) : resultado valor := math_1 (c_cos L) arg.
Definition math_tan (L : Libm) (arg : valor) : resultado valor := math_1 (c_tan L) arg.

(** [m_log] and [m_log10]: the special values are settled before the C
    function is called. *)
Definition m_log (func : float -> float) (x : float) : float :=
  if is_finite x then
    if (0 <? x)%float then func x
    else if (x =? 0)%float then neg_infinity
    else nan
  else if is_nan x then x
  else if (0 <? x)%float then x
  else nan.

(** [_PyLong_Frexp] on a positive integer: [(x, e)] with [0.5 <= x < 1]
    and [x * 2^e] the integer rounded to 53 bits, ties to even. *)
Definition PyLong_Frexp (z : Z) : float * Z :=
  match binary_normalize prec (Z.log2 z + 2) z 0 false with
  | S754_finite s m e => (SF2Prim (S754_finite s m (- prec)), e + prec)
  | _ => (zero, 0)
  end.

(** A C integer converted to double. *)
Definition double_de_entero (e : Z) : float :=
  SF2Prim (binary_normalize prec emax e 0 false).

(** [loghelper]: an [int] (a [bool] is one) is checked and converted by
    hand, and an integer beyond the doubles is split into mantissa and
    exponent; anything else goes through [math_1]. *)
Definition loghelper (func : float -> float) (arg : valor) : resultado valor :=
  match entero arg with
  | Some z =>
      if z <=? 0 then Lanza domain_error
      else
        match PyLong_AsDouble z with
        | Devuelve x => Devuelve (VFloat (func x))
        | Lanza _ =>
            let (x, e) := PyLong_Frexp z in
            Devuelve (VFloat (func x + func 2 * double_de_entero e)%float)
        end
  | None => math_1 func arg
  end.

Definition math_log (L : Libm) (arg : valor) : resultado valor :=
  loghelper (m_log (c_log L)) arg.

Definition math_log10 (L : Libm) (arg : valor) : resultado valor :=
  loghelper (m_log (c_log10 L)) arg.

(** [fmod(fabs(y), 2.0) == 1.0] on a finite [y]: [y] is an odd integer. *)
Definition entero_impar (y : float) : bool :=
  match Prim2SF y with
  | S754_finite _ m e =>
      if 0 <? e then false
      else (Z.land (Zpos m) (Z.ones (- e)) =? 0) && Z.odd (Z.shiftr (Zpos m) (- e))
  | _ => false
  end.

(** [copysign(0., x)]. *)
Definition cero_con_signo (x : float) : float :=
  if get_sign x then neg_zero else zero.

(** [math_pow_impl] on two doubles: the IEEE specials are settled by hand
    and never raise; on finite arguments a NaN is a domain error and an
    infinity is a domain error at a zero base and a range error elsewhere. *)
Definition math_pow_impl (L : Libm) (x y : float) : resultado valor :=
  if negb (is_finite x) || negb (is_finite y) then
    Devuelve (VFloat
      (if is_nan x then (if (y =? 0)%float then one else x)
       else if is_nan y then (if (x =? 1)%float then one else y)
       else if is_infinity x then
         let odd_y := is_finite y && entero_impar y in
         if (0 <? y)%float then (if odd_y then x else abs x)
         else if (y =? 0)%float then one
         else (if odd_y then cero_con_signo x else zero)
       else
         if (abs x =? 1)%float then one
         else if (0 <? y)%float && (1 <? abs x)%float then y
         else if (y <? 0)%float && (abs x <? 1)%float then (- y)%float
         else zero))
  else
    let r := c_pow L x y in
    if is_nan r then Lanza domain_error
    else if is_infinity r then
      (if (x =? 0)%float then Lanza domain_error else Lanza range_error)
    else Devuelve (VFloat r).

Definition math_pow (L : Libm) (base exponente : valor) : resultado valor :=
  match PyFloat_AsDouble base with
  | Lanza e => Lanza e
  | Devuelve x =>
      match PyFloat_AsDouble exponente with
      | Lanza e => Lanza e
      | Devuelve y => math_pow_impl L x y
      end
  end.

(** ** class CalculadoraCientifica

    The instance has no attribute, so [self] is left out. *)

(** [__init__] *)
Definition init : M unit :=
  logger_info "Iniciando calculadora científica" [].

(** [f"Se esperaba un número, se recibió {type(num)}"] *)
Definition mensaje_de_tipo (num : valor) : string :=
  ("Se esperaba un número, se recibió " ++ repr_type num)%string.

(** [validar_numeros(self, *args)]: the first argument that is not a
    number raises, naming its type. *)
Fixpoint validar_numeros (argumentos : list valor) : M unit :=
  match argumentos with
  | [] => ret tt
  | num :: resto =>
      if es_numero num then validar_numeros resto
      else raise (TypeError (mensaje_de_tipo num))
  end.

Definition sumar (a b : valor) : M valor :=
  validar_numeros [a; b] ;;
  logger_info "Sumando %d + %d" [a; b] ;;
  lift (py_add a b).

Definition restar (a b : valor) : M valor :=
  validar_numeros [a; b] ;;
  logger_info "Restando %d - %d" [a; b] ;;
  lift (py_sub a b).

Definition multiplicar (a b : valor) : M valor :=
  validar_numeros [a; b] ;;
  logger_info "Multiplicando %d * %d" [a; b] ;;
  lift (py_mul a b).

Definition dividir (a b : valor) : M valor :=
  validar_numeros [a; b] ;;
  if py_eq_0 b then
    logger_error "Intento de división por cero al intentar dividir %d por %d" [a; b] ;;
    raise (ValueError "No se puede dividir por cero")
  else
    logger_info "Dividiendo %d / %d" [a; b] ;;
    lift (py_truediv a b).

Definition potencia (L : Libm) (base exponente : valor) : M valor :=
  validar_numeros [base; exponente] ;;
  logger_info "Calculando %d ^ %d" [base; exponente] ;;
  lift (math_pow L base exponente).

Definition raiz_cuadrada (numero : valor) : M valor :=
  validar_numeros [numero] ;;
  negativo <- lift (py_lt_0 numero) ;;
  if negativo : bool then
    logger_error "Intento de calcular raíz cuadrada de número negativo: %d" [numero] ;;
    raise (ValueError "No se puede calcular la raíz cuadrada de un número negativo")
  else
    logger_info "Calculando raíz cuadrada de %d" [numero] ;;
    lift (math_sqrt numero).

Definition logaritmo_natural (L : Libm) (numero : valor) : M valor :=
  validar_numeros [numero] ;;
  no_positivo <- lift (py_le_0 numero) ;;
  if no_positivo : bool then
    logger_error "Intento de calcular logaritmo de número no positivo: %d" [numero] ;;
    raise (ValueError "No se puede calcular el logaritmo de un número menor o igual a cero")
  else
    logger_info "Calculando logaritmo natural de %d" [numero] ;;
    lift (math_log L numero).

Definition logaritmo_base_10 (L : Libm) (numero : valor) : M valor :=
  validar_numeros [numero] ;;
  no_positivo <- lift (py_le_0 numero) ;;
  if no_positivo : bool then
    logger_error "Intento de calcular logaritmo base 10 de número no positivo: %d" [numero] ;;
    raise (ValueError "No se puede calcular el logaritmo de un número menor o igual a cero")
  else
    logger_info "Calculando logaritmo base 10 de %d" [numero] ;;
    lift (math_log10 L numero).

Definition seno (L : Libm) (angulo : valor) : M valor :=
  validar_numeros [angulo] ;;
  logger_info "Calculando seno de %f radianes" [angulo] ;;
  lift (math_sin L angulo).

Definition coseno (L : Libm) (angulo : valor) : M valor :=
  validar_numeros [angulo] ;;
  logger_info "Calculando coseno de %f radianes" [angulo] ;;
  lift (math_cos L angulo).

Definition tangente (L : Libm) (angulo : valor) : M valor :=
  validar_numeros [angulo] ;;
  logger_info "Calculando tangente de %f radianes" [angulo] ;;
  lift (math_tan L angulo).

(** ** Calls

    A call names a method and gives it the arguments it takes, so that a
    property of every operation is one statement. *)

Inductive llamada : Type :=
| Sumar (a b : valor)
| Restar (a b : valor)
| Multiplicar (a b : valor)
| Dividir (a b : valor)
| Potencia (base exponente : valor)
| RaizCuadrada (numero : valor)
| LogaritmoNatural (numero : valor)
| LogaritmoBase10 (numero : valor)
| Seno (angulo : valor)
| Coseno (angulo : valor)
| Tangente (angulo : valor).

Definition argumentos_de (c : llamada) : list valor :=
  match c with
  | Sumar a b | Restar a b | Multiplicar a b | Dividir a b | Potencia a b => [a; b]
  | RaizCuadrada x | LogaritmoNatural x | LogaritmoBase10 x
  | Seno x | Coseno x | Tangente x => [x]
  end.

Definition ejecutar (L : Libm) (c : llamada) : M valor :=
  match c with
  | Sumar a b => sumar a b
  | Restar a b => restar a b
  | Multiplicar a b => multiplicar a b
  | Dividir a b => dividir a b
  | Potencia a b => potencia L a b
  | RaizCuadrada x => raiz_cuadrada x
  | LogaritmoNatural x => logaritmo_natural L x
  | LogaritmoBase10 x => logaritmo_base_10 L x
  | Seno x => seno L x
  | Coseno x => coseno L x
  | Tangente x => tangente L x
  end.

(** The first argument that is not a number, if there is one. *)
Definition primer_no_numero (argumentos : list valor) : option valor :=
  find (fun v => negb (es_numero v)) argumentos.

(** ** The handlers: how a record becomes a line

    Both handlers render a record the same way ([logging.Formatter] over
    [LogRecord.getMessage]): the message is the template itself when there
    are no arguments, and [msg % args] otherwise.  The conversions are
    those of the templates of this module, [%d], [%f] and [%s] (and [%%]);
    a template with anything else is outside the model.  The digits are
    not computed: a rendered message is the list of its fields. *)

Inductive conversion : Type := ConvD | ConvF | ConvS.

Inductive parte : Type :=
| Literal (texto : string)
| Conv (c : conversion).

Definition conversion_de (a : ascii) : option conversion :=
  if Ascii.eqb a "d" then Some ConvD
  else if Ascii.eqb a "f" then Some ConvF
  else if Ascii.eqb a "s" then Some ConvS
  else None.

(** One more character in front of the parts already read. *)
Definition agregar (a : ascii) (ps : list parte) : list parte :=
  match ps with
  | Literal t :: ps' => Literal (String a t) :: ps'
  | _ => Literal (String a EmptyString) :: ps
  end.

(** The parts of a template; [None] outside the model. *)
Fixpoint analizar (s : string) : option (list parte) :=
  match s with
  | EmptyString => Some []
  | String a resto =>
      if Ascii.eqb a "%" then
        match resto with
        | EmptyString => None
        | String c resto' =>
            match conversion_de c with
            | Some k => option_map (cons (Conv k)) (analizar resto')
            | None =>
                if Ascii.eqb c "%" then option_map (agregar "%") (analizar resto')
                else None
            end
        end
      else option_map (agregar a) (analizar resto)
  end.

(** A field of a rendered message: literal text, an integer written in
    decimal, a double written with six decimals (or [inf], [nan]), or
    [str(v)] of another object. *)
Inductive campo : Type :=
| Texto (s : string)
| Entero (z : Z)
| Decimal6 (f : float)
| Str (v : valor).

(** [int(f)] on a finite double: the integer part, towards zero. *)
Definition truncar (f : float) : Z :=
  match Prim2SF f with
  | S754_finite s m e =>
      cond_Zopp s (if 0 <=? e then Zpos m * 2 ^ e else Zpos m / 2 ^ (- e))
  | _ => 0
  end.

(** [sys.int_info.default_max_str_digits]: an integer of more decimal
    digits than this is not written, in any base-10 conversion (CPython
    3.11, [long_to_decimal_string]).  The module leaves the limit as it
    is. *)
Definition max_str_digits : Z := 4300.

Definition excede_el_limite (z : Z) : bool := 10 ^ max_str_digits <=? Z.abs z.

Definition limite_excedido : excepcion :=
  ValueError "Exceeds the limit (4300 digits) for integer string conversion; use sys.set_int_max_str_digits() to increase the limit".

(** An integer written in decimal. *)
Definition en_decimal (z : Z) : resultado campo :=
  if excede_el_limite z then Lanza limite_excedido else Devuelve (Entero z).

(** One conversion of [msg % args].  [%d] takes the integer part of a
    float, and writes an [int] or a [bool] as it is; [%s] of an [int]
    is its decimal writing too. *)
Definition convertir (k : conversion) (v : valor) : resultado campo :=
  match k with
  | ConvD =>
      match v with
      | VInt z => en_decimal z
      | VBool b => en_decimal (Z.b2z b)
      | VFloat f =>
          if is_nan f then Lanza (ValueError "cannot convert float NaN to integer")
          else if is_infinity f then
            Lanza (OverflowError "cannot convert float infinity to integer")
          else en_decimal (truncar f)
      | _ => Lanza (TypeError ("%d format: a real number is required, not "
                               ++ nombre_clase v))
      end
  | ConvF =>
      match PyFloat_AsDouble v with
      | Devuelve x => Devuelve (Decimal6 x)
      | Lanza e => Lanza e
      end
  | ConvS =>
      match v with
      | VStr s => Devuelve (Texto s)
      | VInt z => if excede_el_limite z then Lanza limite_excedido else Devuelve (Str v)
      | _ => Devuelve (Str v)
      end
  end.

(** [msg % args]: the conversions take the arguments in order. *)
Fixpoint rellenar (ps : list parte) (argumentos : list valor)
  : resultado (list campo) :=
  match ps with
  | [] =>
      match argumentos with
      | [] => Devuelve []
      | _ :: _ =>
          Lanza (TypeError "not all arguments converted during string formatting")
      end
  | Literal t :: ps' =>
      match rellenar ps' argumentos with
      | Devuelve cs => Devuelve (Texto t :: cs)
      | Lanza e => Lanza e
      end
  | Conv k :: ps' =>
      match argumentos with
      | [] => Lanza (TypeError "not enough arguments for format string")
      | v :: resto =>
          match convertir k v with
          | Lanza e => Lanza e
          | Devuelve c =>
              match rellenar ps' resto with
              | Devuelve cs => Devuelve (c :: cs)
              | Lanza e => Lanza e
              end
          end
      end
  end.

(** [LogRecord.getMessage]; [None] when the template is outside the
    model. *)
Definition getMessage (r : LogRecord) : option (resultado (list campo)) :=
  match args r with
  | [] => Some (Devuelve [Texto (msg r)])
  | _ :: _ =>
      match analizar (msg r) with
      | Some ps => Some (rellenar ps (args r))
      | None => None
      end
  end.

(** A line of the file or of the console, without its time stamp:
    ["%(asctime)s - %(levelname)s - %(message)s"]. *)
Record linea : Type := mkLinea {
  nivel_de_linea : nivel;
  mensaje : list campo
}.

(** [Handler.emit]: the line, or nothing when the message cannot be
    rendered ([handleError] reports on the standard error and the record
    is dropped; the caller sees no exception). *)
Definition emit (r : LogRecord) : option linea :=
  match getMessage r with
  | Some (Devuelve m) => Some (mkLinea (levelname r) m)
  | _ => None
  end.

(** What a handler has written once the records of a log went through. *)
Definition escrito (l : bitacora) : list linea :=
  flat_map (fun r => match emit r with Some ln => [ln] | None => [] end) l.

Definition es_texto (c : campo) : bool :=
  match c with Texto _ => true | _ => false end.

(** The fields of a line that come from arguments. *)
Definition campos_de (ln : linea) : list campo :=
  filter (fun c => negb (es_texto c)) (mensaje ln).

(** ** main

    The program prints on the standard output, where the console handler
    writes too: a run is the sequence of what was handed to the logger and
    what was printed, in order.  An f-string is the list of its literal
    pieces and of the values it formats. *)

Inductive trozo : Type :=
| Fijo (s : string)
| Valor (v : valor).

Inductive evento : Type :=
| Registrado (r : LogRecord)
| Impreso (ts : list trozo).

Definition traza : Type := list evento.

(** The records of a run, in order. *)
Definition registros (t : traza) : bitacora :=
  flat_map (fun e => match e with Registrado r => [r] | Impreso _ => [] end) t.

Definition Programa (A : Type) : Type := traza -> resultado A * traza.

Definition bindP {A B : Type} (c : Programa A) (k : A -> Programa B) : Programa B :=
  fun t =>
    match c t with
    | (Devuelve a, t') => k a t'
    | (Lanza e, t') => (Lanza e, t')
    end.

Declare Scope prog_scope.
Delimit Scope prog_scope with prog.
Notation "x <- c ;; k" := (bindP c (fun x => k))
  (at level 61, c at next level, right associativity) : prog_scope.
Notation "c ;; k" := (bindP c (fun _ => k))
  (at level 61, right associativity) : prog_scope.

(** A computation of the calculator inside a run: the records it appends
    to the log are appended to the run. *)
Definition en_traza {A : Type} (c : M A) : Programa A :=
  fun t =>
    let l := registros t in
    let (r, l') := c l in
    (r, t ++ map Registrado (skipn (List.length l) l')).

Definition print (ts : list trozo) : Programa unit :=
  fun t => (Devuelve tt, t ++ [Impreso ts]).

Definition liftP {A : Type} (r : resultado A) : Programa A := fun t => (r, t).

(** [try: ... except ...]: the handler of the exception, if there is one,
    takes over where the body stopped. *)
Definition try_except {A : Type} (cuerpo : Programa A)
    (manejador : excepcion -> option (Programa A)) : Programa A :=
  fun t =>
    match cuerpo t with
    | (Devuelve a, t') => (Devuelve a, t')
    | (Lanza e, t') =>
        match manejador e with
        | Some h => h t'
        | None => (Lanza e, t')
        end
    end.

(** [math.pi] *)
Definition math_pi : float := 0x1.921fb54442d18p+1.

(** The body of the [try] of [main]. *)
Definition main_cuerpo (L : Libm) : Programa unit :=
  (print [Fijo "
=== Operaciones Básicas ==="] ;;
   v <- en_traza (sumar (VInt 5) (VInt 3)) ;;
   print [Fijo "Suma de 5 + 3 = "; Valor v] ;;
   v <- en_traza (restar (VInt 10) (VInt 4)) ;;
   print [Fijo "Resta de 10 - 4 = "; Valor v] ;;
   v <- en_traza (multiplicar (VInt 6) (VInt 7)) ;;
   print [Fijo "Multiplicación de 6 * 7 = "; Valor v] ;;
   v <- en_traza (dividir (VInt 15) (VInt 3)) ;;
   print [Fijo "División de 15 / 3 = "; Valor v] ;;
   print [Fijo "
=== Operaciones Avanzadas ==="] ;;
   v <- en_traza (potencia L (VInt 2) (VInt 3)) ;;
   print [Fijo "Potencia de 2^3 = "; Valor v] ;;
   v <- en_traza (raiz_cuadrada (VInt 16)) ;;
   print [Fijo "Raíz cuadrada de 16 = "; Valor v] ;;
   v <- en_traza (logaritmo_natural L (VFloat 0x1.5be76c8b43958p+1)) ;;
   print [Fijo "Logaritmo natural de 2.718 = "; Valor v] ;;
   v <- en_traza (logaritmo_base_10 L (VInt 100)) ;;
   print [Fijo "Logaritmo base 10 de 100 = "; Valor v] ;;
   print [Fijo "
=== Funciones Trigonométricas ==="] ;;
   angulo <- liftP (py_truediv (VFloat math_pi) (VInt 2)) ;;
   v <- en_traza (seno L angulo) ;;
   print [Fijo "Seno de π/2 = "; Valor v] ;;
   v <- en_traza (coseno L angulo) ;;
   print [Fijo "Coseno de π/2 = "; Valor v] ;;
   cuarto <- liftP (py_truediv (VFloat math_pi) (VInt 4)) ;;
   v <- en_traza (tangente L cuarto) ;;
   print [Fijo "Tangente de π/4 = "; Valor v] ;;
   print [Fijo "
=== Prueba de Manejo de Errores ==="] ;;
   print [Fijo "Intentando dividir por cero:"] ;;
   _ <- en_traza (dividir (VInt 5) (VInt 0)) ;;
   liftP (Devuelve tt))%prog.

(** The two [except] clauses of [main]; [str(e)] is the message. *)
Definition main_manejador (e : excepcion) : option (Programa unit) :=
  match e with
  | ValueError m =>
      Some (en_traza (logger_error "Error de valor: %s" [VStr m]) ;;
            print [Fijo "Error de valor: "; Fijo m])%prog
  | TypeError m =>
      Some (en_traza (logger_error "Error de tipo: %s" [VStr m]) ;;
            print [Fijo "Error de tipo: "; Fijo m])%prog
  | _ => None
  end.

Definition main (L : Libm) : Programa unit :=
  (en_traza init ;;
   try_except (main_cuerpo L) main_manejador)%prog.

(** ** Vocabulary of the statements *)

(** [v >= 0] and [v > 0] on a number. *)
Definition py_ge_0 (v : valor) : bool :=
  match v with
  | VInt z => 0 <=? z
  | VBool _ => true
  | VFloat f => (0 <=? f)%float
  | _ => false
  end.

Definition py_gt_0 (v : valor) : bool :=
  match v with
  | VInt z => 0 <? z
  | VBool b => b
  | VFloat f => (0 <? f)%float
  | _ => false
  end.

(** What [math.log] and [math.log10] return on a positive number, [func]
    being the C function: its value at the double of the number, the
    infinity itself at +inf, and the sum over mantissa and exponent for
    an integer beyond the doubles. *)
Definition log_de_positivo (func : float -> float) (v : valor) : float :=
  match PyFloat_AsDouble v, entero v with
  | Devuelve x, _ => if is_infinity x then x else func x
  | Lanza _, Some z =>
      let (x, e) := PyLong_Frexp z in
      (m_log func x + func 2 * double_de_entero e)%float
  | Lanza _, None => nan
  end.

(** The parts of a binary number: its sign bit, and whether it is a zero
    or an infinity. *)
Definition signo_sf (sf : spec_float) : option bool :=
  match sf with
  | S754_zero s | S754_infinity s | S754_finite s _ _ => Some s
  | S754_nan => None
  end.

Definition es_cero_sf (sf : spec_float) : bool :=
  match sf with S754_zero _ => true | _ => false end.

Definition es_infinito_sf (sf : spec_float) : bool :=
  match sf with S754_infinity _ => true | _ => false end.

(** The sign of a number, as [x ?= 0] would give it; [None] for NaN. *)
Definition signo (sf : spec_float) : option comparison :=
  match sf with
  | S754_nan => None
  | S754_zero _ => Some Eq
  | S754_infinity s | S754_finite s _ _ => Some (if s then Lt else Gt)
  end.

(** [y * y] against [x], both exact binary numbers, counted in the
    largest unit 2^k that measures both: they differ by at most one part
    in 2^52 of [y * y]. *)
Definition cuadrado_cercano (y x : spec_float) : Prop :=
  match y, x with
  | S754_zero _, S754_zero _ => True
  | S754_infinity false, S754_infinity false => True
  | S754_finite false my ey, S754_finite false mx ex =>
      let k := Z.min ex (2 * ey) in
      let yy := Zpos my * Zpos my * 2 ^ (2 * ey - k) in
      let xx := Zpos mx * 2 ^ (ex - k) in
      2 ^ 52 * Z.abs (yy - xx) <= yy
  | _, _ => False
  end.

(** ** Vocabulary of the further properties *)

(** Both operands are [int] or [bool]. *)
Definition ambos_enteros (a b : valor) : bool :=
  match entero a, entero b with
  | Some _, Some _ => true
  | _, _ => false
  end.

(** The methods that test their argument themselves before computing. *)
Definition tiene_guarda (c : llamada) : bool :=
  match c with
  | Dividir _ _ | RaizCuadrada _ | LogaritmoNatural _ | LogaritmoBase10 _ => true
  | _ => false
  end.

(** The methods that hand their arguments to [math] untested. *)
Definition llama_a_math_sin_guarda (c : llamada) : bool :=
  match c with
  | Potencia _ _ | Seno _ | Coseno _ | Tangente _ => true
  | _ => false
  end.

(** Two outcomes that a caller cannot tell apart: the same exception, or
    the same value.  Two floats are the same when they are the same
    double, the sign of a zero included; the doubles of this development
    have one NaN, which stands for all of them, so of two NaNs nothing
    more is said than that both are NaN. *)
Definition mismo_resultado (r r' : resultado valor) : Prop :=
  match r, r' with
  | Devuelve (VFloat x), Devuelve (VFloat y) =>
      if is_nan x then is_nan y = true else x = y
  | _, _ => r = r'
  end.

(** The methods whose template formats with [%f]. *)
Definition es_trigonometrica (c : llamada) : bool :=
  match c with
  | Seno _ | Coseno _ | Tangente _ => true
  | _ => false
  end.

(** The conversions of a template, in order. *)
Definition conversiones (ps : list parte) : list conversion :=
  flat_map (fun p => match p with Conv k => [k] | Literal _ => [] end) ps.

Definition sin_ConvS (ks : list conversion) : bool :=
  forallb (fun k => match k with ConvS => false | _ => true end) ks.

(** Conversions applied one after the other: the first failure wins. *)
Fixpoint convertir_todos (ks : list conversion) (vs : list valor)
  : resultado (list campo) :=
  match ks, vs with
  | k :: ks', v :: vs' =>
      match convertir k v with
      | Lanza e => Lanza e
      | Devuelve c =>
          match convertir_todos ks' vs' with
          | Devuelve cs => Devuelve (c :: cs)
          | Lanza e => Lanza e
          end
      end
  | _, _ => Devuelve []
  end.

(** The integer that [%d] writes for a number: a float loses its
    fraction. *)
Definition parte_entera (v : valor) : Z :=
  match v with
  | VInt z => z
  | VBool b => Z.b2z b
  | VFloat f => truncar f
  | _ => 0
  end.

(** A number that [%d] does not write: a float infinity or NaN, or an
    integer of more than 4300 digits. *)
Definition sin_decimal (v : valor) : bool :=
  match v with
  | VInt z => excede_el_limite z
  | VFloat f => negb (is_finite f)
  | _ => false
  end.

(** A float that is an infinity or NaN. *)
Definition no_finito (v : valor) : bool :=
  match v with
  | VFloat f => negb (is_finite f)
  | _ => false
  end.

(** The values that a run has printed, in order. *)
Definition valores_impresos (t : traza) : list valor :=
  flat_map (fun e =>
              match e with
              | Impreso ts =>
                  flat_map (fun x => match x with Valor v => [v] | Fijo _ => [] end) ts
              | Registrado _ => []
              end) t.

(** The last [n] events of a run. *)
Definition ultimos (n : nat) (t : traza) : traza :=
  skipn (List.length t - n)%nat t.

(** No record comes from the [except TypeError] clause of [main]. *)
Definition sin_error_de_tipo (l : bitacora) : bool :=
  forallb (fun r => negb (String.eqb (msg r) "Error de tipo: %s")) l.

(** What the [except ValueError] clause of [main] logs and prints. *)
Definition despedida (m : string) : traza :=
  [Registrado (mkLogRecord ERROR "Error de valor: %s" [VStr m]);
   Impreso [Fijo "Error de valor: "; Fijo m]].

(** * Properties *)

(** ** A library that meets the laws *)

Lemma trig_minima_infinito (x : float) :
  is_infinity x = true -> is_nan (trig_minima x) = true.
Proof.
  intros H. unfold trig_minima, is_finite. rewrite H, orb_true_r. reflexivity.
Qed.

Lemma trig_minima_finito (x : float) :
  is_finite x = true -> is_finite (trig_minima x) = true.
Proof.
  intros H. unfold trig_minima. rewrite H. reflexivity.
Qed.

Lemma pow_minima_polo (x y : float) :
  (x =? 0)%float = true -> is_finite y = true -> (y <? 0)%float = true ->
  is_infinity (pow_minima x y) = true.
Proof.
  intros Hx Hy Hn. unfold pow_minima. rewrite Hx, Hy, Hn. reflexivity.
Qed.

Definition libm_minima : Libm :=
  mkLibm trig_minima trig_minima trig_minima
         (fun _ => zero) (fun _ => zero) pow_minima
         trig_minima_infinito trig_minima_infinito trig_minima_infinito
         trig_minima_finito trig_minima_finito trig_minima_finito
         (fun _ _ _ => eq_refl) (fun _ _ _ => eq_refl)
         pow_minima_polo.

(** ** Binary numbers: digits, shifts and rounding

    [SpecFloat] gives the operations bit by bit and no theorem about them.
    What the properties below need is that rounding yields a valid
    number of the expected sign, which is zero or infinite only where the
    magnitude says so. *)

Ltac dlia := Z.div_mod_to_equations; lia.

Lemma fexp64 (x : Z) : fexp prec emax x = Z.max (x - 53) (-1074).
Proof. reflexivity. Qed.

Lemma digits2_pos_size (p : positive) : digits2_pos p = Pos.size p.
Proof. induction p; simpl; congruence. Qed.

Lemma Zdigits2_log2 (m : Z) : 0 < m -> Zdigits2 m = Z.log2 m + 1.
Proof.
  destruct m as [| p | p]; try lia. intros _.
  simpl. rewrite digits2_pos_size. destruct p; simpl; lia.
Qed.

Lemma Zdigits2_nonneg (m : Z) : 0 <= Zdigits2 m.
Proof. destruct m; simpl; lia. Qed.

Lemma Zdigits2_pos (m : Z) : 0 < m -> 0 < Zdigits2 m.
Proof. destruct m; simpl; lia. Qed.

Lemma Zdigits2_bounds (m : Z) :
  0 < m -> 2 ^ (Zdigits2 m - 1) <= m < 2 ^ Zdigits2 m.
Proof.
  intros H. rewrite (Zdigits2_log2 m H).
  replace (Z.log2 m + 1 - 1) with (Z.log2 m) by lia.
  apply (Z.log2_spec m H).
Qed.

Lemma Zdigits2_unique (m k : Z) :
  0 < k -> 2 ^ (k - 1) <= m < 2 ^ k -> Zdigits2 m = k.
Proof.
  intros Hk H.
  assert (0 < m) by (assert (0 < 2 ^ (k - 1)) by (apply Z.pow_pos_nonneg; lia); lia).
  rewrite (Zdigits2_log2 m) by assumption.
  rewrite (Z.log2_unique m (k - 1)); try lia.
  replace (Z.succ (k - 1)) with k by lia. exact H.
Qed.

Lemma Zdigits2_div_pow2 (m n : Z) :
  0 <= m -> 0 <= n -> Zdigits2 (m / 2 ^ n) = Z.max 0 (Zdigits2 m - n).
Proof.
  intros Hm Hn.
  assert (Hp : 0 < 2 ^ n) by (apply Z.pow_pos_nonneg; lia).
  destruct (Z.eq_dec m 0) as [-> | Hm0].
  - rewrite Z.div_0_l by lia. simpl. lia.
  - assert (Hmp : 0 < m) by lia.
    pose proof (Zdigits2_bounds m Hmp) as [Hlo Hhi].
    pose proof (Zdigits2_pos m Hmp) as Hd.
    destruct (Z_lt_le_dec (Zdigits2 m) (n + 1)) as [Hsmall | Hbig].
    + assert (m < 2 ^ n).
      { apply Z.lt_le_trans with (1 := Hhi). apply Z.pow_le_mono_r; lia. }
      rewrite Z.div_small by lia. simpl. lia.
    + rewrite Z.max_r by lia.
      apply Zdigits2_unique; [lia |].
      split.
      * apply Z.div_le_lower_bound; [lia |].
        rewrite <- Z.pow_add_r by lia.
        replace (n + (Zdigits2 m - n - 1)) with (Zdigits2 m - 1) by lia. exact Hlo.
      * apply Z.div_lt_upper_bound; [lia |].
        rewrite <- Z.pow_add_r by lia.
        replace (n + (Zdigits2 m - n)) with (Zdigits2 m) by lia. exact Hhi.
Qed.

Lemma Zdigits2_succ (m : Z) :
  0 <= m ->
  Zdigits2 (m + 1) = Zdigits2 m \/
  (Zdigits2 (m + 1) = Zdigits2 m + 1 /\ m + 1 = 2 ^ Zdigits2 m).
Proof.
  intros Hm.
  destruct (Z.eq_dec m 0) as [-> | Hm0].
  - right. split; reflexivity.
  - assert (Hmp : 0 < m) by lia.
    pose proof (Zdigits2_bounds m Hmp) as [Hlo Hhi].
    pose proof (Zdigits2_pos m Hmp) as Hd.
    destruct (Z.eq_dec (m + 1) (2 ^ Zdigits2 m)) as [Heq | Hne].
    + right. split; [| exact Heq].
      apply Zdigits2_unique; [lia |].
      replace (Zdigits2 m + 1 - 1) with (Zdigits2 m) by lia.
      rewrite Heq. split; [lia |].
      apply Z.pow_lt_mono_r; lia.
    + left. apply Zdigits2_unique; [lia |]. lia.
Qed.

Lemma Zdigits2_pow2 (k : Z) : 0 <= k -> Zdigits2 (2 ^ k) = k + 1.
Proof.
  intros Hk. apply Zdigits2_unique; [lia |].
  replace (k + 1 - 1) with k by lia. split; [lia |].
  apply Z.pow_lt_mono_r; lia.
Qed.

(** Shifting a mantissa right divides it by a power of two. *)
Lemma shr_1_m (mrs : shr_record) :
  0 <= shr_m mrs -> shr_m (shr_1 mrs) = shr_m mrs / 2.
Proof.
  destruct mrs as [m r s]. simpl.
  destruct m as [| [p | p |] | p]; intros H; try lia;
    rewrite <- Z.div2_div; reflexivity.
Qed.

Lemma iter_shr_1_m (n : positive) :
  forall mrs, 0 <= shr_m mrs ->
  shr_m (iter_pos shr_1 n mrs) = shr_m mrs / 2 ^ Zpos n.
Proof.
  induction n as [n IH | n IH |]; intros mrs H; simpl iter_pos.
  - assert (H1 : 0 <= shr_m (shr_1 mrs)).
    { rewrite shr_1_m by assumption. apply Z.div_pos; lia. }
    assert (H2 : 0 <= shr_m (iter_pos shr_1 n (shr_1 mrs))).
    { rewrite IH by assumption. apply Z.div_pos; [lia | apply Z.pow_pos_nonneg; lia]. }
    rewrite IH by assumption. rewrite IH by assumption. rewrite shr_1_m by assumption.
    assert (0 < 2 ^ Zpos n) by (apply Z.pow_pos_nonneg; lia).
    rewrite !Z.div_div by lia.
    f_equal.
    replace (Zpos n~1) with (1 + Zpos n + Zpos n) by lia.
    rewrite (Z.pow_add_r 2 (1 + Zpos n) (Zpos n)) by lia.
    rewrite (Z.pow_add_r 2 1 (Zpos n)) by lia. lia.
  - assert (H2 : 0 <= shr_m (iter_pos shr_1 n mrs)).
    { rewrite IH by assumption. apply Z.div_pos; [lia | apply Z.pow_pos_nonneg; lia]. }
    rewrite IH by assumption. rewrite IH by assumption.
    assert (0 < 2 ^ Zpos n) by (apply Z.pow_pos_nonneg; lia).
    rewrite !Z.div_div by lia.
    f_equal.
    replace (Zpos n~0) with (Zpos n + Zpos n) by lia.
    rewrite (Z.pow_add_r 2 (Zpos n) (Zpos n)) by lia. lia.
  - rewrite shr_1_m by assumption. reflexivity.
Qed.

Lemma shr_record_of_loc_m (m : Z) (l : location) :
  shr_m (shr_record_of_loc m l) = m.
Proof. destruct l as [| []]; reflexivity. Qed.

Lemma shr_fexp_m (m e : Z) (l : location) :
  0 <= m ->
  shr_m (fst (shr_fexp prec emax m e l)) =
    m / 2 ^ Z.max 0 (fexp prec emax (Zdigits2 m + e) - e) /\
  snd (shr_fexp prec emax m e l) = e + Z.max 0 (fexp prec emax (Zdigits2 m + e) - e).
Proof.
  intros Hm. unfold shr_fexp, shr.
  destruct (fexp prec emax (Zdigits2 m + e) - e) as [| n | n] eqn:E; simpl fst; simpl snd.
  - rewrite shr_record_of_loc_m. simpl. rewrite Z.div_1_r. lia.
  - rewrite iter_shr_1_m by (rewrite shr_record_of_loc_m; exact Hm).
    rewrite shr_record_of_loc_m. rewrite Z.max_r by lia. lia.
  - rewrite shr_record_of_loc_m. rewrite Z.max_l by lia. simpl.
    rewrite Z.div_1_r. lia.
Qed.

Lemma round_nearest_even_cases (m : Z) (l : location) :
  round_nearest_even m l = m \/ round_nearest_even m l = m + 1.
Proof.
  destruct l as [| []]; simpl; auto. destruct (Z.even m); auto.
Qed.

Lemma binary_round_aux_spec (sx : bool) (mx ex : Z) (lx : location) :
  0 <= mx -> ex <= fexp prec emax (Zdigits2 mx + ex) ->
  let R := binary_round_aux prec emax sx mx ex lx in
  valid_binary R = true /\ signo_sf R = Some sx /\
  (0 < mx -> -1074 < Zdigits2 mx + ex -> es_cero_sf R = false) /\
  (Zdigits2 mx + ex < 1024 -> es_infinito_sf R = false).
Proof.
  intros Hm Hex. unfold binary_round_aux.
  pose proof (shr_fexp_m mx ex lx Hm) as [Hm1 He1].
  destruct (shr_fexp prec emax mx ex lx) as [mrs1 e1]. simpl fst in Hm1. simpl snd in He1.
  set (n1 := Z.max 0 (fexp prec emax (Zdigits2 mx + ex) - ex)) in *.
  assert (Hn1 : 0 <= n1) by (unfold n1; lia).
  assert (Hm1pos : 0 <= shr_m mrs1).
  { rewrite Hm1. apply Z.div_pos; [lia | apply Z.pow_pos_nonneg; lia]. }
  pose proof (Zdigits2_div_pow2 mx n1 Hm Hn1) as Hd1. rewrite <- Hm1 in Hd1.
  set (m1' := round_nearest_even (shr_m mrs1) (loc_of_shr_record mrs1)).
  assert (Hm1' : 0 <= m1' /\
                 (Zdigits2 m1' = Zdigits2 (shr_m mrs1) \/
                  Zdigits2 m1' = Zdigits2 (shr_m mrs1) + 1) /\
                 (0 < shr_m mrs1 -> 0 < m1')).
  { destruct (round_nearest_even_cases (shr_m mrs1) (loc_of_shr_record mrs1)) as [E | E];
      fold m1' in E; rewrite E.
    - split; [lia | split; [now left | lia]].
    - split; [lia | split; [| lia]].
      destruct (Zdigits2_succ (shr_m mrs1) Hm1pos) as [E' | [E' _]]; auto. }
  destruct Hm1' as [Hm1'pos [Hd1' Hm1'nz]].
  pose proof (shr_fexp_m m1' e1 loc_Exact Hm1'pos) as [Hm2 He2].
  destruct (shr_fexp prec emax m1' e1 loc_Exact) as [mrs2 e2].
  simpl fst in Hm2. simpl snd in He2.
  set (n2 := Z.max 0 (fexp prec emax (Zdigits2 m1' + e1) - e1)) in *.
  assert (Hn2 : 0 <= n2) by (unfold n2; lia).
  pose proof (Zdigits2_div_pow2 m1' n2 Hm1'pos Hn2) as Hd2. rewrite <- Hm2 in Hd2.
  assert (Hm2pos : 0 <= shr_m mrs2).
  { rewrite Hm2. apply Z.div_pos; [lia | apply Z.pow_pos_nonneg; lia]. }
  pose proof (Zdigits2_nonneg mx) as Hdm.
  pose proof (Zdigits2_nonneg (shr_m mrs1)) as Hdm1.
  assert (Hnz1 : 0 < mx -> 0 < Zdigits2 (shr_m mrs1) -> 0 < shr_m mrs1).
  { intros _ Hd. destruct (shr_m mrs1); simpl in Hd; lia. }
  unfold n1, n2 in *. rewrite !fexp64 in *.
  destruct (shr_m mrs2) as [| m2 | m2] eqn:Em2.
  - simpl. repeat split; auto.
    intros Hmx HD. exfalso.
    assert (0 < Zdigits2 (shr_m mrs1)) by lia.
    assert (0 < shr_m mrs1) by auto.
    assert (0 < m1') by auto.
    assert (0 < Zdigits2 m1') by (apply Zdigits2_pos; assumption).
    simpl in Hd2. lia.
  - assert (Hd2' : Zdigits2 (Zpos m2) = Zpos (digits2_pos m2)) by reflexivity.
    assert (0 < Zpos (digits2_pos m2)) by lia.
    destruct (e2 <=? emax - prec) eqn:Ele.
    + apply Z.leb_le in Ele. unfold emax, prec in Ele.
      simpl. repeat split; auto.
      unfold bounded, canonical_mantissa. rewrite fexp64.
      apply andb_true_intro. split.
      * apply Z.eqb_eq. lia.
      * apply Z.leb_le. unfold emax, prec. lia.
    + apply Z.leb_gt in Ele. unfold emax, prec in Ele.
      simpl. repeat split; auto.
      intros HD. exfalso. lia.
  - lia.
Qed.

Lemma iter_xO (m d : positive) : Zpos (Pos.iter xO m d) = Zpos m * 2 ^ Zpos d.
Proof.
  induction d as [| d IH] using Pos.peano_ind.
  - simpl. lia.
  - rewrite Pos.iter_succ, Pos2Z.inj_xO, IH, Pos2Z.inj_succ, Z.pow_succ_r by lia. lia.
Qed.

Lemma Zdigits2_mul_pow2 (m s : Z) :
  0 < m -> 0 <= s -> Zdigits2 (m * 2 ^ s) = Zdigits2 m + s.
Proof.
  intros Hm Hs.
  assert (0 < 2 ^ s) by (apply Z.pow_pos_nonneg; lia).
  rewrite !Zdigits2_log2 by nia.
  rewrite Z.log2_mul_pow2 by lia. lia.
Qed.

Lemma shl_align_spec (mx : positive) (ex ex' : Z) :
  let '(mz, ez) := shl_align mx ex ex' in
  ez = Z.min ex ex' /\ Zdigits2 (Zpos mz) + ez = Zdigits2 (Zpos mx) + ex.
Proof.
  unfold shl_align.
  destruct (ex' - ex) as [| d | d] eqn:E.
  - split; lia.
  - split; lia.
  - split; [lia |].
    rewrite iter_xO, Zdigits2_mul_pow2 by lia. lia.
Qed.

Lemma binary_round_spec (sx : bool) (mx : positive) (ex : Z) :
  let R := binary_round prec emax sx mx ex in
  valid_binary R = true /\ signo_sf R = Some sx /\
  (-1074 < Zdigits2 (Zpos mx) + ex -> es_cero_sf R = false) /\
  (Zdigits2 (Zpos mx) + ex < 1024 -> es_infinito_sf R = false).
Proof.
  unfold binary_round.
  pose proof (shl_align_spec mx ex (fexp prec emax (Zpos (digits2_pos mx) + ex))) as H.
  destruct (shl_align mx ex (fexp prec emax (Zpos (digits2_pos mx) + ex))) as [mz ez].
  destruct H as [Hez HD].
  change (Zpos (digits2_pos mx)) with (Zdigits2 (Zpos mx)) in Hez.
  assert (Hpre : ez <= fexp prec emax (Zdigits2 (Zpos mz) + ez)) by (rewrite HD; lia).
  destruct (binary_round_aux_spec sx (Zpos mz) ez loc_Exact ltac:(lia) Hpre)
    as [Hv [Hs [Hz Hi]]].
  rewrite HD in Hz, Hi.
  repeat split; auto. intros. apply Hz; lia.
Qed.

(** An integer rounded to a double. *)
Lemma binary_normalize_entero (z : Z) :
  let R := binary_normalize prec emax z 0 false in
  valid_binary R = true /\ signo_sf R = Some (z <? 0) /\
  es_cero_sf R = (z =? 0) /\ R <> S754_nan.
Proof.
  destruct z as [| p | p]; simpl binary_normalize.
  - split; [reflexivity | split; [reflexivity | split; [reflexivity | discriminate]]].
  - destruct (binary_round_spec false p 0) as [Hv [Hs [Hz _]]].
    pose proof (Zdigits2_pos (Zpos p) ltac:(lia)).
    split; [exact Hv | split; [exact Hs | split]].
    + apply Hz. lia.
    + intros E. rewrite E in Hs. discriminate.
  - destruct (binary_round_spec true p 0) as [Hv [Hs [Hz _]]].
    pose proof (Zdigits2_pos (Zpos p) ltac:(lia)).
    split; [exact Hv | split; [exact Hs | split]].
    + apply Hz. lia.
    + intros E. rewrite E in Hs. discriminate.
Qed.

Lemma Zdigits2_sqrt (a : Z) :
  0 < a -> Zdigits2 (Z.sqrt a) = (Zdigits2 a + 1) / 2.
Proof.
  intros Ha.
  pose proof (Zdigits2_bounds a Ha) as [Hlo Hhi].
  pose proof (Zdigits2_pos a Ha) as Hk.
  set (k := Zdigits2 a) in *. set (j := (k + 1) / 2).
  assert (Hj : 2 * j - 1 <= k <= 2 * j) by (unfold j; dlia).
  apply Zdigits2_unique; [lia |].
  split.
  - apply Z.sqrt_le_square; [lia | apply Z.pow_nonneg; lia |].
    rewrite <- Z.pow_add_r by lia.
    apply Z.le_trans with (2 := Hlo). apply Z.pow_le_mono_r; lia.
  - apply Z.sqrt_lt_square; [lia | apply Z.pow_nonneg; lia |].
    rewrite <- Z.pow_add_r by lia.
    apply Z.lt_le_trans with (1 := Hhi). apply Z.pow_le_mono_r; lia.
Qed.

Lemma valid_binary_finite (s : bool) (m : positive) (e : Z) :
  valid_binary (S754_finite s m e) = true ->
  Zdigits2 (Zpos m) <= 53 /\ -1074 <= e <= 971 /\
  (Zdigits2 (Zpos m) = 53 \/ e = -1074).
Proof.
  unfold SpecFloat.valid_binary, bounded, canonical_mantissa. rewrite fexp64.
  intros H. apply andb_true_iff in H. destruct H as [H1 H2].
  apply Z.eqb_eq in H1. apply Z.leb_le in H2. unfold emax, prec in H2.
  change (Zpos (digits2_pos m)) with (Zdigits2 (Zpos m)) in H1. lia.
Qed.

(** The square root of a positive double is a positive double. *)
Lemma SFsqrt_finito (m : positive) (e : Z) :
  valid_binary (S754_finite false m e) = true ->
  let R := SFsqrt prec emax (S754_finite false m e) in
  valid_binary R = true /\ signo_sf R = Some false /\
  es_cero_sf R = false /\ es_infinito_sf R = false.
Proof.
  intros Hv. apply valid_binary_finite in Hv. destruct Hv as [Hd [He _]].
  pose proof (Zdigits2_pos (Zpos m) ltac:(lia)) as Hd0.
  unfold SFsqrt, SFsqrt_core_binary.
  set (d := Zdigits2 (Zpos m)) in *.
  set (e' := Z.min (fexp prec emax (Z.div2 (d + e + 1))) (Z.div2 e)).
  set (s := e - 2 * e').
  assert (He' : e' = Z.min (Z.max ((d + e + 1) / 2 - 53) (-1074)) (e / 2)).
  { unfold e'. rewrite fexp64, !Z.div2_div. reflexivity. }
  assert (Hs : 0 <= s) by (unfold s; dlia).
  set (m' := match s with Zpos _ => Z.shiftl (Zpos m) s | Z0 => Zpos m | Zneg _ => 0 end).
  assert (Hm' : m' = Zpos m * 2 ^ s).
  { unfold m'. destruct s as [| p | p] eqn:Es.
    - simpl. lia.
    - rewrite Z.shiftl_mul_pow2 by lia. reflexivity.
    - lia. }
  assert (Hm'pos : 0 < m').
  { rewrite Hm'. assert (0 < 2 ^ s) by (apply Z.pow_pos_nonneg; lia). nia. }
  pose proof (Z.sqrtrem_sqrt m') as Hq.
  destruct (Z.sqrtrem m') as [q r]. simpl in Hq. subst q.
  assert (Hq0 : 0 < Z.sqrt m') by (apply Z.sqrt_pos; exact Hm'pos).
  assert (HDq : Zdigits2 (Z.sqrt m') + e' = (d + e + 1) / 2).
  { rewrite Zdigits2_sqrt by assumption.
    rewrite Hm', Zdigits2_mul_pow2 by lia. fold d. unfold s. dlia. }
  match goal with |- context [binary_round_aux _ _ _ _ _ ?l] => set (lz := l) end.
  assert (Hpre : e' <= fexp prec emax (Zdigits2 (Z.sqrt m') + e')).
  { rewrite HDq, fexp64. dlia. }
  destruct (binary_round_aux_spec false (Z.sqrt m') e' lz ltac:(lia) Hpre)
    as [Hval [Hsig [Hz Hi]]].
  rewrite HDq in Hz, Hi.
  split; [exact Hval | split; [exact Hsig | split]].
  - apply Hz; dlia.
  - apply Hi; dlia.
Qed.

Lemma loc_of_shr_record_of_loc (m : Z) (l : location) :
  loc_of_shr_record (shr_record_of_loc m l) = l.
Proof. destruct l as [| []]; reflexivity. Qed.

(** Rounding a mantissa that is already at its exponent: nothing is
    shifted out, and the result is the rounded mantissa, exactly. *)
Lemma binary_round_aux_canonico (sx : bool) (mx ex : Z) (lx : location) :
  0 < mx -> ex = fexp prec emax (Zdigits2 mx + ex) -> Zdigits2 mx + ex < 1024 ->
  exists (m2 : positive) (e2 : Z),
    binary_round_aux prec emax sx mx ex lx = S754_finite sx m2 e2 /\
    ex <= e2 /\ Zpos m2 * 2 ^ (e2 - ex) = round_nearest_even mx lx.
Proof.
  intros Hm Hex HD. unfold binary_round_aux.
  assert (E1 : shr_fexp prec emax mx ex lx = (shr_record_of_loc mx lx, ex)).
  { unfold shr_fexp, shr. rewrite <- Hex, Z.sub_diag. reflexivity. }
  rewrite E1, loc_of_shr_record_of_loc, shr_record_of_loc_m.
  set (m1 := round_nearest_even mx lx).
  assert (Hm1 : m1 = mx \/ m1 = mx + 1) by apply round_nearest_even_cases.
  assert (Hm1pos : 0 < m1) by lia.
  pose proof (shr_fexp_m m1 ex loc_Exact ltac:(lia)) as [Hm2 He2].
  destruct (shr_fexp prec emax m1 ex loc_Exact) as [mrs2 e2].
  simpl fst in Hm2. simpl snd in He2.
  pose proof (Zdigits2_pos mx Hm) as Hdpos.
  assert (Hd1 : Zdigits2 m1 = Zdigits2 mx \/
                (Zdigits2 m1 = Zdigits2 mx + 1 /\ m1 = 2 ^ Zdigits2 mx)).
  { destruct Hm1 as [E | E]; rewrite E; [now left |].
    destruct (Zdigits2_succ mx ltac:(lia)) as [Ed | [Ed Ep]]; auto. }
  rewrite fexp64 in Hex, Hm2, He2.
  assert (Hcases : (e2 = ex /\ shr_m mrs2 = m1) \/
                   (e2 = ex + 1 /\ shr_m mrs2 * 2 = m1)).
  { destruct Hd1 as [Ed | [Ed Ep]].
    - left. rewrite Ed in Hm2, He2.
      replace (Z.max 0 (Z.max (Zdigits2 mx + ex - 53) (-1074) - ex)) with 0
        in Hm2, He2 by lia.
      rewrite Z.div_1_r in Hm2. lia.
    - rewrite Ed in Hm2, He2.
      destruct (Z.eq_dec (Z.max 0 (Z.max (Zdigits2 mx + 1 + ex - 53) (-1074) - ex)) 0)
        as [En | En].
      + left. rewrite En in Hm2, He2. rewrite Z.div_1_r in Hm2. lia.
      + right.
        replace (Z.max 0 (Z.max (Zdigits2 mx + 1 + ex - 53) (-1074) - ex)) with 1
          in Hm2, He2 by lia.
        split; [lia |]. rewrite Hm2, Ep.
        replace (Zdigits2 mx) with (1 + (Zdigits2 mx - 1)) by lia.
        rewrite Z.pow_add_r by lia. change (2 ^ 1) with 2.
        rewrite (Z.mul_comm 2), Z.div_mul by lia. lia. }
  assert (He2le : e2 <= 971) by lia.
  destruct (shr_m mrs2) as [| p | p] eqn:Ep; try lia.
  exists p, e2.
  replace (e2 <=? emax - prec) with true
    by (symmetry; apply Z.leb_le; unfold emax, prec; lia).
  split; [reflexivity | split; [lia |]].
  destruct Hcases as [[En E] | [En E]]; rewrite En.
  - rewrite Z.sub_diag. simpl. lia.
  - replace (ex + 1 - ex) with 1 by lia. simpl. lia.
Qed.

Lemma SFsqrt_exacto (m : positive) (e : Z) :
  valid_binary (S754_finite false m e) = true ->
  exists (my : positive) (ey e' : Z),
    SFsqrt prec emax (S754_finite false m e) = S754_finite false my ey /\
    2 * e' <= e /\ e' <= ey /\
    Z.abs ((Zpos my * 2 ^ (ey - e')) * (Zpos my * 2 ^ (ey - e'))
           - Zpos m * 2 ^ (e - 2 * e')) <= Zpos my * 2 ^ (ey - e') /\
    2 ^ 52 <= Zpos my * 2 ^ (ey - e').
Proof.
  intros Hv. apply valid_binary_finite in Hv. destruct Hv as [Hd [He Hcan]].
  pose proof (Zdigits2_pos (Zpos m) ltac:(lia)) as Hd0.
  unfold SFsqrt, SFsqrt_core_binary.
  set (d := Zdigits2 (Zpos m)) in *.
  set (e' := Z.min (fexp prec emax (Z.div2 (d + e + 1))) (Z.div2 e)).
  assert (He' : e' = (d + e + 1) / 2 - 53).
  { unfold e'. rewrite fexp64, !Z.div2_div. dlia. }
  set (s := e - 2 * e').
  assert (Hs : 0 <= s) by (unfold s; dlia).
  set (m' := match s with Zpos _ => Z.shiftl (Zpos m) s | Z0 => Zpos m | Zneg _ => 0 end).
  assert (Hm' : m' = Zpos m * 2 ^ s).
  { unfold m'. destruct s as [| p | p] eqn:Es.
    - simpl. lia.
    - rewrite Z.shiftl_mul_pow2 by lia. reflexivity.
    - lia. }
  assert (Hm'pos : 0 < m').
  { rewrite Hm'. assert (0 < 2 ^ s) by (apply Z.pow_pos_nonneg; lia). nia. }
  pose proof (Z.sqrtrem_spec m' ltac:(lia)) as Hqr.
  pose proof (Z.sqrtrem_sqrt m') as Hq.
  destruct (Z.sqrtrem m') as [q r]. simpl in Hq. destruct Hqr as [Hm'q Hr].
  assert (Hq0 : 0 < q) by (rewrite Hq; apply Z.sqrt_pos; exact Hm'pos).
  assert (HDq : Zdigits2 q = 53).
  { rewrite Hq, Zdigits2_sqrt by assumption.
    rewrite Hm', Zdigits2_mul_pow2 by lia. fold d. unfold s. dlia. }
  pose proof (Zdigits2_bounds q Hq0) as [Hqlo _]. rewrite HDq in Hqlo.
  change (53 - 1) with 52 in Hqlo.
  match goal with |- context [binary_round_aux _ _ _ _ _ ?l] => set (lz := l) end.
  assert (Hpre : e' = fexp prec emax (Zdigits2 q + e')).
  { rewrite HDq, fexp64. dlia. }
  destruct (binary_round_aux_canonico false q e' lz Hq0 Hpre ltac:(rewrite HDq; dlia))
    as [my [ey [Hres [Hey HY]]]].
  exists my, ey, e'. split; [exact Hres |].
  split; [unfold s in Hs; lia | split; [exact Hey |]].
  rewrite HY. fold s. rewrite <- Hm', Hm'q.
  assert (Hround : (round_nearest_even q lz = q /\ r <= q) \/
                   (round_nearest_even q lz = q + 1 /\ q < r)).
  { unfold lz. destruct (Z.eqb_spec r 0) as [-> | Hr0]; simpl; [left; lia |].
    destruct (Z.leb_spec r q); simpl; [left | right]; lia. }
  destruct Hround as [[-> Hrq] | [-> Hrq]]; split; try lia; nia.
Qed.

Lemma SFsqrt_cercano (m : positive) (e : Z) :
  valid_binary (S754_finite false m e) = true ->
  cuadrado_cercano (SFsqrt prec emax (S754_finite false m e)) (S754_finite false m e).
Proof.
  intros Hv.
  destruct (SFsqrt_exacto m e Hv) as [my [ey [e' [-> [He' [Hey [Hclose Hbig]]]]]]].
  unfold cuadrado_cercano. cbv zeta.
  set (k := Z.min e (2 * ey)).
  assert (Hk : 2 * e' <= k) by (unfold k; lia).
  assert (Hke : k <= e) by (unfold k; lia).
  assert (Hky : k <= 2 * ey) by (unfold k; lia).
  set (c := 2 ^ (k - 2 * e')).
  assert (Hc : 0 < c) by (apply Z.pow_pos_nonneg; lia).
  assert (EY : (Zpos my * 2 ^ (ey - e')) * (Zpos my * 2 ^ (ey - e')) =
               Zpos my * Zpos my * 2 ^ (2 * ey - k) * c).
  { assert (EP : 2 ^ (ey - e') * 2 ^ (ey - e') = 2 ^ (2 * ey - k) * c).
    { unfold c. rewrite <- !Z.pow_add_r by lia. f_equal. lia. }
    replace (Zpos my * 2 ^ (ey - e') * (Zpos my * 2 ^ (ey - e')))
      with (Zpos my * Zpos my * (2 ^ (ey - e') * 2 ^ (ey - e'))) by ring.
    rewrite EP. ring. }
  assert (EX : Zpos m * 2 ^ (e - 2 * e') = Zpos m * 2 ^ (e - k) * c).
  { unfold c. rewrite <- Z.mul_assoc, <- Z.pow_add_r by lia.
    do 2 f_equal. lia. }
  rewrite EY, EX in Hclose.
  set (Y := Zpos my * 2 ^ (ey - e')) in *.
  set (yy := Zpos my * Zpos my * 2 ^ (2 * ey - k)) in *.
  set (xx := Zpos m * 2 ^ (e - k)) in *.
  assert (H1 : 2 ^ 52 * Z.abs (yy - xx) * c <= yy * c).
  { replace (yy * c - xx * c) with ((yy - xx) * c) in Hclose by ring.
    rewrite Z.abs_mul, (Z.abs_eq c) in Hclose by lia.
    rewrite <- EY.
    apply Z.le_trans with (2 ^ 52 * Y); [nia |].
    apply Z.mul_le_mono_nonneg_r; lia. }
  apply Z.mul_le_mono_pos_r in H1; assumption.
Qed.

(** ** Doubles against zero *)

Lemma SFcompare_refl_finite (s : bool) (m : positive) (e : Z) :
  SFcompare (S754_finite s m e) (S754_finite s m e) = Some Eq.
Proof.
  simpl. rewrite Z.compare_refl, Pos.compare_cont_refl. destruct s; reflexivity.
Qed.

Lemma is_nan_signo (x : float) :
  is_nan x = match signo (Prim2SF x) with None => true | Some _ => false end.
Proof.
  unfold is_nan. rewrite eqb_spec. unfold SFeqb.
  destruct (Prim2SF x) as [[] | [] | | s m e]; try reflexivity.
  rewrite SFcompare_refl_finite. reflexivity.
Qed.

Lemma is_infinity_Prim2SF (x : float) :
  is_infinity x = es_infinito_sf (Prim2SF x).
Proof.
  unfold is_infinity. rewrite eqb_spec, abs_spec.
  change (Prim2SF infinity) with (S754_infinity false).
  destruct (Prim2SF x) as [[] | [] | | s m e]; reflexivity.
Qed.

Lemma eqb_0_signo (x : float) :
  (x =? 0)%float = match signo (Prim2SF x) with Some Eq => true | _ => false end.
Proof.
  rewrite eqb_spec. change (Prim2SF 0) with (S754_zero false).
  destruct (Prim2SF x) as [[] | [] | | [] m e]; reflexivity.
Qed.

Lemma ltb_0_signo (x : float) :
  (x <? 0)%float = match signo (Prim2SF x) with Some Lt => true | _ => false end.
Proof.
  rewrite ltb_spec. change (Prim2SF 0) with (S754_zero false).
  destruct (Prim2SF x) as [[] | [] | | [] m e]; reflexivity.
Qed.

Lemma leb_0_signo (x : float) :
  (x <=? 0)%float =
  match signo (Prim2SF x) with Some Lt | Some Eq => true | _ => false end.
Proof.
  rewrite leb_spec. change (Prim2SF 0) with (S754_zero false).
  destruct (Prim2SF x) as [[] | [] | | [] m e]; reflexivity.
Qed.

Lemma gtb_0_signo (x : float) :
  (0 <? x)%float = match signo (Prim2SF x) with Some Gt => true | _ => false end.
Proof.
  rewrite ltb_spec. change (Prim2SF 0) with (S754_zero false).
  destruct (Prim2SF x) as [[] | [] | | [] m e]; reflexivity.
Qed.

Lemma geb_0_signo (x : float) :
  (0 <=? x)%float =
  match signo (Prim2SF x) with Some Gt | Some Eq => true | _ => false end.
Proof.
  rewrite leb_spec. change (Prim2SF 0) with (S754_zero false).
  destruct (Prim2SF x) as [[] | [] | | [] m e]; reflexivity.
Qed.

Lemma signo_de_partes (sf : spec_float) (z : Z) :
  signo_sf sf = Some (z <? 0) -> es_cero_sf sf = (z =? 0) ->
  signo sf = Some (z ?= 0).
Proof.
  destruct sf as [s | s | | s m e]; simpl; intros Hs Hz; try discriminate.
  - symmetry in Hz. apply Z.eqb_eq in Hz. subst z. reflexivity.
  - injection Hs as ->. symmetry in Hz. apply Z.eqb_neq in Hz.
    destruct (Z.ltb_spec z 0) as [Hlt | Hge].
    + apply Z.compare_lt_iff in Hlt. now rewrite Hlt.
    + assert (Hgt : z > 0) by lia. unfold Z.gt in Hgt. now rewrite Hgt.
  - injection Hs as ->. symmetry in Hz. apply Z.eqb_neq in Hz.
    destruct (Z.ltb_spec z 0) as [Hlt | Hge].
    + apply Z.compare_lt_iff in Hlt. now rewrite Hlt.
    + assert (Hgt : z > 0) by lia. unfold Z.gt in Hgt. now rewrite Hgt.
Qed.

(** The double of an integer is finite and has the sign of the integer. *)
Lemma conv_entero_spec (z : Z) (x : float) :
  SF2Prim (binary_normalize prec emax z 0 false) = x ->
  es_infinito_sf (binary_normalize prec emax z 0 false) = false ->
  signo (Prim2SF x) = Some (z ?= 0) /\ is_infinity x = false.
Proof.
  intros Hx Hinf.
  destruct (binary_normalize_entero z) as [Hv [Hs [Hz Hn]]].
  subst x. rewrite is_infinity_Prim2SF.
  rewrite (Prim2SF_SF2Prim _ Hv).
  split; [now apply signo_de_partes | exact Hinf].
Qed.

(** The square root keeps zero, infinity and the positive doubles. *)
Lemma sqrt_signo (x : float) :
  (0 <=? x)%float = true ->
  signo (Prim2SF (PrimFloat.sqrt x)) = signo (Prim2SF x) /\
  is_infinity (PrimFloat.sqrt x) = is_infinity x.
Proof.
  rewrite geb_0_signo, !is_infinity_Prim2SF, sqrt_spec.
  pose proof (Prim2SF_valid x) as Hv. unfold SF64sqrt.
  destruct (Prim2SF x) as [s | [] | | [] m e];
    try (simpl; discriminate); try (intros _; split; reflexivity).
  intros _.
  destruct (SFsqrt_finito m e Hv) as [_ [Hs [Hz Hi]]].
  destruct (SFsqrt prec emax (S754_finite false m e)) as [s' | s' | | s' m' e'];
    try discriminate.
  injection Hs as ->. split; reflexivity.
Qed.

(** ** The model at work

    The demonstration of [main], as far as the results go, and the edges
    of the arithmetic, as CPython computes them. *)

Example escenario_init :
  init [] = (Devuelve tt, [mkLogRecord INFO "Iniciando calculadora científica" []]).
Proof. reflexivity. Qed.

Example escenario_sumar :
  sumar (VInt 5) (VInt 3) [] =
  (Devuelve (VInt 8), [mkLogRecord INFO "Sumando %d + %d" [VInt 5; VInt 3]]).
Proof. reflexivity. Qed.

Example escenario_dividir :
  salida (dividir (VInt 15) (VInt 3)) [] = Devuelve (VFloat 5).
Proof. reflexivity. Qed.

Example escenario_dividir_por_cero :
  dividir (VInt 5) (VInt 0) [] =
  (Lanza (ValueError "No se puede dividir por cero"),
   [mkLogRecord ERROR "Intento de división por cero al intentar dividir %d por %d"
                [VInt 5; VInt 0]]).
Proof. reflexivity. Qed.

Example escenario_raiz_cuadrada :
  salida (raiz_cuadrada (VInt 16)) [] = Devuelve (VFloat 4).
Proof. reflexivity. Qed.

Example escenario_tipo :
  sumar (VStr "a") (VInt 1) [] =
  (Lanza (TypeError "Se esperaba un número, se recibió <class 'str'>"), []).
Proof. reflexivity. Qed.

Example conversion_al_par :
  PyLong_AsDouble (2 ^ 53 + 1) = Devuelve 9007199254740992%float /\
  PyLong_AsDouble (2 ^ 53 + 3) = Devuelve 9007199254740996%float.
Proof. split; reflexivity. Qed.

Example conversion_en_el_limite :
  PyLong_AsDouble (2 ^ 1024 - 2 ^ 970 - 1) = Devuelve 0x1.fffffffffffffp+1023%float /\
  PyLong_AsDouble (2 ^ 1024 - 2 ^ 970) = Lanza desborda.
Proof. split; vm_compute; reflexivity. Qed.

Example cociente_de_enteros :
  long_true_divide 1 3 = Devuelve (VFloat 0x1.5555555555555p-2) /\
  long_true_divide 0 (-5) = Devuelve (VFloat neg_zero) /\
  long_true_divide (2 ^ 2000) (2 ^ 1000) = Devuelve (VFloat 0x1p+1000) /\
  long_true_divide 1 (10 ^ 400) = Devuelve (VFloat 0) /\
  long_true_divide (2 ^ 2000) 3 =
    Lanza (OverflowError "integer division result too large for a float").
Proof. repeat split; vm_compute; reflexivity. Qed.

Example frexp_de_entero :
  PyLong_Frexp (2 ^ 1024 - 1) = (0.5%float, 1025) /\
  PyLong_Frexp (3 * 2 ^ 2000) = (0.75%float, 2002).
Proof. split; vm_compute; reflexivity. Qed.

Example potencia_en_los_infinitos (L : Libm) :
  math_pow_impl L neg_infinity 3 = Devuelve (VFloat neg_infinity) /\
  math_pow_impl L neg_infinity (-3) = Devuelve (VFloat neg_zero) /\
  math_pow_impl L 0 neg_infinity = Devuelve (VFloat infinity) /\
  math_pow_impl L nan 0 = Devuelve (VFloat 1) /\
  math_pow_impl L 1 nan = Devuelve (VFloat 1).
Proof. repeat split; vm_compute; reflexivity. Qed.

Example raiz_cuadrada_en_los_bordes :
  salida (raiz_cuadrada (VFloat neg_zero)) [] = Devuelve (VFloat neg_zero) /\
  salida (raiz_cuadrada (VFloat infinity)) [] = Devuelve (VFloat infinity) /\
  salida (raiz_cuadrada (VFloat nan)) [] = Devuelve (VFloat nan) /\
  salida (raiz_cuadrada (VBool true)) [] = Devuelve (VFloat 1).
Proof. repeat split; vm_compute; reflexivity. Qed.

(** ** Validation *)

Lemma primer_no_numero_None (argumentos : list valor) :
  primer_no_numero argumentos = None <-> forallb es_numero argumentos = true.
Proof.
  unfold primer_no_numero.
  induction argumentos as [| v resto IH]; simpl.
  - tauto.
  - destruct (es_numero v); simpl.
    + exact IH.
    + split; discriminate.
Qed.

Lemma primer_no_numero_Some (argumentos : list valor) (v : valor) :
  primer_no_numero argumentos = Some v -> In v argumentos /\ es_numero v = false.
Proof.
  unfold primer_no_numero. intros H.
  apply find_some in H. destruct H as [Hin Hneg].
  split; [exact Hin | now apply negb_true_iff].
Qed.

Lemma forallb_false_primero (argumentos : list valor) :
  forallb es_numero argumentos = false ->
  exists v, primer_no_numero argumentos = Some v.
Proof.
  intros H. destruct (primer_no_numero argumentos) as [v |] eqn:E.
  - now exists v.
  - apply primer_no_numero_None in E. congruence.
Qed.

(** Validation passes without a trace when every argument is a number. *)
Lemma validar_numeros_pasa (argumentos : list valor) (l : bitacora) :
  forallb es_numero argumentos = true ->
  validar_numeros argumentos l = (Devuelve tt, l).
Proof.
  induction argumentos as [| v resto IH]; simpl; intros H.
  - reflexivity.
  - apply andb_true_iff in H. destruct H as [Hv Hr].
    rewrite Hv. now apply IH.
Qed.

(** Otherwise it raises for the first offender, and logs nothing. *)
Lemma validar_numeros_falla (argumentos : list valor) (v : valor) (l : bitacora) :
  primer_no_numero argumentos = Some v ->
  validar_numeros argumentos l = (Lanza (TypeError (mensaje_de_tipo v)), l).
Proof.
  unfold primer_no_numero.
  induction argumentos as [| w resto IH]; simpl; intros H.
  - discriminate.
  - destruct (es_numero w); simpl in H.
    + now apply IH.
    + injection H as ->. reflexivity.
Qed.

(** Every method begins with the validation of all its arguments. *)
Lemma ejecutar_valida (L : Libm) (c : llamada) :
  exists k : M valor,
    ejecutar L c = (validar_numeros (argumentos_de c) ;; k).
Proof.
  destruct c; simpl; eexists; reflexivity.
Qed.

Lemma ejecutar_no_numero (L : Libm) (c : llamada) (v : valor) (l : bitacora) :
  primer_no_numero (argumentos_de c) = Some v ->
  ejecutar L c l = (Lanza (TypeError (mensaje_de_tipo v)), l).
Proof.
  intros H. destruct (ejecutar_valida L c) as [k ->].
  unfold bind. now rewrite (validar_numeros_falla _ _ _ H).
Qed.

(** ** The methods on numbers

    Once the validation has passed, each method is one record and one
    computation. *)

Ltac validado :=
  unfold bind;
  rewrite validar_numeros_pasa by (simpl; repeat (apply andb_true_intro; split); auto);
  cbn [logger_info logger_error lift raise].

Lemma sumar_numeros (a b : valor) (l : bitacora) :
  es_numero a = true -> es_numero b = true ->
  sumar a b l = (py_add a b, l ++ [mkLogRecord INFO "Sumando %d + %d" [a; b]]).
Proof. intros Ha Hb. unfold sumar. validado. reflexivity. Qed.

Lemma restar_numeros (a b : valor) (l : bitacora) :
  es_numero a = true -> es_numero b = true ->
  restar a b l = (py_sub a b, l ++ [mkLogRecord INFO "Restando %d - %d" [a; b]]).
Proof. intros Ha Hb. unfold restar. validado. reflexivity. Qed.

Lemma multiplicar_numeros (a b : valor) (l : bitacora) :
  es_numero a = true -> es_numero b = true ->
  multiplicar a b l =
  (py_mul a b, l ++ [mkLogRecord INFO "Multiplicando %d * %d" [a; b]]).
Proof. intros Ha Hb. unfold multiplicar. validado. reflexivity. Qed.

Lemma dividir_numeros (a b : valor) (l : bitacora) :
  es_numero a = true -> es_numero b = true ->
  dividir a b l =
  if py_eq_0 b then
    (Lanza (ValueError "No se puede dividir por cero"),
     l ++ [mkLogRecord ERROR
             "Intento de división por cero al intentar dividir %d por %d" [a; b]])
  else
    (py_truediv a b, l ++ [mkLogRecord INFO "Dividiendo %d / %d" [a; b]]).
Proof.
  intros Ha Hb. unfold dividir. validado.
  destruct (py_eq_0 b); reflexivity.
Qed.

Lemma potencia_numeros (L : Libm) (base exponente : valor) (l : bitacora) :
  es_numero base = true -> es_numero exponente = true ->
  potencia L base exponente l =
  (math_pow L base exponente,
   l ++ [mkLogRecord INFO "Calculando %d ^ %d" [base; exponente]]).
Proof. intros Ha Hb. unfold potencia. validado. reflexivity. Qed.

Lemma py_lt_0_numero (v : valor) :
  es_numero v = true -> exists b, py_lt_0 v = Devuelve b.
Proof. destruct v; simpl; try discriminate; eauto. Qed.

Lemma py_le_0_numero (v : valor) :
  es_numero v = true -> exists b, py_le_0 v = Devuelve b.
Proof. destruct v; simpl; try discriminate; eauto. Qed.

Lemma raiz_cuadrada_numeros (numero : valor) (l : bitacora) (negativo : bool) :
  es_numero numero = true -> py_lt_0 numero = Devuelve negativo ->
  raiz_cuadrada numero l =
  if negativo then
    (Lanza (ValueError "No se puede calcular la raíz cuadrada de un número negativo"),
     l ++ [mkLogRecord ERROR
             "Intento de calcular raíz cuadrada de número negativo: %d" [numero]])
  else
    (math_sqrt numero,
     l ++ [mkLogRecord INFO "Calculando raíz cuadrada de %d" [numero]]).
Proof.
  intros Hn Hlt. unfold raiz_cuadrada. validado. rewrite Hlt.
  destruct negativo; reflexivity.
Qed.

Lemma logaritmo_natural_numeros (L : Libm) (numero : valor) (l : bitacora)
    (no_positivo : bool) :
  es_numero numero = true -> py_le_0 numero = Devuelve no_positivo ->
  logaritmo_natural L numero l =
  if no_positivo then
    (Lanza (ValueError
              "No se puede calcular el logaritmo de un número menor o igual a cero"),
     l ++ [mkLogRecord ERROR
             "Intento de calcular logaritmo de número no positivo: %d" [numero]])
  else
    (math_log L numero,
     l ++ [mkLogRecord INFO "Calculando logaritmo natural de %d" [numero]]).
Proof.
  intros Hn Hle. unfold logaritmo_natural. validado. rewrite Hle.
  destruct no_positivo; reflexivity.
Qed.

Lemma logaritmo_base_10_numeros (L : Libm) (numero : valor) (l : bitacora)
    (no_positivo : bool) :
  es_numero numero = true -> py_le_0 numero = Devuelve no_positivo ->
  logaritmo_base_10 L numero l =
  if no_positivo then
    (Lanza (ValueError
              "No se puede calcular el logaritmo de un número menor o igual a cero"),
     l ++ [mkLogRecord ERROR
             "Intento de calcular logaritmo base 10 de número no positivo: %d"
             [numero]])
  else
    (math_log10 L numero,
     l ++ [mkLogRecord INFO "Calculando logaritmo base 10 de %d" [numero]]).
Proof.
  intros Hn Hle. unfold logaritmo_base_10. validado. rewrite Hle.
  destruct no_positivo; reflexivity.
Qed.

Lemma seno_numeros (L : Libm) (angulo : valor) (l : bitacora) :
  es_numero angulo = true ->
  seno L angulo l =
  (math_sin L angulo,
   l ++ [mkLogRecord INFO "Calculando seno de %f radianes" [angulo]]).
Proof. intros Ha. unfold seno. validado. reflexivity. Qed.

Lemma coseno_numeros (L : Libm) (angulo : valor) (l : bitacora) :
  es_numero angulo = true ->
  coseno L angulo l =
  (math_cos L angulo,
   l ++ [mkLogRecord INFO "Calculando coseno de %f radianes" [angulo]]).
Proof. intros Ha. unfold coseno. validado. reflexivity. Qed.

Lemma tangente_numeros (L : Libm) (angulo : valor) (l : bitacora) :
  es_numero angulo = true ->
  tangente L angulo l =
  (math_tan L angulo,
   l ++ [mkLogRecord INFO "Calculando tangente de %f radianes" [angulo]]).
Proof. intros Ha. unfold tangente. validado. reflexivity. Qed.

(** ** What a call adds to the log

    A call appends to the log and never reads it: its outcome and the
    records it emits are the same on every log. *)

Lemma argumentos_numeros2 (a b : valor) :
  forallb es_numero [a; b] = true -> es_numero a = true /\ es_numero b = true.
Proof.
  simpl. rewrite andb_true_r. intros H. now apply andb_true_iff in H.
Qed.

Lemma argumentos_numeros1 (a : valor) :
  forallb es_numero [a] = true -> es_numero a = true.
Proof. simpl. now rewrite andb_true_r. Qed.

Lemma ejecutar_uniforme (L : Libm) (c : llamada) :
  exists (r : resultado valor) (rs : list LogRecord),
    (forall l, ejecutar L c l = (r, l ++ rs)) /\
    List.length rs =
    (if forallb es_numero (argumentos_de c) then 1%nat else 0%nat).
Proof.
  destruct (forallb es_numero (argumentos_de c)) eqn:Hnum.
  - destruct c; simpl in Hnum;
      try (apply argumentos_numeros2 in Hnum; destruct Hnum as [Ha Hb]);
      try apply argumentos_numeros1 in Hnum; simpl ejecutar.
    + do 2 eexists; split; [intros l; now apply sumar_numeros | reflexivity].
    + do 2 eexists; split; [intros l; now apply restar_numeros | reflexivity].
    + do 2 eexists; split; [intros l; now apply multiplicar_numeros | reflexivity].
    + destruct (py_eq_0 b) eqn:Hb0; do 2 eexists;
        (split; [intros l; rewrite dividir_numeros, Hb0 by assumption; reflexivity
                | reflexivity]).
    + do 2 eexists; split; [intros l; now apply potencia_numeros | reflexivity].
    + destruct (py_lt_0_numero _ Hnum) as [[] Hlt]; do 2 eexists;
        (split; [intros l; rewrite (raiz_cuadrada_numeros _ _ _ Hnum Hlt); reflexivity
                | reflexivity]).
    + destruct (py_le_0_numero _ Hnum) as [[] Hle]; do 2 eexists;
        (split; [intros l; rewrite (logaritmo_natural_numeros _ _ _ _ Hnum Hle);
                 reflexivity
                | reflexivity]).
    + destruct (py_le_0_numero _ Hnum) as [[] Hle]; do 2 eexists;
        (split; [intros l; rewrite (logaritmo_base_10_numeros _ _ _ _ Hnum Hle);
                 reflexivity
                | reflexivity]).
    + do 2 eexists; split; [intros l; now apply seno_numeros | reflexivity].
    + do 2 eexists; split; [intros l; now apply coseno_numeros | reflexivity].
    + do 2 eexists; split; [intros l; now apply tangente_numeros | reflexivity].
  - destruct (forallb_false_primero _ Hnum) as [v Hv].
    exists (Lanza (TypeError (mensaje_de_tipo v))), [].
    split; [| reflexivity].
    intros l. rewrite app_nil_r. now apply ejecutar_no_numero.
Qed.

(** ** Numbers as doubles *)

Lemma PyLong_AsDouble_casos (z : Z) :
  (exists x, PyLong_AsDouble z = Devuelve x /\
             signo (Prim2SF x) = Some (z ?= 0) /\ is_infinity x = false) \/
  PyLong_AsDouble z = Lanza desborda.
Proof.
  unfold PyLong_AsDouble.
  destruct (binary_normalize prec emax z 0 false) as [s | s | | s m e] eqn:E;
    try (right; reflexivity); left; eexists; (split; [reflexivity |]);
    apply (conv_entero_spec z); rewrite E; reflexivity.
Qed.

Lemma PyFloat_AsDouble_casos (v : valor) :
  es_numero v = true ->
  (exists x, PyFloat_AsDouble v = Devuelve x) \/ PyFloat_AsDouble v = Lanza desborda.
Proof.
  destruct v as [z | b | f | | |]; simpl; try discriminate; intros _.
  - destruct (PyLong_AsDouble_casos z) as [[x [H _]] | H]; eauto.
  - destruct (PyLong_AsDouble_casos (Z.b2z b)) as [[x [H _]] | H]; eauto.
  - eauto.
Qed.

Lemma PyFloat_AsDouble_entero (v : valor) (z : Z) (x : float) :
  entero v = Some z -> PyFloat_AsDouble v = Devuelve x ->
  signo (Prim2SF x) = Some (z ?= 0) /\ is_infinity x = false.
Proof.
  intros Hz Hx.
  assert (H : PyLong_AsDouble z = Devuelve x).
  { destruct v; simpl in *; try discriminate; injection Hz as <-; exact Hx. }
  destruct (PyLong_AsDouble_casos z) as [[x' [H' Hs]] | H']; rewrite H' in H.
  - injection H as <-. exact Hs.
  - discriminate.
Qed.

Lemma no_entero_es_float (v : valor) :
  es_numero v = true -> entero v = None -> exists f, v = VFloat f.
Proof. destruct v; simpl; try discriminate; eauto. Qed.

(** The sign of a number is the sign of its double. *)
Lemma signo_de_numero (v : valor) (x : float) :
  es_numero v = true -> PyFloat_AsDouble v = Devuelve x ->
  py_eq_0 v = (x =? 0)%float /\
  py_lt_0 v = Devuelve (x <? 0)%float /\
  py_le_0 v = Devuelve (x <=? 0)%float /\
  py_ge_0 v = (0 <=? x)%float /\
  py_gt_0 v = (0 <? x)%float.
Proof.
  intros Hn Hx.
  destruct (entero v) as [z |] eqn:Hz.
  - destruct (PyFloat_AsDouble_entero v z x Hz Hx) as [Hs _].
    rewrite eqb_0_signo, ltb_0_signo, leb_0_signo, geb_0_signo, gtb_0_signo, Hs.
    destruct v as [z' | b | | | |]; simpl in Hz; try discriminate;
      injection Hz as <-; simpl.
    + destruct z'; repeat split; reflexivity.
    + destruct b; repeat split; reflexivity.
  - destruct (no_entero_es_float v Hn Hz) as [f ->].
    simpl in Hx. injection Hx as ->. repeat split; reflexivity.
Qed.

Lemma is_infinity_no_nan (x : float) : is_infinity x = true -> is_nan x = false.
Proof.
  rewrite is_infinity_Prim2SF, is_nan_signo.
  destruct (Prim2SF x); simpl; congruence.
Qed.

Lemma is_finite_partes (x : float) :
  is_finite x = true <-> is_nan x = false /\ is_infinity x = false.
Proof.
  unfold is_finite. rewrite negb_true_iff, orb_false_iff. tauto.
Qed.

Lemma is_finite_entero (v : valor) (z : Z) (x : float) :
  entero v = Some z -> PyFloat_AsDouble v = Devuelve x -> is_finite x = true.
Proof.
  intros Hz Hx. destruct (PyFloat_AsDouble_entero v z x Hz Hx) as [Hs Hi].
  apply is_finite_partes. split; [| exact Hi].
  rewrite is_nan_signo, Hs. reflexivity.
Qed.

(** * The claims *)

(** ** C1: dividir *)

Lemma py_eq_0_entero (v : valor) (z : Z) :
  entero v = Some z -> py_eq_0 v = (z =? 0).
Proof.
  destruct v as [z' | b | | | |]; simpl; try discriminate; intros H; injection H as <-.
  - reflexivity.
  - destruct b; reflexivity.
Qed.

(** The quotient of two integers, the divisor not being zero. *)
Lemma py_truediv_enteros (a b : valor) (x y : Z) :
  entero a = Some x -> entero b = Some y -> py_eq_0 b = false ->
  py_truediv a b =
  match SFdiv prec emax (Z2SF x) (Z2SF y) with
  | S754_infinity _ =>
      Lanza (OverflowError "integer division result too large for a float")
  | q => Devuelve (VFloat (SF2Prim q))
  end.
Proof.
  intros Ha Hb Hb0. unfold py_truediv, long_true_divide.
  rewrite (py_eq_0_entero b y Hb) in Hb0. rewrite Ha, Hb, Hb0.
  destruct a; simpl in Ha; try discriminate;
    destruct b; simpl in Hb; try discriminate; reflexivity.
Qed.

(** The quotient of two doubles, one operand at least being a float. *)
Lemma py_truediv_doubles (a b : valor) (x y : float) :
  es_numero a = true -> es_numero b = true ->
  entero a = None \/ entero b = None ->
  PyFloat_AsDouble a = Devuelve x -> PyFloat_AsDouble b = Devuelve y ->
  py_eq_0 b = false ->
  py_truediv a b = Devuelve (VFloat (x / y)).
Proof.
  intros Ha Hb Hno Hx Hy Hb0. unfold py_truediv, float_div.
  destruct (signo_de_numero b y Hb Hy) as [Heq _]. rewrite Hb0 in Heq.
  rewrite Ha, Hb, Hx, Hy, <- Heq. simpl.
  destruct Hno as [Hno | Hno]; rewrite Hno; [| destruct (entero a)]; reflexivity.
Qed.

Lemma py_truediv_casos (a b : valor) :
  es_numero a = true -> es_numero b = true -> py_eq_0 b = false ->
  (exists q, py_truediv a b = Devuelve (VFloat q)) \/
  (exists m, py_truediv a b = Lanza (OverflowError m)).
Proof.
  intros Ha Hb Hb0.
  destruct (entero a) as [x |] eqn:Ea; [destruct (entero b) as [y |] eqn:Eb |].
  - rewrite (py_truediv_enteros a b x y Ea Eb Hb0).
    destruct (SFdiv prec emax (Z2SF x) (Z2SF y)); eauto.
  - destruct (PyFloat_AsDouble_casos a Ha) as [[fx Hx] | Hx];
      destruct (PyFloat_AsDouble_casos b Hb) as [[fy Hy] | Hy].
    + left. eexists. apply (py_truediv_doubles a b fx fy); auto.
    + right. exists "int too large to convert to float"%string.
      unfold py_truediv. rewrite Ha, Hb, Ea, Eb, Hx, Hy. reflexivity.
    + right. exists "int too large to convert to float"%string.
      unfold py_truediv. rewrite Ha, Hb, Ea, Eb, Hx. reflexivity.
    + right. exists "int too large to convert to float"%string.
      unfold py_truediv. rewrite Ha, Hb, Ea, Eb, Hx. reflexivity.
  - destruct (PyFloat_AsDouble_casos a Ha) as [[fx Hx] | Hx];
      destruct (PyFloat_AsDouble_casos b Hb) as [[fy Hy] | Hy].
    + left. eexists. apply (py_truediv_doubles a b fx fy); auto.
    + right. exists "int too large to convert to float"%string.
      unfold py_truediv. rewrite Ha, Hb, Ea, Hx, Hy. reflexivity.
    + right. exists "int too large to convert to float"%string.
      unfold py_truediv. rewrite Ha, Hb, Ea, Hx. reflexivity.
    + right. exists "int too large to convert to float"%string.
      unfold py_truediv. rewrite Ha, Hb, Ea, Hx. reflexivity.
Qed.

(** The quotient when an operand at least is a float: both operands are
    converted, the dividend first, and an integer beyond the doubles
    stops the division. *)
Lemma py_truediv_mixto (a b : valor) :
  es_numero a = true -> es_numero b = true ->
  entero a = None \/ entero b = None -> py_eq_0 b = false ->
  py_truediv a b =
  match PyFloat_AsDouble a, PyFloat_AsDouble b with
  | Devuelve x, Devuelve y => Devuelve (VFloat (x / y))
  | _, _ => Lanza (OverflowError "int too large to convert to float")
  end.
Proof.
  intros Ha Hb Hno Hb0.
  destruct (PyFloat_AsDouble_casos a Ha) as [[x Hx] | Hx];
    destruct (PyFloat_AsDouble_casos b Hb) as [[y Hy] | Hy]; rewrite Hx, ?Hy.
  - now apply py_truediv_doubles.
  - unfold py_truediv. rewrite Ha, Hb, Hx, Hy. simpl.
    destruct Hno as [Hno | Hno]; rewrite Hno; [| destruct (entero a)]; reflexivity.
  - unfold py_truediv. rewrite Ha, Hb, Hx. simpl.
    destruct Hno as [Hno | Hno]; rewrite Hno; [| destruct (entero a)]; reflexivity.
  - unfold py_truediv. rewrite Ha, Hb, Hx. simpl.
    destruct Hno as [Hno | Hno]; rewrite Hno; [| destruct (entero a)]; reflexivity.
Qed.

(** C1, as the code has it.  For numeric [a] and [b]: when [b == 0],
    [dividir] logs exactly one ERROR record and raises ValueError,
    returning nothing; when [b != 0] it logs one INFO record and then,
    on two integers, returns their correctly rounded quotient, or raises
    OverflowError when that quotient is beyond the doubles; with a float
    among the operands it returns the IEEE-754 quotient of the two
    doubles, or raises OverflowError when the other operand is an integer
    that has no double.  It raises nothing else. *)
Theorem dividir_cociente (a b : valor) (l : bitacora) :
  es_numero a = true -> es_numero b = true ->
  (py_eq_0 b = true ->
     dividir a b l =
       (Lanza (ValueError "No se puede dividir por cero"),
        l ++ [mkLogRecord ERROR
                "Intento de división por cero al intentar dividir %d por %d"
                [a; b]])) /\
  (py_eq_0 b = false ->
     snd (dividir a b l) = l ++ [mkLogRecord INFO "Dividiendo %d / %d" [a; b]] /\
     ((exists q, salida (dividir a b) l = Devuelve (VFloat q)) \/
      (exists m, salida (dividir a b) l = Lanza (OverflowError m))) /\
     (entero a = None \/ entero b = None ->
        salida (dividir a b) l =
          match PyFloat_AsDouble a, PyFloat_AsDouble b with
          | Devuelve x, Devuelve y => Devuelve (VFloat (x / y))
          | _, _ => Lanza (OverflowError "int too large to convert to float")
          end) /\
     (forall x y : Z, entero a = Some x -> entero b = Some y ->
        y <> 0 /\
        salida (dividir a b) l =
          match SFdiv prec emax (Z2SF x) (Z2SF y) with
          | S754_infinity _ =>
              Lanza (OverflowError "integer division result too large for a float")
          | q => Devuelve (VFloat (SF2Prim q))
          end)).
Proof.
  intros Ha Hb. unfold salida. rewrite (dividir_numeros a b l Ha Hb).
  split; intros Hb0; rewrite Hb0; [reflexivity |]. simpl.
  split; [reflexivity | split; [| split]].
  - now apply py_truediv_casos.
  - intros Hno. now apply py_truediv_mixto.
  - intros x y Hx Hy. split.
    + rewrite (py_eq_0_entero b y Hy) in Hb0. now apply Z.eqb_neq.
    + now apply py_truediv_enteros.
Qed.

Lemma dividir_cociente_testigo :
  salida (dividir (VInt 15) (VInt 3)) [] = Devuelve (VFloat 5) /\
  salida (dividir (VFloat 1) (VInt 4)) [] = Devuelve (VFloat 0.25) /\
  salida (dividir (VInt (2 ^ 1024)) (VFloat 1)) [] =
    Lanza (OverflowError "int too large to convert to float") /\
  dividir (VInt 5) (VInt 0) [] =
    (Lanza (ValueError "No se puede dividir por cero"),
     [mkLogRecord ERROR
        "Intento de división por cero al intentar dividir %d por %d"
        [VInt 5; VInt 0]]).
Proof.
  split; [| split; [| split]].
  - exact (proj2 (proj2 (proj2 (proj2 (proj2 (dividir_cociente
             (VInt 15) (VInt 3) [] eq_refl eq_refl) eq_refl)))
             15 3 eq_refl eq_refl)).
  - exact (proj1 (proj2 (proj2 (proj2 (dividir_cociente
             (VFloat 1) (VInt 4) [] eq_refl eq_refl) eq_refl)))
             (or_introl eq_refl)).
  - exact (proj1 (proj2 (proj2 (proj2 (dividir_cociente
             (VInt (2 ^ 1024)) (VFloat 1) [] eq_refl eq_refl) eq_refl)))
             (or_intror eq_refl)).
  - exact (proj1 (dividir_cociente (VInt 5) (VInt 0) [] eq_refl eq_refl) eq_refl).
Defined.

(** Against C1 as stated: [dividir(2**1024, 1)] has a divisor that is not
    zero and raises OverflowError, after its INFO record. *)
Lemma dividir_desborda :
  es_numero (VInt (2 ^ 1024)) = true /\ es_numero (VInt 1) = true /\
  py_eq_0 (VInt 1) = false /\
  dividir (VInt (2 ^ 1024)) (VInt 1) [] =
    (Lanza (OverflowError "integer division result too large for a float"),
     [mkLogRecord INFO "Dividiendo %d / %d" [VInt (2 ^ 1024); VInt 1]]).
Proof. repeat split; vm_compute; reflexivity. Qed.

(** ** C2: potencia *)

(** [math.pow] raises nothing but its two errors. *)
Lemma math_pow_errores (L : Libm) (a b : valor) (e : excepcion) :
  es_numero a = true -> es_numero b = true ->
  math_pow L a b = Lanza e ->
  e = domain_error \/ e = range_error \/ e = desborda.
Proof.
  intros Ha Hb. unfold math_pow, math_pow_impl.
  destruct (PyFloat_AsDouble_casos a Ha) as [[x Hx] | Hx];
    destruct (PyFloat_AsDouble_casos b Hb) as [[y Hy] | Hy];
    rewrite Hx, ?Hy; try (intros H; injection H as <-; auto).
  destruct (negb (is_finite x) || negb (is_finite y)); [discriminate |].
  cbv zeta.
  destruct (is_nan (c_pow L x y)); [intros H; injection H as <-; auto |].
  destruct (is_infinity (c_pow L x y)); [| discriminate].
  destruct (x =? 0)%float; intros H; injection H as <-; auto.
Qed.

Lemma math_pow_finitos (L : Libm) (a b : valor) (x y : float) :
  PyFloat_AsDouble a = Devuelve x -> PyFloat_AsDouble b = Devuelve y ->
  is_finite x = true -> is_finite y = true ->
  math_pow L a b =
  if is_nan (c_pow L x y) then Lanza domain_error
  else if is_infinity (c_pow L x y) then
         (if (x =? 0)%float then Lanza domain_error else Lanza range_error)
  else Devuelve (VFloat (c_pow L x y)).
Proof.
  intros Hx Hy Hfx Hfy. unfold math_pow, math_pow_impl.
  rewrite Hx, Hy, Hfx, Hfy. reflexivity.
Qed.





(** ** C3: seno, coseno, tangente *)

(** [math_1] around a function that is finite on the finite doubles and
    NaN at the infinities: the only failure of its own is at an
    infinity. *)
Lemma math_1_trigonometrica (func : float -> float) (v : valor) :
  (forall x, is_infinity x = true -> is_nan (func x) = true) ->
  (forall x, is_finite x = true -> is_finite (func x) = true) ->
  es_numero v = true ->
  match PyFloat_AsDouble v with
  | Devuelve x =>
      math_1 func v =
      if is_infinity x then Lanza domain_error else Devuelve (VFloat (func x))
  | Lanza e => e = desborda /\ math_1 func v = Lanza e
  end.
Proof.
  intros Hinf Hfin Hv. unfold math_1.
  destruct (PyFloat_AsDouble_casos v Hv) as [[x Hx] | Hx]; rewrite Hx; [| auto].
  cbv zeta. destruct (is_infinity x) eqn:Ei.
  - rewrite (Hinf x Ei), (is_infinity_no_nan x Ei). reflexivity.
  - destruct (is_nan x) eqn:En.
    + unfold is_finite. rewrite En. simpl. now rewrite !andb_false_r.
    + assert (Hf : is_finite x = true) by (apply is_finite_partes; auto).
      apply Hfin, is_finite_partes in Hf. destruct Hf as [-> ->]. reflexivity.
Qed.

(** An integer is never an infinite angle. *)
Lemma angulo_infinito (v : valor) (x : float) :
  es_numero v = true -> PyFloat_AsDouble v = Devuelve x ->
  is_infinity x = match v with VFloat f => is_infinity f | _ => false end.
Proof.
  intros Hv Hx. destruct (entero v) as [z |] eqn:Ez.
  - destruct (PyFloat_AsDouble_entero v z x Ez Hx) as [_ ->].
    destruct v; simpl in Ez; try discriminate; reflexivity.
  - destruct (no_entero_es_float v Hv Ez) as [f ->].
    simpl in Hx. now injection Hx as ->.
Qed.

(** C3, as the code has it.  For every numeric angle, [seno], [coseno]
    and [tangente] log one INFO record; they raise ValueError exactly
    when the angle is the float +inf or -inf ("math domain error", with
    no ERROR record); on any other angle they return the C library's
    sine, cosine and tangent of the angle as a double, or raise
    OverflowError when the angle is an integer beyond the doubles. *)
Theorem trigonometricas (L : Libm) (angulo : valor) (l : bitacora) :
  es_numero angulo = true ->
  (snd (seno L angulo l) =
     l ++ [mkLogRecord INFO "Calculando seno de %f radianes" [angulo]] /\
   snd (coseno L angulo l) =
     l ++ [mkLogRecord INFO "Calculando coseno de %f radianes" [angulo]] /\
   snd (tangente L angulo l) =
     l ++ [mkLogRecord INFO "Calculando tangente de %f radianes" [angulo]]) /\
  (let infinito := match angulo with VFloat f => is_infinity f | _ => false end in
   lanza es_ValueError (salida (seno L angulo) l) = infinito /\
   lanza es_ValueError (salida (coseno L angulo) l) = infinito /\
   lanza es_ValueError (salida (tangente L angulo) l) = infinito) /\
  match PyFloat_AsDouble angulo with
  | Devuelve x =>
      if is_infinity x then
        salida (seno L angulo) l = Lanza domain_error /\
        salida (coseno L angulo) l = Lanza domain_error /\
        salida (tangente L angulo) l = Lanza domain_error
      else
        salida (seno L angulo) l = Devuelve (VFloat (c_sin L x)) /\
        salida (coseno L angulo) l = Devuelve (VFloat (c_cos L x)) /\
        salida (tangente L angulo) l = Devuelve (VFloat (c_tan L x))
  | Lanza e =>
      e = desborda /\
      salida (seno L angulo) l = Lanza e /\
      salida (coseno L angulo) l = Lanza e /\
      salida (tangente L angulo) l = Lanza e
  end.
Proof.
  intros Hv. unfold salida.
  rewrite (seno_numeros L angulo l Hv), (coseno_numeros L angulo l Hv),
    (tangente_numeros L angulo l Hv). simpl fst. simpl snd.
  split; [auto |].
  pose proof (math_1_trigonometrica (c_sin L) angulo
                (sin_infinito L) (sin_finito L) Hv) as Hs.
  pose proof (math_1_trigonometrica (c_cos L) angulo
                (cos_infinito L) (cos_finito L) Hv) as Hc.
  pose proof (math_1_trigonometrica (c_tan L) angulo
                (tan_infinito L) (tan_finito L) Hv) as Ht.
  pose proof (angulo_infinito angulo) as Hi.
  unfold math_sin, math_cos, math_tan. cbv zeta.
  destruct (PyFloat_AsDouble angulo) as [x | e] eqn:Ex.
  - rewrite Hs, Hc, Ht, <- (Hi x Hv eq_refl).
    destruct (is_infinity x); auto.
  - destruct Hs as [-> ->], Hc as [_ ->], Ht as [_ ->].
    split; [| auto].
    destruct angulo; simpl in Ex; try discriminate; simpl; auto.
Qed.

Lemma trigonometricas_testigo :
  lanza es_ValueError (salida (seno libm_minima (VInt 1)) []) = false /\
  lanza es_ValueError (salida (tangente libm_minima (VFloat neg_infinity)) []) = true.
Proof.
  split.
  - exact (proj1 (proj1 (proj2 (trigonometricas libm_minima (VInt 1) [] eq_refl)))).
  - exact (proj2 (proj2 (proj1 (proj2
             (trigonometricas libm_minima (VFloat neg_infinity) [] eq_refl))))).
Defined.

(** Against C3 as stated: on the floats +inf and -inf, which are numbers,
    the three methods raise ValueError, whatever the C library is. *)
Lemma trigonometricas_en_infinito :
  es_numero (VFloat infinity) = true /\ es_numero (VFloat neg_infinity) = true /\
  (forall (L : Libm) (l : bitacora),
     salida (seno L (VFloat infinity)) l = Lanza (ValueError "math domain error") /\
     salida (coseno L (VFloat neg_infinity)) l =
       Lanza (ValueError "math domain error") /\
     salida (tangente L (VFloat infinity)) l =
       Lanza (ValueError "math domain error")).
Proof.
  split; [reflexivity | split; [reflexivity |]].
  intros L l. unfold salida.
  rewrite seno_numeros, coseno_numeros, tangente_numeros by reflexivity.
  unfold math_sin, math_cos, math_tan, math_1. simpl.
  rewrite (sin_infinito L infinity eq_refl), (cos_infinito L neg_infinity eq_refl),
    (tan_infinito L infinity eq_refl).
  auto.
Qed.

(** ** C4: sumar, restar, multiplicar *)

Lemma aritmetica_enteros (op : string) (opZ : Z -> Z -> Z)
    (opF : float -> float -> float) (a b : valor) (x y : Z) :
  entero a = Some x -> entero b = Some y ->
  aritmetica op opZ opF a b = Devuelve (VInt (opZ x y)).
Proof.
  intros Ha Hb. unfold aritmetica. rewrite Ha, Hb.
  destruct a; simpl in Ha; try discriminate;
    destruct b; simpl in Hb; try discriminate; reflexivity.
Qed.

Lemma aritmetica_doubles (op : string) (opZ : Z -> Z -> Z)
    (opF : float -> float -> float) (a b : valor) (x y : float) :
  es_numero a = true -> es_numero b = true ->
  entero a = None \/ entero b = None ->
  PyFloat_AsDouble a = Devuelve x -> PyFloat_AsDouble b = Devuelve y ->
  aritmetica op opZ opF a b = Devuelve (VFloat (opF x y)).
Proof.
  intros Ha Hb Hno Hx Hy. unfold aritmetica. rewrite Ha, Hb, Hx, Hy. simpl.
  destruct Hno as [Hno | Hno]; rewrite Hno; [| destruct (entero a)]; reflexivity.
Qed.

(** An operator on a pair with a float: both operands are converted,
    and an integer beyond the doubles stops the operation. *)
Lemma aritmetica_mixta (op : string) (opZ : Z -> Z -> Z)
    (opF : float -> float -> float) (a b : valor) :
  es_numero a = true -> es_numero b = true ->
  entero a = None \/ entero b = None ->
  aritmetica op opZ opF a b =
  match PyFloat_AsDouble a, PyFloat_AsDouble b with
  | Devuelve x, Devuelve y => Devuelve (VFloat (opF x y))
  | _, _ => Lanza (OverflowError "int too large to convert to float")
  end.
Proof.
  intros Ha Hb Hno. unfold aritmetica. rewrite Ha, Hb. simpl.
  destruct (PyFloat_AsDouble_casos a Ha) as [[x Hx] | Hx];
    destruct (PyFloat_AsDouble_casos b Hb) as [[y Hy] | Hy]; rewrite Hx, ?Hy;
    (destruct Hno as [Hno | Hno]; rewrite Hno; [| destruct (entero a)]; reflexivity).
Qed.

(** C4, as the code has it.  For all numeric [a] and [b], [sumar],
    [restar] and [multiplicar] log one INFO record each and give what
    [a + b], [a - b] and [a * b] give: the exact integer when both are
    integers; with a float among the operands, the IEEE-754 sum,
    difference and product of the two doubles, and no value at all when
    the other operand is an integer that has no double: OverflowError is
    raised then. *)
Theorem sumar_restar_multiplicar (a b : valor) (l : bitacora) :
  es_numero a = true -> es_numero b = true ->
  (snd (sumar a b l) = l ++ [mkLogRecord INFO "Sumando %d + %d" [a; b]] /\
   snd (restar a b l) = l ++ [mkLogRecord INFO "Restando %d - %d" [a; b]] /\
   snd (multiplicar a b l) =
     l ++ [mkLogRecord INFO "Multiplicando %d * %d" [a; b]]) /\
  (forall x y : Z, entero a = Some x -> entero b = Some y ->
     salida (sumar a b) l = Devuelve (VInt (x + y)) /\
     salida (restar a b) l = Devuelve (VInt (x - y)) /\
     salida (multiplicar a b) l = Devuelve (VInt (x * y))) /\
  (entero a = None \/ entero b = None ->
     match PyFloat_AsDouble a, PyFloat_AsDouble b with
     | Devuelve x, Devuelve y =>
         salida (sumar a b) l = Devuelve (VFloat (x + y)) /\
         salida (restar a b) l = Devuelve (VFloat (x - y)) /\
         salida (multiplicar a b) l = Devuelve (VFloat (x * y))
     | _, _ =>
         salida (sumar a b) l =
           Lanza (OverflowError "int too large to convert to float") /\
         salida (restar a b) l =
           Lanza (OverflowError "int too large to convert to float") /\
         salida (multiplicar a b) l =
           Lanza (OverflowError "int too large to convert to float")
     end).
Proof.
  intros Ha Hb. unfold salida.
  rewrite (sumar_numeros a b l Ha Hb), (restar_numeros a b l Ha Hb),
    (multiplicar_numeros a b l Ha Hb).
  simpl fst. simpl snd. split; [auto |]. split.
  - intros x y Hx Hy. unfold py_add, py_sub, py_mul.
    rewrite !(aritmetica_enteros _ _ _ a b x y Hx Hy). auto.
  - intros Hno. unfold py_add, py_sub, py_mul.
    rewrite !(aritmetica_mixta _ _ _ a b Ha Hb Hno).
    destruct (PyFloat_AsDouble a) as [x |]; [destruct (PyFloat_AsDouble b) as [y |] |];
      auto.
Qed.

Lemma sumar_restar_multiplicar_testigo :
  salida (sumar (VInt 5) (VInt 3)) [] = Devuelve (VInt 8) /\
  salida (restar (VInt 10) (VFloat 4)) [] = Devuelve (VFloat 6) /\
  salida (multiplicar (VBool true) (VInt 7)) [] = Devuelve (VInt 7) /\
  salida (multiplicar (VFloat 0) (VInt (2 ^ 1024))) [] =
    Lanza (OverflowError "int too large to convert to float").
Proof.
  split; [| split; [| split]].
  - exact (proj1 (proj1 (proj2 (sumar_restar_multiplicar
             (VInt 5) (VInt 3) [] eq_refl eq_refl)) 5 3 eq_refl eq_refl)).
  - exact (proj1 (proj2 (proj2 (proj2 (sumar_restar_multiplicar
             (VInt 10) (VFloat 4) [] eq_refl eq_refl)) (or_intror eq_refl)))).
  - exact (proj2 (proj2 (proj1 (proj2 (sumar_restar_multiplicar
             (VBool true) (VInt 7) [] eq_refl eq_refl)) 1 7 eq_refl eq_refl))).
  - exact (proj2 (proj2 (proj2 (proj2 (sumar_restar_multiplicar
             (VFloat 0) (VInt (2 ^ 1024)) [] eq_refl eq_refl))
             (or_introl eq_refl)))).
Defined.

(** Against C4 as stated: [2**1024] and [0.0] are numbers, and
    [sumar(2**1024, 0.0)] is no sum: the integer has no double, and the
    call raises OverflowError after its INFO record; so do [restar] and
    [multiplicar]. *)
Lemma sumar_desborda :
  es_numero (VInt (2 ^ 1024)) = true /\ es_numero (VFloat 0) = true /\
  sumar (VInt (2 ^ 1024)) (VFloat 0) [] =
    (Lanza (OverflowError "int too large to convert to float"),
     [mkLogRecord INFO "Sumando %d + %d" [VInt (2 ^ 1024); VFloat 0]]) /\
  salida (restar (VInt (2 ^ 1024)) (VFloat 0)) [] =
    Lanza (OverflowError "int too large to convert to float") /\
  salida (multiplicar (VInt (2 ^ 1024)) (VFloat 0)) [] =
    Lanza (OverflowError "int too large to convert to float").
Proof. repeat split; vm_compute; reflexivity. Qed.

(** ** C5: raiz_cuadrada *)

Lemma py_ge_0_no_lt (v : valor) :
  py_ge_0 v = true -> py_lt_0 v = Devuelve false.
Proof.
  destruct v as [z | b | f | | |]; simpl; try discriminate; intros H.
  - f_equal. lia.
  - reflexivity.
  - f_equal. rewrite geb_0_signo in H. rewrite ltb_0_signo.
    destruct (signo (Prim2SF f)) as [[] |]; congruence.
Qed.

(** The square of the square root is close to the number. *)
Lemma sqrt_cercano (x : float) :
  (0 <=? x)%float = true ->
  cuadrado_cercano (Prim2SF (PrimFloat.sqrt x)) (Prim2SF x).
Proof.
  rewrite geb_0_signo, sqrt_spec.
  pose proof (Prim2SF_valid x) as Hv. unfold SF64sqrt.
  destruct (Prim2SF x) as [s | [] | | [] m e];
    try (simpl; discriminate); try (intros _; exact I).
  intros _. now apply SFsqrt_cercano.
Qed.

(** [math.sqrt] on a double that is not negative. *)
Lemma math_sqrt_no_negativo (v : valor) (x : float) :
  PyFloat_AsDouble v = Devuelve x -> (0 <=? x)%float = true ->
  math_sqrt v = Devuelve (VFloat (PrimFloat.sqrt x)) /\
  (0 <=? PrimFloat.sqrt x)%float = true.
Proof.
  intros Hx Hpos. unfold math_sqrt, math_1. rewrite Hx. cbv zeta.
  destruct (sqrt_signo x Hpos) as [Hs Hi].
  rewrite geb_0_signo in Hpos |- *. rewrite Hs.
  split; [| exact Hpos].
  assert (Hn : is_nan (PrimFloat.sqrt x) = false).
  { rewrite is_nan_signo, Hs. destruct (signo (Prim2SF x)); congruence. }
  rewrite Hn, Hi. unfold is_finite.
  destruct (is_infinity x); [rewrite orb_true_r |]; reflexivity.
Qed.

Example cuadrado_cercano_de_2 :
  cuadrado_cercano (Prim2SF (PrimFloat.sqrt 2)) (Prim2SF 2) /\
  ~ cuadrado_cercano (Prim2SF 0x1.6a09e667f3bdp+0) (Prim2SF 2).
Proof. split; vm_compute; [discriminate | intros H; now apply H]. Qed.

(** C5, as the code has it.  For every numeric [x < 0], [raiz_cuadrada]
    logs one ERROR record and raises ValueError.  For every numeric
    [x >= 0] it logs one INFO record; when [x] has a double (every float,
    and every integer that does not round to 2^1024 or beyond) it returns
    the IEEE-754 square root [y] of that double, with [y >= 0] and
    [y * y] within one part in 2^52 of the double; otherwise it raises
    OverflowError. *)
Theorem raiz_cuadrada_dominio (numero : valor) (l : bitacora) :
  es_numero numero = true ->
  (py_lt_0 numero = Devuelve true ->
     raiz_cuadrada numero l =
       (Lanza (ValueError
          "No se puede calcular la raíz cuadrada de un número negativo"),
        l ++ [mkLogRecord ERROR
                "Intento de calcular raíz cuadrada de número negativo: %d"
                [numero]])) /\
  (py_ge_0 numero = true ->
     snd (raiz_cuadrada numero l) =
       l ++ [mkLogRecord INFO "Calculando raíz cuadrada de %d" [numero]] /\
     match PyFloat_AsDouble numero with
     | Devuelve x =>
         salida (raiz_cuadrada numero) l = Devuelve (VFloat (PrimFloat.sqrt x)) /\
         (0 <=? PrimFloat.sqrt x)%float = true /\
         cuadrado_cercano (Prim2SF (PrimFloat.sqrt x)) (Prim2SF x)
     | Lanza e =>
         e = OverflowError "int too large to convert to float" /\
         salida (raiz_cuadrada numero) l = Lanza e
     end).
Proof.
  intros Hv. split.
  - intros Hlt. now rewrite (raiz_cuadrada_numeros numero l true Hv Hlt).
  - intros Hge. unfold salida.
    rewrite (raiz_cuadrada_numeros numero l false Hv (py_ge_0_no_lt numero Hge)).
    simpl fst. simpl snd. split; [reflexivity |].
    destruct (PyFloat_AsDouble_casos numero Hv) as [[x Hx] | Hx]; rewrite Hx.
    + destruct (signo_de_numero numero x Hv Hx) as (_ & _ & _ & Hge' & _).
      rewrite Hge in Hge'. symmetry in Hge'.
      destruct (math_sqrt_no_negativo numero x Hx Hge') as [Hr Hy].
      split; [exact Hr | split; [exact Hy | now apply sqrt_cercano]].
    + split; [reflexivity |]. unfold math_sqrt, math_1. now rewrite Hx.
Qed.

Lemma raiz_cuadrada_dominio_testigo :
  salida (raiz_cuadrada (VInt 16)) [] = Devuelve (VFloat 4) /\
  salida (raiz_cuadrada (VFloat (-1))) [] =
    Lanza (ValueError
      "No se puede calcular la raíz cuadrada de un número negativo") /\
  cuadrado_cercano (Prim2SF (PrimFloat.sqrt 2)) (Prim2SF 2).
Proof.
  split; [| split].
  - exact (proj1 (proj2 (proj2 (raiz_cuadrada_dominio (VInt 16) [] eq_refl)
             eq_refl))).
  - exact (f_equal fst (proj1 (raiz_cuadrada_dominio (VFloat (-1)) [] eq_refl)
             eq_refl)).
  - exact (proj2 (proj2 (proj2 (proj2 (raiz_cuadrada_dominio (VFloat 2) [] eq_refl)
             eq_refl)))).
Defined.

(** Against C5 as stated: [2**1024] is a number and is not negative, and
    [raiz_cuadrada(2**1024)] returns nothing: it raises OverflowError
    after its INFO record. *)
Lemma raiz_cuadrada_desborda :
  es_numero (VInt (2 ^ 1024)) = true /\ py_ge_0 (VInt (2 ^ 1024)) = true /\
  raiz_cuadrada (VInt (2 ^ 1024)) [] =
    (Lanza (OverflowError "int too large to convert to float"),
     [mkLogRecord INFO "Calculando raíz cuadrada de %d" [VInt (2 ^ 1024)]]).
Proof. repeat split; vm_compute; reflexivity. Qed.

(** ** C6: logaritmo_natural, logaritmo_base_10 *)

Lemma py_gt_0_no_le (v : valor) :
  py_gt_0 v = true -> py_le_0 v = Devuelve false.
Proof.
  destruct v as [z | b | f | | |]; simpl; try discriminate; intros H.
  - f_equal. lia.
  - now rewrite H.
  - f_equal. rewrite gtb_0_signo in H. rewrite leb_0_signo.
    destruct (signo (Prim2SF f)) as [[] |]; congruence.
Qed.

Lemma py_gt_0_entero (v : valor) (z : Z) :
  entero v = Some z -> py_gt_0 v = true -> 0 < z.
Proof.
  destruct v as [z' | b | | | |]; simpl; try discriminate;
    intros H; injection H as <-; intros H.
  - lia.
  - now rewrite H.
Qed.

(** [m_log] on a finite positive double and at +inf. *)
Lemma m_log_positivo (func : float -> float) (x : float) :
  (0 <? x)%float = true ->
  m_log func x = if is_infinity x then x else func x.
Proof.
  intros Hpos. unfold m_log, is_finite.
  assert (Hn : is_nan x = false).
  { rewrite gtb_0_signo in Hpos. rewrite is_nan_signo.
    destruct (signo (Prim2SF x)); congruence. }
  rewrite Hn, Hpos. simpl. destruct (is_infinity x); reflexivity.
Qed.

(** [loghelper] never fails on a positive number, when the C function
    is finite on the finite positive doubles. *)
Lemma loghelper_positivo (func : float -> float) (v : valor) :
  (forall x, is_finite x = true -> (0 <? x)%float = true ->
             is_finite (func x) = true) ->
  es_numero v = true -> py_gt_0 v = true ->
  loghelper (m_log func) v = Devuelve (VFloat (log_de_positivo func v)).
Proof.
  intros Hfin Hv Hpos. unfold loghelper, log_de_positivo.
  destruct (entero v) as [z |] eqn:Ez.
  - pose proof (py_gt_0_entero v z Ez Hpos) as Hz.
    replace (z <=? 0) with false by lia.
    assert (Hconv : PyFloat_AsDouble v = PyLong_AsDouble z).
    { destruct v; simpl in Ez; try discriminate; injection Ez as <-; reflexivity. }
    destruct (PyLong_AsDouble z) as [x | e] eqn:Ex; rewrite Hconv.
    + destruct (signo_de_numero v x Hv Hconv) as (_ & _ & _ & _ & Hgt).
      rewrite Hpos in Hgt. now rewrite m_log_positivo.
    + destruct (PyLong_Frexp z) as [x n]. reflexivity.
  - destruct (no_entero_es_float v Hv Ez) as [f ->].
    simpl in Hpos. unfold math_1. cbn [PyFloat_AsDouble]. cbv iota beta zeta.
    rewrite (m_log_positivo func f Hpos).
    assert (Hn : is_nan f = false).
    { rewrite gtb_0_signo in Hpos. rewrite is_nan_signo.
      destruct (signo (Prim2SF f)); congruence. }
    destruct (is_infinity f) eqn:Ei.
    + unfold is_finite. rewrite Hn, Ei. reflexivity.
    + assert (Hf : is_finite f = true) by (apply is_finite_partes; auto).
      pose proof (Hfin f Hf Hpos) as Hr. apply is_finite_partes in Hr.
      destruct Hr as [-> ->]. reflexivity.
Qed.

(** C6.  For every numeric [x] with [x <= 0], [logaritmo_natural] and
    [logaritmo_base_10] log one ERROR record and raise ValueError; for
    every numeric [x > 0] they log one INFO record and return the
    logarithm that [math.log] and [math.log10] give: the C library's
    [log] and [log10] of the double of [x] when that is finite. *)
Theorem logaritmos (L : Libm) (numero : valor) (l : bitacora) :
  es_numero numero = true ->
  (py_le_0 numero = Devuelve true ->
     logaritmo_natural L numero l =
       (Lanza (ValueError
          "No se puede calcular el logaritmo de un número menor o igual a cero"),
        l ++ [mkLogRecord ERROR
                "Intento de calcular logaritmo de número no positivo: %d"
                [numero]]) /\
     logaritmo_base_10 L numero l =
       (Lanza (ValueError
          "No se puede calcular el logaritmo de un número menor o igual a cero"),
        l ++ [mkLogRecord ERROR
                "Intento de calcular logaritmo base 10 de número no positivo: %d"
                [numero]])) /\
  (py_gt_0 numero = true ->
     logaritmo_natural L numero l =
       (Devuelve (VFloat (log_de_positivo (c_log L) numero)),
        l ++ [mkLogRecord INFO "Calculando logaritmo natural de %d" [numero]]) /\
     logaritmo_base_10 L numero l =
       (Devuelve (VFloat (log_de_positivo (c_log10 L) numero)),
        l ++ [mkLogRecord INFO "Calculando logaritmo base 10 de %d" [numero]]) /\
     (forall x, PyFloat_AsDouble numero = Devuelve x -> is_finite x = true ->
        log_de_positivo (c_log L) numero = c_log L x /\
        log_de_positivo (c_log10 L) numero = c_log10 L x)).
Proof.
  intros Hv. split.
  - intros Hle.
    rewrite (logaritmo_natural_numeros L numero l true Hv Hle),
      (logaritmo_base_10_numeros L numero l true Hv Hle). auto.
  - intros Hpos. pose proof (py_gt_0_no_le numero Hpos) as Hle.
    rewrite (logaritmo_natural_numeros L numero l false Hv Hle),
      (logaritmo_base_10_numeros L numero l false Hv Hle).
    unfold math_log, math_log10.
    rewrite (loghelper_positivo (c_log L) numero (log_finito L) Hv Hpos),
      (loghelper_positivo (c_log10 L) numero (log10_finito L) Hv Hpos).
    split; [reflexivity | split; [reflexivity |]].
    intros x Hx Hf. unfold log_de_positivo. rewrite Hx.
    apply is_finite_partes in Hf. destruct Hf as [_ ->]. auto.
Qed.

Lemma logaritmos_testigo :
  salida (logaritmo_natural libm_minima (VInt 0)) [] =
    Lanza (ValueError
      "No se puede calcular el logaritmo de un número menor o igual a cero") /\
  salida (logaritmo_base_10 libm_minima (VInt 100)) [] =
    Devuelve (VFloat (log_de_positivo (c_log10 libm_minima) (VInt 100))) /\
  log_de_positivo (c_log libm_minima) (VFloat 0x1.5be76c8b43958p+1) = c_log libm_minima 0x1.5be76c8b43958p+1.
Proof.
  split; [| split].
  - exact (f_equal fst (proj1 (proj1 (logaritmos libm_minima (VInt 0) [] eq_refl)
             eq_refl))).
  - exact (f_equal fst (proj1 (proj2 (proj2
             (logaritmos libm_minima (VInt 100) [] eq_refl) eq_refl)))).
  - exact (proj1 (proj2 (proj2 (proj2
             (logaritmos libm_minima (VFloat 0x1.5be76c8b43958p+1) [] eq_refl) eq_refl))
             0x1.5be76c8b43958p+1%float eq_refl eq_refl)).
Defined.

(** ** C7 and C8: arguments that are not numbers *)

(** C7.  For every operation, if any argument is not a number the call
    raises TypeError and leaves the log as it was (no INFO record, no
    ERROR record); the message names the type of the first offender. *)
Theorem no_numero_lanza_TypeError (L : Libm) (c : llamada) (l : bitacora) :
  forallb es_numero (argumentos_de c) = false ->
  exists v : valor,
    primer_no_numero (argumentos_de c) = Some v /\
    In v (argumentos_de c) /\ es_numero v = false /\
    ejecutar L c l =
      (Lanza (TypeError ("Se esperaba un número, se recibió <class '"
                         ++ nombre_clase v ++ "'>")), l).
Proof.
  intros H. destruct (forallb_false_primero _ H) as [v Hv].
  exists v. destruct (primer_no_numero_Some _ _ Hv) as [Hin Hno].
  repeat split; auto.
  now apply ejecutar_no_numero.
Qed.

Lemma no_numero_lanza_TypeError_testigo :
  ejecutar libm_minima (Seno (VStr "pi")) [] =
  (Lanza (TypeError "Se esperaba un número, se recibió <class 'str'>"), []).
Proof.
  destruct (no_numero_lanza_TypeError libm_minima (Seno (VStr "pi")) [] eq_refl)
    as [v [Hv [_ [_ H]]]].
  injection Hv as <-. exact H.
Defined.

(** C8.  The types are checked before any domain: a call with an argument
    that is not a number raises TypeError, not ValueError, and logs
    nothing, whatever the other arguments are; so does [dividir(a, b)]
    with such an [a] and a zero [b]. *)
Theorem validacion_antes_del_dominio :
  (forall (L : Libm) (c : llamada) (l : bitacora),
     forallb es_numero (argumentos_de c) = false ->
     lanza es_TypeError (salida (ejecutar L c) l) = true /\
     lanza es_ValueError (salida (ejecutar L c) l) = false /\
     snd (ejecutar L c l) = l) /\
  (forall (a b : valor) (l : bitacora),
     es_numero a = false -> py_eq_0 b = true ->
     dividir a b l = (Lanza (TypeError (mensaje_de_tipo a)), l)).
Proof.
  split.
  - intros L c l H. destruct (forallb_false_primero _ H) as [v Hv].
    unfold salida. rewrite (ejecutar_no_numero L c v l Hv). auto.
  - intros a b l Ha _.
    apply (ejecutar_no_numero libm_minima (Dividir a b) a l).
    unfold primer_no_numero. simpl. now rewrite Ha.
Qed.

Lemma validacion_antes_del_dominio_testigo :
  dividir (VStr "cinco") (VInt 0) [] =
    (Lanza (TypeError "Se esperaba un número, se recibió <class 'str'>"), []) /\
  snd (ejecutar libm_minima (LogaritmoNatural VNone) []) = [].
Proof.
  split.
  - exact (proj2 validacion_antes_del_dominio (VStr "cinco") (VInt 0) []
             eq_refl eq_refl).
  - exact (proj2 (proj2 (proj1 validacion_antes_del_dominio
             libm_minima (LogaritmoNatural VNone) [] eq_refl))).
Defined.

(** ** C9: calling twice *)

(** C9, as the code has it.  A call gives the same outcome on every log,
    so calling it again gives it again; each of the two calls appends the
    same records: one when every argument is a number, none when one is
    not. *)
Theorem llamadas_repetidas (L : Libm) (c : llamada) (l : bitacora) :
  let primera := ejecutar L c l in
  let segunda := ejecutar L c (snd primera) in
  fst segunda = fst primera /\
  exists rs : list LogRecord,
    snd primera = l ++ rs /\ snd segunda = l ++ rs ++ rs /\
    List.length rs =
    (if forallb es_numero (argumentos_de c) then 1%nat else 0%nat).
Proof.
  destruct (ejecutar_uniforme L c) as [r [rs [H Hlen]]].
  cbv zeta. rewrite !H. simpl. split; [reflexivity |].
  exists rs. rewrite <- app_assoc. auto.
Qed.

(** Against C9 as stated: two calls of [sumar("a", 1)] give the same
    TypeError twice and leave an empty log empty, where two records are
    claimed. *)
Lemma llamadas_repetidas_sin_registro :
  salida (sumar (VStr "a") (VInt 1)) [] =
    Lanza (TypeError "Se esperaba un número, se recibió <class 'str'>") /\
  snd (sumar (VStr "a") (VInt 1) (snd (sumar (VStr "a") (VInt 1) []))) = [].
Proof. split; reflexivity. Qed.

(** ** C10: booleans, and numbers never raise TypeError *)

Ltac por_casos :=
  repeat match goal with
         | |- context [if ?b then _ else _] => destruct b
         | |- context [match ?x with _ => _ end] => destruct x
         end;
  try reflexivity.

Lemma PyFloat_AsDouble_sin_TypeError (v : valor) :
  es_numero v = true -> lanza es_TypeError (PyFloat_AsDouble v) = false.
Proof.
  intros H. destruct (PyFloat_AsDouble_casos v H) as [[x ->] | ->]; reflexivity.
Qed.

Lemma aritmetica_sin_TypeError (op : string) (opZ : Z -> Z -> Z)
    (opF : float -> float -> float) (a b : valor) :
  es_numero a = true -> es_numero b = true ->
  lanza es_TypeError (aritmetica op opZ opF a b) = false.
Proof.
  intros Ha Hb. unfold aritmetica. rewrite Ha, Hb. simpl.
  destruct (PyFloat_AsDouble_casos a Ha) as [[x Hx] | Hx];
    destruct (PyFloat_AsDouble_casos b Hb) as [[y Hy] | Hy];
    rewrite Hx, ?Hy; destruct (entero a), (entero b); reflexivity.
Qed.

Lemma py_truediv_sin_TypeError (a b : valor) :
  es_numero a = true -> es_numero b = true ->
  lanza es_TypeError (py_truediv a b) = false.
Proof.
  intros Ha Hb. unfold py_truediv, long_true_divide, float_div.
  rewrite Ha, Hb. simpl.
  destruct (PyFloat_AsDouble_casos a Ha) as [[x Hx] | Hx];
    destruct (PyFloat_AsDouble_casos b Hb) as [[y Hy] | Hy];
    rewrite Hx, ?Hy; destruct (entero a), (entero b); por_casos.
Qed.

Lemma math_1_sin_TypeError (func : float -> float) (v : valor) :
  es_numero v = true -> lanza es_TypeError (math_1 func v) = false.
Proof.
  intros H. unfold math_1.
  destruct (PyFloat_AsDouble_casos v H) as [[x ->] | ->]; por_casos.
Qed.

Lemma loghelper_sin_TypeError (func : float -> float) (v : valor) :
  es_numero v = true -> lanza es_TypeError (loghelper func v) = false.
Proof.
  intros H. unfold loghelper.
  destruct (entero v) as [z |].
  - destruct (z <=? 0); [reflexivity |].
    destruct (PyLong_AsDouble z); [reflexivity |].
    destruct (PyLong_Frexp z). reflexivity.
  - now apply math_1_sin_TypeError.
Qed.

Lemma math_pow_sin_TypeError (L : Libm) (a b : valor) :
  es_numero a = true -> es_numero b = true ->
  lanza es_TypeError (math_pow L a b) = false.
Proof.
  intros Ha Hb. unfold math_pow, math_pow_impl.
  destruct (PyFloat_AsDouble_casos a Ha) as [[x Hx] | Hx];
    destruct (PyFloat_AsDouble_casos b Hb) as [[y Hy] | Hy];
    rewrite Hx, ?Hy; try reflexivity.
  destruct (negb (is_finite x) || negb (is_finite y)); [reflexivity |].
  cbv zeta. por_casos.
Qed.

Lemma ejecutar_sin_TypeError (L : Libm) (c : llamada) (l : bitacora) :
  forallb es_numero (argumentos_de c) = true ->
  lanza es_TypeError (salida (ejecutar L c) l) = false.
Proof.
  intros Hnum. unfold salida.
  destruct c; simpl in Hnum;
    try (apply argumentos_numeros2 in Hnum; destruct Hnum as [Ha Hb]);
    try apply argumentos_numeros1 in Hnum; simpl ejecutar.
  - rewrite sumar_numeros by assumption. now apply aritmetica_sin_TypeError.
  - rewrite restar_numeros by assumption. now apply aritmetica_sin_TypeError.
  - rewrite multiplicar_numeros by assumption. now apply aritmetica_sin_TypeError.
  - rewrite dividir_numeros by assumption.
    destruct (py_eq_0 b); [reflexivity | now apply py_truediv_sin_TypeError].
  - rewrite potencia_numeros by assumption. now apply math_pow_sin_TypeError.
  - destruct (py_lt_0_numero _ Hnum) as [[] Hlt];
      rewrite (raiz_cuadrada_numeros _ _ _ Hnum Hlt);
      [reflexivity | now apply math_1_sin_TypeError].
  - destruct (py_le_0_numero _ Hnum) as [[] Hle];
      rewrite (logaritmo_natural_numeros _ _ _ _ Hnum Hle);
      [reflexivity | now apply loghelper_sin_TypeError].
  - destruct (py_le_0_numero _ Hnum) as [[] Hle];
      rewrite (logaritmo_base_10_numeros _ _ _ _ Hnum Hle);
      [reflexivity | now apply loghelper_sin_TypeError].
  - rewrite seno_numeros by assumption. now apply math_1_sin_TypeError.
  - rewrite coseno_numeros by assumption. now apply math_1_sin_TypeError.
  - rewrite tangente_numeros by assumption. now apply math_1_sin_TypeError.
Qed.

(** C10.  A boolean passes [isinstance(num, (int, float))], so no call
    whose arguments are booleans (or any other numbers) raises TypeError;
    and for every numeric [a], [dividir(a, False)] raises the ValueError
    of a division by zero, after one ERROR record. *)
Theorem booleanos_aceptados :
  (forall b : bool, es_numero (VBool b) = true) /\
  (forall (L : Libm) (c : llamada) (l : bitacora),
     forallb es_numero (argumentos_de c) = true ->
     lanza es_TypeError (salida (ejecutar L c) l) = false) /\
  (forall (a : valor) (l : bitacora),
     es_numero a = true ->
     dividir a (VBool false) l =
       (Lanza (ValueError "No se puede dividir por cero"),
        l ++ [mkLogRecord ERROR
                "Intento de división por cero al intentar dividir %d por %d"
                [a; VBool false]])).
Proof.
  split; [reflexivity | split].
  - exact ejecutar_sin_TypeError.
  - intros a l Ha. now rewrite dividir_numeros.
Qed.

Lemma booleanos_aceptados_testigo :
  lanza es_TypeError
    (salida (ejecutar libm_minima (Potencia (VBool true) (VBool false))) []) = false /\
  salida (dividir (VFloat 2.5) (VBool false)) [] =
    Lanza (ValueError "No se puede dividir por cero").
Proof.
  split.
  - exact (proj1 (proj2 booleanos_aceptados)
             libm_minima (Potencia (VBool true) (VBool false)) [] eq_refl).
  - exact (f_equal fst (proj2 (proj2 booleanos_aceptados) (VFloat 2.5) [] eq_refl)).
Defined.

(** * Beyond the claims *)

(** ** validar_numeros on any number of arguments *)

(** X1.  [validar_numeros] takes any number of arguments.  It returns,
    leaving the log as it was, exactly when every argument is a number;
    otherwise the argument it names is the first one, in order, that is
    not a number, whatever follows it, and nothing is logged. *)
Theorem validar_numeros_en_orden :
  (forall (argumentos : list valor) (l : bitacora),
     validar_numeros argumentos l = (Devuelve tt, l) <->
     forallb es_numero argumentos = true) /\
  (forall (xs ys : list valor) (v : valor) (l : bitacora),
     forallb es_numero xs = true -> es_numero v = false ->
     validar_numeros (xs ++ v :: ys) l =
       (Lanza (TypeError (mensaje_de_tipo v)), l)).
Proof.
  split.
  - intros argumentos l. split; [| apply validar_numeros_pasa].
    intros H. destruct (forallb es_numero argumentos) eqn:E; [reflexivity |].
    destruct (forallb_false_primero _ E) as [v Hv].
    rewrite (validar_numeros_falla _ _ _ Hv) in H. discriminate.
  - intros xs ys v l Hxs Hv. apply validar_numeros_falla.
    unfold primer_no_numero. induction xs as [| x xs IH]; simpl.
    + now rewrite Hv.
    + simpl in Hxs. apply andb_true_iff in Hxs. destruct Hxs as [Hx Hxs].
      rewrite Hx. simpl. now apply IH.
Qed.

(** ** The level of the record of a call *)

Lemma aritmetica_casos (op : string) (opZ : Z -> Z -> Z)
    (opF : float -> float -> float) (a b : valor) :
  es_numero a = true -> es_numero b = true ->
  if ambos_enteros a b then exists z, aritmetica op opZ opF a b = Devuelve (VInt z)
  else (exists f, aritmetica op opZ opF a b = Devuelve (VFloat f)) \/
       aritmetica op opZ opF a b = Lanza desborda.
Proof.
  intros Ha Hb. unfold ambos_enteros, aritmetica. rewrite Ha, Hb. simpl.
  destruct (PyFloat_AsDouble_casos a Ha) as [[x Hx] | Hx];
    destruct (PyFloat_AsDouble_casos b Hb) as [[y Hy] | Hy];
    rewrite Hx, ?Hy; destruct (entero a), (entero b); eauto.
Qed.

Lemma no_lt_no_ge_es_nan (x : float) :
  (x <? 0)%float = false -> (0 <=? x)%float = false -> is_nan x = true.
Proof.
  rewrite ltb_0_signo, geb_0_signo, is_nan_signo.
  destruct (signo (Prim2SF x)) as [[] |]; congruence.
Qed.

Lemma math_1_nan (func : float -> float) (v : valor) (x : float) :
  PyFloat_AsDouble v = Devuelve x -> is_nan x = true ->
  math_1 func v = Devuelve (VFloat (func x)).
Proof.
  intros Hx Hn. unfold math_1, is_finite. rewrite Hx, Hn. simpl.
  now rewrite !andb_false_r.
Qed.

Lemma math_sqrt_no_lt (v : valor) :
  es_numero v = true -> py_lt_0 v = Devuelve false ->
  (exists y, math_sqrt v = Devuelve (VFloat y)) \/ math_sqrt v = Lanza desborda.
Proof.
  intros Hv Hlt.
  destruct (PyFloat_AsDouble_casos v Hv) as [[x Hx] | Hx].
  - left. destruct (signo_de_numero v x Hv Hx) as (_ & Hlt' & _).
    rewrite Hlt in Hlt'. injection Hlt' as Hlt'. symmetry in Hlt'.
    destruct (0 <=? x)%float eqn:Hge.
    + destruct (math_sqrt_no_negativo v x Hx Hge) as [H _]. eauto.
    + eexists. apply (math_1_nan _ v x Hx). now apply no_lt_no_ge_es_nan.
  - right. unfold math_sqrt, math_1. now rewrite Hx.
Qed.

Lemma no_le_casos (v : valor) :
  es_numero v = true -> py_le_0 v = Devuelve false ->
  py_gt_0 v = true \/ exists f, v = VFloat f /\ is_nan f = true.
Proof.
  destruct v as [z | b | f | | |]; simpl; try discriminate; intros _ H;
    injection H as H.
  - left. lia.
  - left. now destruct b.
  - rewrite leb_0_signo in H. rewrite gtb_0_signo.
    destruct (signo (Prim2SF f)) as [[] |] eqn:E; try discriminate; auto.
    right. exists f. split; [reflexivity |]. now rewrite is_nan_signo, E.
Qed.

Lemma m_log_nan (func : float -> float) (f : float) :
  is_nan f = true -> m_log func f = f.
Proof. intros H. unfold m_log, is_finite. now rewrite H. Qed.

Lemma loghelper_no_le (func : float -> float) (v : valor) :
  (forall x, is_finite x = true -> (0 <? x)%float = true ->
             is_finite (func x) = true) ->
  es_numero v = true -> py_le_0 v = Devuelve false ->
  exists y, loghelper (m_log func) v = Devuelve (VFloat y).
Proof.
  intros Hfin Hv Hle.
  destruct (no_le_casos v Hv Hle) as [Hpos | [f [-> Hn]]].
  - eexists. now apply loghelper_positivo.
  - exists f. unfold loghelper. simpl entero. cbv iota.
    rewrite (math_1_nan _ (VFloat f) f eq_refl Hn). now rewrite m_log_nan.
Qed.

(** X2.  A call on numbers emits one record, which carries the arguments
    of the call, and its level tells the outcome: ERROR exactly when the
    method's own test refused the argument ([dividir], [raiz_cuadrada]
    and the logarithms, with the message of the class); INFO when a value
    is returned, and also when [math] raises later.  The ValueError of
    [math], ["math domain error"], comes from [potencia], [seno],
    [coseno] and [tangente] and from no other method, and an
    OverflowError is never logged as an error. *)
Theorem nivel_del_registro (L : Libm) (c : llamada) (l : bitacora) :
  forallb es_numero (argumentos_de c) = true ->
  exists rec : LogRecord,
    snd (ejecutar L c l) = l ++ [rec] /\ args rec = argumentos_de c /\
    match salida (ejecutar L c) l with
    | Devuelve _ => levelname rec = INFO
    | Lanza (ValueError m) =>
        if String.eqb m "math domain error"
        then levelname rec = INFO /\ llama_a_math_sin_guarda c = true
        else levelname rec = ERROR /\ tiene_guarda c = true
    | Lanza _ => levelname rec = INFO
    end.
Proof.
  intros Hnum. unfold salida.
  destruct c; simpl in Hnum;
    try (apply argumentos_numeros2 in Hnum; destruct Hnum as [Ha Hb]);
    try apply argumentos_numeros1 in Hnum; simpl ejecutar.
  - rewrite sumar_numeros by assumption. eexists. split; [reflexivity |].
    split; [reflexivity |]. simpl fst. unfold py_add.
    pose proof (aritmetica_casos "+" Z.add PrimFloat.add a b Ha Hb) as H.
    destruct (ambos_enteros a b); [destruct H as [z ->] | destruct H as [[f ->] | ->]];
      reflexivity.
  - rewrite restar_numeros by assumption. eexists. split; [reflexivity |].
    split; [reflexivity |]. simpl fst. unfold py_sub.
    pose proof (aritmetica_casos "-" Z.sub PrimFloat.sub a b Ha Hb) as H.
    destruct (ambos_enteros a b); [destruct H as [z ->] | destruct H as [[f ->] | ->]];
      reflexivity.
  - rewrite multiplicar_numeros by assumption. eexists. split; [reflexivity |].
    split; [reflexivity |]. simpl fst. unfold py_mul.
    pose proof (aritmetica_casos "*" Z.mul PrimFloat.mul a b Ha Hb) as H.
    destruct (ambos_enteros a b); [destruct H as [z ->] | destruct H as [[f ->] | ->]];
      reflexivity.
  - rewrite dividir_numeros by assumption.
    destruct (py_eq_0 b) eqn:Hb0; eexists; (split; [reflexivity |]);
      (split; [reflexivity |]); simpl fst.
    + vm_compute. auto.
    + destruct (py_truediv_casos a b Ha Hb Hb0) as [[q ->] | [m ->]]; reflexivity.
  - rewrite potencia_numeros by assumption. eexists. split; [reflexivity |].
    split; [reflexivity |]. simpl fst.
    destruct (math_pow L base exponente) as [v | e] eqn:E; [reflexivity |].
    destruct (math_pow_errores L base exponente e Ha Hb E) as [-> | [-> | ->]];
      simpl; auto.
  - destruct (py_lt_0_numero _ Hnum) as [[] Hlt];
      rewrite (raiz_cuadrada_numeros _ _ _ Hnum Hlt);
      eexists; (split; [reflexivity |]); (split; [reflexivity |]); simpl fst.
    + vm_compute. auto.
    + destruct (math_sqrt_no_lt numero Hnum Hlt) as [[y ->] | ->]; reflexivity.
  - destruct (py_le_0_numero _ Hnum) as [[] Hle];
      rewrite (logaritmo_natural_numeros _ _ _ _ Hnum Hle);
      eexists; (split; [reflexivity |]); (split; [reflexivity |]); simpl fst.
    + vm_compute. auto.
    + unfold math_log.
      destruct (loghelper_no_le (c_log L) numero (log_finito L) Hnum Hle) as [y ->].
      reflexivity.
  - destruct (py_le_0_numero _ Hnum) as [[] Hle];
      rewrite (logaritmo_base_10_numeros _ _ _ _ Hnum Hle);
      eexists; (split; [reflexivity |]); (split; [reflexivity |]); simpl fst.
    + vm_compute. auto.
    + unfold math_log10.
      destruct (loghelper_no_le (c_log10 L) numero (log10_finito L) Hnum Hle) as [y ->].
      reflexivity.
  - rewrite seno_numeros by assumption. eexists. split; [reflexivity |].
    split; [reflexivity |]. simpl fst. unfold math_sin.
    pose proof (math_1_trigonometrica (c_sin L) angulo
                  (sin_infinito L) (sin_finito L) Hnum) as H.
    destruct (PyFloat_AsDouble angulo) as [x | e].
    + rewrite H. destruct (is_infinity x); simpl; auto.
    + destruct H as [-> ->]. reflexivity.
  - rewrite coseno_numeros by assumption. eexists. split; [reflexivity |].
    split; [reflexivity |]. simpl fst. unfold math_cos.
    pose proof (math_1_trigonometrica (c_cos L) angulo
                  (cos_infinito L) (cos_finito L) Hnum) as H.
    destruct (PyFloat_AsDouble angulo) as [x | e].
    + rewrite H. destruct (is_infinity x); simpl; auto.
    + destruct H as [-> ->]. reflexivity.
  - rewrite tangente_numeros by assumption. eexists. split; [reflexivity |].
    split; [reflexivity |]. simpl fst. unfold math_tan.
    pose proof (math_1_trigonometrica (c_tan L) angulo
                  (tan_infinito L) (tan_finito L) Hnum) as H.
    destruct (PyFloat_AsDouble angulo) as [x | e].
    + rewrite H. destruct (is_infinity x); simpl; auto.
    + destruct H as [-> ->]. reflexivity.
Qed.

Lemma nivel_del_registro_testigo :
  (exists rec : LogRecord,
     snd (ejecutar libm_minima (Dividir (VInt 1) (VBool false)) []) = [rec] /\
     args rec = [VInt 1; VBool false] /\
     levelname rec = ERROR /\ tiene_guarda (Dividir (VInt 1) (VBool false)) = true) /\
  (exists rec : LogRecord,
     snd (ejecutar libm_minima (Seno (VFloat infinity)) []) = [rec] /\
     args rec = [VFloat infinity] /\
     levelname rec = INFO /\
     llama_a_math_sin_guarda (Seno (VFloat infinity)) = true).
Proof.
  split.
  - exact (nivel_del_registro libm_minima (Dividir (VInt 1) (VBool false)) [] eq_refl).
  - exact (nivel_del_registro libm_minima (Seno (VFloat infinity)) [] eq_refl).
Defined.

(** ** The type of the value returned *)

Lemma math_1_devuelve (func : float -> float) (arg v : valor) :
  math_1 func arg = Devuelve v -> exists f, v = VFloat f.
Proof.
  unfold math_1. destruct (PyFloat_AsDouble arg) as [x | e]; [| discriminate].
  cbv zeta.
  destruct (is_nan (func x) && negb (is_nan x)); [discriminate |].
  destruct (is_infinity (func x) && is_finite x); [discriminate |].
  intros H. injection H as <-. eauto.
Qed.

Lemma loghelper_devuelve (func : float -> float) (arg v : valor) :
  loghelper func arg = Devuelve v -> exists f, v = VFloat f.
Proof.
  unfold loghelper. destruct (entero arg) as [z |].
  - destruct (z <=? 0); [discriminate |].
    destruct (PyLong_AsDouble z).
    + intros H. injection H as <-. eauto.
    + destruct (PyLong_Frexp z). intros H. injection H as <-. eauto.
  - apply math_1_devuelve.
Qed.

Lemma math_pow_devuelve (L : Libm) (a b v : valor) :
  math_pow L a b = Devuelve v -> exists f, v = VFloat f.
Proof.
  unfold math_pow, math_pow_impl.
  destruct (PyFloat_AsDouble a) as [x | e]; [| discriminate].
  destruct (PyFloat_AsDouble b) as [y | e]; [| discriminate].
  destruct (negb (is_finite x) || negb (is_finite y)).
  - intros H. injection H as <-. eauto.
  - cbv zeta. destruct (is_nan (c_pow L x y)); [discriminate |].
    destruct (is_infinity (c_pow L x y)).
    + destruct (x =? 0)%float; discriminate.
    + intros H. injection H as <-. eauto.
Qed.

Lemma py_truediv_devuelve (a b v : valor) :
  py_truediv a b = Devuelve v -> exists f, v = VFloat f.
Proof.
  unfold py_truediv, long_true_divide, float_div.
  destruct (es_numero a && es_numero b); [| discriminate].
  destruct (entero a) as [x |], (entero b) as [y |];
    try (destruct (y =? 0); [discriminate |];
         destruct (SFdiv prec emax (Z2SF x) (Z2SF y));
         try discriminate; intros H; injection H as <-; eauto);
    (destruct (PyFloat_AsDouble a) as [fx | e]; [| discriminate];
     destruct (PyFloat_AsDouble b) as [fy | e]; [| discriminate];
     destruct (fy =? 0)%float; [discriminate |];
     intros H; injection H as <-; eauto).
Qed.

(** X3.  What a call on numbers returns is an [int] only from [sumar],
    [restar] and [multiplicar] on operands that are both [int] or [bool]
    (two booleans add up to an [int], never to a [bool]); with a float
    operand these three return a float, and the eight other methods
    return a float on every argument, [dividir] on two integers
    included. *)
Theorem tipo_del_resultado (L : Libm) (c : llamada) (l : bitacora) (v : valor) :
  forallb es_numero (argumentos_de c) = true ->
  salida (ejecutar L c) l = Devuelve v ->
  match c with
  | Sumar a b | Restar a b | Multiplicar a b =>
      if ambos_enteros a b then exists z : Z, v = VInt z
      else exists f : float, v = VFloat f
  | _ => exists f : float, v = VFloat f
  end.
Proof.
  intros Hnum. unfold salida.
  destruct c; simpl in Hnum;
    try (apply argumentos_numeros2 in Hnum; destruct Hnum as [Ha Hb]);
    try apply argumentos_numeros1 in Hnum; simpl ejecutar.
  - rewrite sumar_numeros by assumption. simpl fst. unfold py_add.
    pose proof (aritmetica_casos "+" Z.add PrimFloat.add a b Ha Hb) as H.
    destruct (ambos_enteros a b);
      [destruct H as [z ->] | destruct H as [[f ->] | ->]];
      intros E; try discriminate; injection E as <-; eauto.
  - rewrite restar_numeros by assumption. simpl fst. unfold py_sub.
    pose proof (aritmetica_casos "-" Z.sub PrimFloat.sub a b Ha Hb) as H.
    destruct (ambos_enteros a b);
      [destruct H as [z ->] | destruct H as [[f ->] | ->]];
      intros E; try discriminate; injection E as <-; eauto.
  - rewrite multiplicar_numeros by assumption. simpl fst. unfold py_mul.
    pose proof (aritmetica_casos "*" Z.mul PrimFloat.mul a b Ha Hb) as H.
    destruct (ambos_enteros a b);
      [destruct H as [z ->] | destruct H as [[f ->] | ->]];
      intros E; try discriminate; injection E as <-; eauto.
  - rewrite dividir_numeros by assumption.
    destruct (py_eq_0 b); simpl fst; [discriminate | apply py_truediv_devuelve].
  - rewrite potencia_numeros by assumption. apply math_pow_devuelve.
  - destruct (py_lt_0_numero _ Hnum) as [[] Hlt];
      rewrite (raiz_cuadrada_numeros _ _ _ Hnum Hlt); simpl fst;
      [discriminate | apply math_1_devuelve].
  - destruct (py_le_0_numero _ Hnum) as [[] Hle];
      rewrite (logaritmo_natural_numeros _ _ _ _ Hnum Hle); simpl fst;
      [discriminate | apply loghelper_devuelve].
  - destruct (py_le_0_numero _ Hnum) as [[] Hle];
      rewrite (logaritmo_base_10_numeros _ _ _ _ Hnum Hle); simpl fst;
      [discriminate | apply loghelper_devuelve].
  - rewrite seno_numeros by assumption. apply math_1_devuelve.
  - rewrite coseno_numeros by assumption. apply math_1_devuelve.
  - rewrite tangente_numeros by assumption. apply math_1_devuelve.
Qed.

Lemma tipo_del_resultado_testigo :
  (exists z : Z, VInt 2 = VInt z) /\ (exists f : float, VFloat 5 = VFloat f).
Proof.
  split.
  - exact (tipo_del_resultado libm_minima (Sumar (VBool true) (VBool true)) []
             (VInt 2) eq_refl eq_refl).
  - exact (tipo_del_resultado libm_minima (Dividir (VInt 15) (VInt 3)) []
             (VFloat 5) eq_refl eq_refl).
Defined.

(** ** sumar and multiplicar commute *)

Lemma SFadd_comm (x y : spec_float) : SFadd prec emax x y = SFadd prec emax y x.
Proof.
  destruct x as [[] | [] | | sx mx ex], y as [[] | [] | | sy my ey]; try reflexivity.
  unfold SFadd. rewrite (Z.min_comm ey ex). f_equal. apply Z.add_comm.
Qed.

Lemma SFmul_comm (x y : spec_float) : SFmul prec emax x y = SFmul prec emax y x.
Proof.
  destruct x as [[] | [] | | sx mx ex], y as [[] | [] | | sy my ey]; try reflexivity;
    try (simpl; now rewrite xorb_comm).
  unfold SFmul. now rewrite xorb_comm, Pos.mul_comm, Z.add_comm.
Qed.

Lemma float_add_comm (x y : float) : (x + y = y + x)%float.
Proof.
  apply Prim2SF_inj. rewrite !add_spec. apply SFadd_comm.
Qed.

Lemma float_mul_comm (x y : float) : (x * y = y * x)%float.
Proof.
  apply Prim2SF_inj. rewrite !mul_spec. apply SFmul_comm.
Qed.

Lemma aritmetica_conmuta (op : string) (opZ : Z -> Z -> Z)
    (opF : float -> float -> float) (a b : valor) :
  (forall x y, opZ x y = opZ y x) -> (forall x y, opF x y = opF y x) ->
  es_numero a = true -> es_numero b = true ->
  aritmetica op opZ opF a b = aritmetica op opZ opF b a.
Proof.
  intros HZ HF Ha Hb. unfold aritmetica. rewrite Ha, Hb. simpl.
  destruct (entero a) as [x |] eqn:Ea, (entero b) as [y |] eqn:Eb.
  - now rewrite HZ.
  - destruct (no_entero_es_float b Hb Eb) as [g ->]. simpl.
    destruct (PyFloat_AsDouble a); [now rewrite HF | reflexivity].
  - destruct (no_entero_es_float a Ha Ea) as [f ->]. simpl.
    destruct (PyFloat_AsDouble b); [now rewrite HF | reflexivity].
  - destruct (no_entero_es_float a Ha Ea) as [f ->].
    destruct (no_entero_es_float b Hb Eb) as [g ->]. simpl. now rewrite HF.
Qed.

Lemma mismo_resultado_refl (r : resultado valor) : mismo_resultado r r.
Proof.
  destruct r as [[z | b | x | t | |] | e]; simpl; try reflexivity.
  destruct (is_nan x); reflexivity.
Qed.

(** X4.  On numbers, [sumar] and [multiplicar] give the same outcome
    when the operands are swapped, on whatever log: the same exception,
    the same integer, or the same double (two NaNs being the same here,
    whatever their sign and payload): integer and binary64 addition and
    multiplication commute, and so does the conversion of a mixed
    pair. *)
Theorem sumar_multiplicar_conmutan (a b : valor) (l l' : bitacora) :
  es_numero a = true -> es_numero b = true ->
  mismo_resultado (salida (sumar a b) l) (salida (sumar b a) l') /\
  mismo_resultado (salida (multiplicar a b) l) (salida (multiplicar b a) l').
Proof.
  intros Ha Hb. unfold salida.
  rewrite !sumar_numeros, !multiplicar_numeros by assumption. simpl fst.
  unfold py_add, py_mul.
  rewrite (aritmetica_conmuta "+" Z.add PrimFloat.add a b Z.add_comm float_add_comm Ha Hb).
  rewrite (aritmetica_conmuta "*" Z.mul PrimFloat.mul a b Z.mul_comm float_mul_comm Ha Hb).
  split; apply mismo_resultado_refl.
Qed.

Lemma sumar_multiplicar_conmutan_testigo :
  mismo_resultado (salida (sumar (VInt 2) (VFloat 0.5)) [])
                  (salida (sumar (VFloat 0.5) (VInt 2)) []) /\
  mismo_resultado (salida (multiplicar (VFloat infinity) (VInt 0)) [])
                  (salida (multiplicar (VInt 0) (VFloat infinity)) []).
Proof.
  split.
  - exact (proj1 (sumar_multiplicar_conmutan (VInt 2) (VFloat 0.5) [] []
                    eq_refl eq_refl)).
  - exact (proj2 (sumar_multiplicar_conmutan (VFloat infinity) (VInt 0) [] []
                    eq_refl eq_refl)).
Defined.

(** ** NaN *)

Lemma Prim2SF_nan : Prim2SF nan = S754_nan.
Proof. reflexivity. Qed.

Lemma div_nan_r (x : float) : (x / nan)%float = nan.
Proof.
  apply Prim2SF_inj. rewrite div_spec, Prim2SF_nan. unfold SF64div.
  destruct (Prim2SF x); reflexivity.
Qed.

Lemma add_nan_r (x : float) : (x + nan)%float = nan.
Proof.
  apply Prim2SF_inj. rewrite add_spec, Prim2SF_nan. unfold SF64add.
  destruct (Prim2SF x); reflexivity.
Qed.

Lemma sub_nan_r (x : float) : (x - nan)%float = nan.
Proof.
  apply Prim2SF_inj. rewrite sub_spec, Prim2SF_nan. unfold SF64sub.
  destruct (Prim2SF x); reflexivity.
Qed.

Lemma mul_nan_r (x : float) : (x * nan)%float = nan.
Proof.
  apply Prim2SF_inj. rewrite mul_spec, Prim2SF_nan. unfold SF64mul.
  destruct (Prim2SF x); reflexivity.
Qed.

(** X5.  NaN is a number for [validar_numeros], and no test of the class
    stops it, since [nan == 0], [nan < 0] and [nan <= 0] are all false.
    As second operand of the four arithmetic methods, after a first
    operand that has a double (every float, and every integer within the
    doubles), it comes back as the value returned, after the INFO
    record; after an integer that has no double the four methods raise
    OverflowError, after the same INFO record.  As argument of
    [raiz_cuadrada] and of both logarithms it comes back too, after an
    INFO record, where an error was to be expected. *)
Theorem nan_atraviesa_las_guardas :
  es_numero (VFloat nan) = true /\
  (forall (a : valor) (l : bitacora),
     es_numero a = true ->
     let r : resultado valor :=
       match PyFloat_AsDouble a with
       | Devuelve _ => Devuelve (VFloat nan)
       | Lanza _ => Lanza (OverflowError "int too large to convert to float")
       end in
     sumar a (VFloat nan) l =
       (r, l ++ [mkLogRecord INFO "Sumando %d + %d" [a; VFloat nan]]) /\
     restar a (VFloat nan) l =
       (r, l ++ [mkLogRecord INFO "Restando %d - %d" [a; VFloat nan]]) /\
     multiplicar a (VFloat nan) l =
       (r, l ++ [mkLogRecord INFO "Multiplicando %d * %d" [a; VFloat nan]]) /\
     dividir a (VFloat nan) l =
       (r, l ++ [mkLogRecord INFO "Dividiendo %d / %d" [a; VFloat nan]])) /\
  (forall l : bitacora,
     raiz_cuadrada (VFloat nan) l =
       (Devuelve (VFloat nan),
        l ++ [mkLogRecord INFO "Calculando raíz cuadrada de %d" [VFloat nan]])) /\
  (forall (L : Libm) (l : bitacora),
     logaritmo_natural L (VFloat nan) l =
       (Devuelve (VFloat nan),
        l ++ [mkLogRecord INFO "Calculando logaritmo natural de %d" [VFloat nan]]) /\
     logaritmo_base_10 L (VFloat nan) l =
       (Devuelve (VFloat nan),
        l ++ [mkLogRecord INFO "Calculando logaritmo base 10 de %d" [VFloat nan]])).
Proof.
  split; [reflexivity | split; [| split]].
  - intros a l Ha. cbv zeta.
    rewrite sumar_numeros, restar_numeros, multiplicar_numeros, dividir_numeros
      by auto.
    change (py_eq_0 (VFloat nan)) with false. cbv iota.
    unfold py_add, py_sub, py_mul.
    rewrite !(aritmetica_mixta _ _ _ a (VFloat nan) Ha eq_refl (or_intror eq_refl)).
    rewrite (py_truediv_mixto a (VFloat nan) Ha eq_refl (or_intror eq_refl) eq_refl).
    cbn [PyFloat_AsDouble].
    destruct (PyFloat_AsDouble a) as [x | e]; [| auto].
    now rewrite add_nan_r, sub_nan_r, mul_nan_r, div_nan_r.
  - intros l. reflexivity.
  - intros L l. split; reflexivity.
Qed.

(** ** Adding and subtracting back *)

(** X6.  On integers and booleans, subtracting what was added (and adding
    what was subtracted) gives the first operand back, exactly, however
    large the operands; the two calls leave two INFO records, the second
    with the intermediate sum (or difference).  On doubles the round trip
    is lost to rounding ([ida_y_vuelta_en_doubles] below). *)
Theorem sumar_restar_ida_y_vuelta (a b : valor) (x y : Z) (l : bitacora) :
  entero a = Some x -> entero b = Some y ->
  (v <- sumar a b ;; restar v b) l =
    (Devuelve (VInt x),
     l ++ [mkLogRecord INFO "Sumando %d + %d" [a; b];
           mkLogRecord INFO "Restando %d - %d" [VInt (x + y); b]]) /\
  (v <- restar a b ;; sumar v b) l =
    (Devuelve (VInt x),
     l ++ [mkLogRecord INFO "Restando %d - %d" [a; b];
           mkLogRecord INFO "Sumando %d + %d" [VInt (x - y); b]]).
Proof.
  intros Ha Hb.
  assert (Hna : es_numero a = true) by (destruct a; simpl in Ha; try discriminate; reflexivity).
  assert (Hnb : es_numero b = true) by (destruct b; simpl in Hb; try discriminate; reflexivity).
  unfold bind. rewrite sumar_numeros, restar_numeros by assumption.
  unfold py_add, py_sub.
  rewrite !(aritmetica_enteros _ _ _ a b x y Ha Hb).
  rewrite sumar_numeros, restar_numeros by auto. unfold py_add, py_sub.
  rewrite (aritmetica_enteros _ _ _ (VInt (x + y)) b (x + y) y eq_refl Hb).
  rewrite (aritmetica_enteros _ _ _ (VInt (x - y)) b (x - y) y eq_refl Hb).
  rewrite <- !app_assoc. simpl.
  replace (x + y - y) with x by lia. replace (x - y + y) with x by lia. auto.
Qed.

Lemma sumar_restar_ida_y_vuelta_testigo :
  (v <- sumar (VInt (2 ^ 70)) (VBool true) ;; restar v (VBool true)) [] =
    (Devuelve (VInt (2 ^ 70)),
     [mkLogRecord INFO "Sumando %d + %d" [VInt (2 ^ 70); VBool true];
      mkLogRecord INFO "Restando %d - %d" [VInt (2 ^ 70 + 1); VBool true]]).
Proof.
  exact (proj1 (sumar_restar_ida_y_vuelta (VInt (2 ^ 70)) (VBool true) (2 ^ 70) 1 []
                  eq_refl eq_refl)).
Defined.

(** [(1.0 + 2.0**60) - 2.0**60] is [0.0]. *)
Example ida_y_vuelta_en_doubles :
  salida (v <- sumar (VFloat 1) (VFloat 0x1p+60) ;; restar v (VFloat 0x1p+60)) []
  = Devuelve (VFloat 0).
Proof. reflexivity. Qed.

(** ** The lines of the log

    The templates of the class format with [%d], those of the three
    trigonometric methods with [%f]; the handlers render a record when
    they emit it, after the method has gone on. *)

Lemma en_decimal_no_texto (z : Z) (c : campo) :
  en_decimal z = Devuelve c -> es_texto c = false.
Proof.
  unfold en_decimal. destruct (excede_el_limite z); [discriminate |].
  intros H. injection H as <-. reflexivity.
Qed.

Lemma convertir_no_texto (k : conversion) (v : valor) (c : campo) :
  k <> ConvS -> convertir k v = Devuelve c -> es_texto c = false.
Proof.
  destruct k; [| | congruence]; intros _; cbn [convertir].
  - destruct v; try discriminate; try apply en_decimal_no_texto.
    destruct (is_nan f); [discriminate |].
    destruct (is_infinity f); [discriminate |].
    apply en_decimal_no_texto.
  - destruct (PyFloat_AsDouble v); [| discriminate].
    intros H; injection H as <-; reflexivity.
Qed.

(** [msg % args] when there are as many arguments as conversions. *)
Lemma rellenar_spec (ps : list parte) :
  forall vs : list valor,
    List.length (conversiones ps) = List.length vs ->
    match convertir_todos (conversiones ps) vs with
    | Lanza e => rellenar ps vs = Lanza e
    | Devuelve cs =>
        exists m, rellenar ps vs = Devuelve m /\
                  (sin_ConvS (conversiones ps) = true ->
                   filter (fun c => negb (es_texto c)) m = cs)
    end.
Proof.
  induction ps as [| [t | k] ps IH]; intros vs Hlen.
  - destruct vs; [| discriminate]. simpl. eauto.
  - simpl in Hlen. specialize (IH vs Hlen). simpl conversiones.
    cbn [rellenar].
    destruct (convertir_todos (conversiones ps) vs) as [cs | e].
    + destruct IH as [m [-> Hm]]. exists (Texto t :: m). split; [reflexivity |].
      intros H. simpl. now apply Hm.
    + now rewrite IH.
  - destruct vs as [| v vs]; [discriminate |].
    simpl in Hlen. injection Hlen as Hlen. specialize (IH vs Hlen).
    change (conversiones (Conv k :: ps)) with (k :: conversiones ps).
    cbn [convertir_todos rellenar].
    destruct (convertir k v) as [c |] eqn:Ec; [| reflexivity].
    destruct (convertir_todos (conversiones ps) vs) as [cs | e].
    + destruct IH as [m [-> Hm]]. exists (c :: m). split; [reflexivity |].
      intros H. simpl in H. apply andb_true_iff in H. destruct H as [Hk Hks].
      cbn [filter]. rewrite (convertir_no_texto k v c); [| destruct k; congruence | exact Ec].
      simpl. f_equal. now apply Hm.
    + now rewrite IH.
Qed.

(** An integer below 2^1024 is within the limit, and so is the integer
    part of every double. *)
Lemma en_decimal_pequeno (z : Z) :
  Z.abs z < 2 ^ 1024 -> en_decimal z = Devuelve (Entero z).
Proof.
  intros Hz. unfold en_decimal, excede_el_limite.
  assert (Hlim : 2 ^ 1024 < 10 ^ max_str_digits).
  { apply Z.le_lt_trans with (2 ^ max_str_digits).
    - apply Z.pow_le_mono_r; unfold max_str_digits; lia.
    - apply Z.pow_lt_mono_l; unfold max_str_digits; lia. }
  replace (10 ^ max_str_digits <=? Z.abs z) with false; [reflexivity |].
  symmetry. apply Z.leb_gt. lia.
Qed.

Lemma truncar_acotado (f : float) : Z.abs (truncar f) < 2 ^ 1024.
Proof.
  unfold truncar. pose proof (Prim2SF_valid f) as Hv.
  destruct (Prim2SF f) as [s | s | | s m e]; try reflexivity.
  apply valid_binary_finite in Hv. destruct Hv as [Hd [He _]].
  pose proof (Zdigits2_bounds (Zpos m) ltac:(lia)) as [_ Hm].
  assert (Hm53 : Zpos m < 2 ^ 53).
  { apply Z.lt_le_trans with (1 := Hm). apply Z.pow_le_mono_r; lia. }
  assert (Ht : 0 <= (if 0 <=? e then Zpos m * 2 ^ e else Zpos m / 2 ^ (- e)) < 2 ^ 1024).
  { destruct (0 <=? e) eqn:E.
    - apply Z.leb_le in E.
      assert (0 < 2 ^ e) by (apply Z.pow_pos_nonneg; lia).
      assert (2 ^ e <= 2 ^ 971) by (apply Z.pow_le_mono_r; lia).
      change (2 ^ 1024) with (2 ^ 53 * 2 ^ 971). split; [lia |].
      apply Z.lt_le_trans with (2 ^ 53 * 2 ^ e); [| apply Z.mul_le_mono_nonneg_l; lia].
      apply Z.mul_lt_mono_pos_r; lia.
    - apply Z.leb_gt in E.
      assert (0 < 2 ^ (- e)) by (apply Z.pow_pos_nonneg; lia).
      split; [apply Z.div_pos; lia |].
      apply Z.le_lt_trans with (Zpos m); [apply Z.div_le_upper_bound; nia |].
      apply Z.lt_trans with (1 := Hm53). reflexivity. }
  set (t := if 0 <=? e then Zpos m * 2 ^ e else Zpos m / 2 ^ (- e)) in *.
  destruct s; unfold cond_Zopp; lia.
Qed.

(** [%d] on a number. *)
Lemma convertir_d (v : valor) :
  es_numero v = true ->
  if sin_decimal v then exists e, convertir ConvD v = Lanza e
  else convertir ConvD v = Devuelve (Entero (parte_entera v)).
Proof.
  destruct v as [z | b | f | | |]; try discriminate; intros _;
    cbn [sin_decimal convertir parte_entera].
  - unfold en_decimal. destruct (excede_el_limite z); eauto.
  - apply en_decimal_pequeno. destruct b; reflexivity.
  - unfold is_finite. destruct (is_nan f); [simpl; eauto |].
    destruct (is_infinity f); [simpl; eauto |]. simpl negb. cbv iota.
    apply en_decimal_pequeno, truncar_acotado.
Qed.

Lemma convertir_todos_d (vs : list valor) :
  forallb es_numero vs = true ->
  if existsb sin_decimal vs
  then exists e, convertir_todos (repeat ConvD (List.length vs)) vs = Lanza e
  else convertir_todos (repeat ConvD (List.length vs)) vs =
       Devuelve (map (fun v => Entero (parte_entera v)) vs).
Proof.
  induction vs as [| v vs IH]; intros H; [reflexivity |].
  cbn [forallb] in H. apply andb_true_iff in H. destruct H as [Hv Hvs].
  specialize (IH Hvs). pose proof (convertir_d v Hv) as Hc.
  cbn [existsb List.length repeat convertir_todos map].
  destruct (sin_decimal v).
  - destruct Hc as [e ->]. simpl orb. cbv iota. eauto.
  - rewrite Hc. simpl orb.
    destruct (existsb sin_decimal vs).
    + destruct IH as [e ->]. eauto.
    + now rewrite IH.
Qed.

(** The record of a call on numbers and the conversions of its template:
    [%f] in the three trigonometric methods, [%d] everywhere else, one
    for each argument. *)
Lemma plantilla_de_llamada (L : Libm) (c : llamada) (l : bitacora) :
  forallb es_numero (argumentos_de c) = true ->
  exists (rec : LogRecord) (ps : list parte),
    snd (ejecutar L c l) = l ++ [rec] /\
    args rec = argumentos_de c /\
    analizar (msg rec) = Some ps /\
    conversiones ps =
    repeat (if es_trigonometrica c then ConvF else ConvD)
           (List.length (argumentos_de c)).
Proof.
  intros Hnum.
  destruct c as [a b | a b | a b | a b | a b | x | x | x | x | x | x];
    simpl in Hnum;
    try (apply argumentos_numeros2 in Hnum; destruct Hnum as [Ha Hb]);
    try apply argumentos_numeros1 in Hnum; simpl ejecutar.
  - rewrite sumar_numeros by assumption.
    eexists; eexists; split; [reflexivity | split; [reflexivity | split; reflexivity]].
  - rewrite restar_numeros by assumption.
    eexists; eexists; split; [reflexivity | split; [reflexivity | split; reflexivity]].
  - rewrite multiplicar_numeros by assumption.
    eexists; eexists; split; [reflexivity | split; [reflexivity | split; reflexivity]].
  - rewrite dividir_numeros by assumption.
    destruct (py_eq_0 b);
      eexists; eexists; (split; [reflexivity | split; [reflexivity | split; reflexivity]]).
  - rewrite potencia_numeros by assumption.
    eexists; eexists; split; [reflexivity | split; [reflexivity | split; reflexivity]].
  - destruct (py_lt_0_numero x Hnum) as [neg Hneg].
    rewrite (raiz_cuadrada_numeros x l neg) by assumption.
    destruct neg;
      eexists; eexists; (split; [reflexivity | split; [reflexivity | split; reflexivity]]).
  - destruct (py_le_0_numero x Hnum) as [np Hnp].
    rewrite (logaritmo_natural_numeros L x l np) by assumption.
    destruct np;
      eexists; eexists; (split; [reflexivity | split; [reflexivity | split; reflexivity]]).
  - destruct (py_le_0_numero x Hnum) as [np Hnp].
    rewrite (logaritmo_base_10_numeros L x l np) by assumption.
    destruct np;
      eexists; eexists; (split; [reflexivity | split; [reflexivity | split; reflexivity]]).
  - rewrite seno_numeros by assumption.
    eexists; eexists; split; [reflexivity | split; [reflexivity | split; reflexivity]].
  - rewrite coseno_numeros by assumption.
    eexists; eexists; split; [reflexivity | split; [reflexivity | split; reflexivity]].
  - rewrite tangente_numeros by assumption.
    eexists; eexists; split; [reflexivity | split; [reflexivity | split; reflexivity]].
Qed.

Lemma escrito_app (l l' : bitacora) : escrito (l ++ l') = escrito l ++ escrito l'.
Proof. apply flat_map_app. Qed.

Lemma escrito_uno (l : bitacora) (rec : LogRecord) :
  escrito (l ++ [rec]) =
  escrito l ++ match emit rec with Some ln => [ln] | None => [] end.
Proof. rewrite escrito_app. simpl. now rewrite app_nil_r. Qed.

Lemma sin_ConvS_repeat (k : conversion) (n : nat) :
  k <> ConvS -> sin_ConvS (repeat k n) = true.
Proof.
  intros Hk. induction n as [| n IH]; [reflexivity |].
  unfold sin_ConvS in *. simpl. rewrite IH. destruct k; try reflexivity.
  now destruct Hk.
Qed.

Lemma argumentos_no_vacios (c : llamada) : argumentos_de c <> [].
Proof. destruct c; discriminate. Qed.

(** X7.  The eight methods that format with [%d].  A call on numbers
    leaves one line in the log file, at the level of its record, unless
    an argument is a float infinity or NaN, or an integer of more than
    4300 digits: then [%d] fails inside the handler, no line is written,
    and the call goes on as if it had been logged.  In the line every
    argument is shown as an integer: a float appears without its
    fraction. *)
Theorem linea_con_d (L : Libm) (c : llamada) (l : bitacora) :
  es_trigonometrica c = false ->
  forallb es_numero (argumentos_de c) = true ->
  exists rec : LogRecord,
    snd (ejecutar L c l) = l ++ [rec] /\
    if existsb sin_decimal (argumentos_de c)
    then emit rec = None /\ escrito (snd (ejecutar L c l)) = escrito l
    else exists ln : linea,
        emit rec = Some ln /\
        escrito (snd (ejecutar L c l)) = escrito l ++ [ln] /\
        nivel_de_linea ln = levelname rec /\
        campos_de ln = map (fun v => Entero (parte_entera v)) (argumentos_de c).
Proof.
  intros Htrig Hnum.
  destruct (plantilla_de_llamada L c l Hnum) as [rec [ps [Hl [Hargs [Hps Hks]]]]].
  rewrite Htrig in Hks.
  exists rec. split; [exact Hl |]. rewrite Hl, escrito_uno.
  pose proof (rellenar_spec ps (argumentos_de c)) as Hr.
  rewrite Hks, repeat_length in Hr. specialize (Hr eq_refl).
  assert (Hget : getMessage rec = Some (rellenar ps (argumentos_de c))).
  { unfold getMessage. rewrite Hargs, Hps.
    destruct (argumentos_de c) eqn:E; [now destruct (argumentos_no_vacios c) | reflexivity]. }
  unfold emit. rewrite Hget.
  pose proof (convertir_todos_d _ Hnum) as Hd.
  destruct (existsb sin_decimal (argumentos_de c)).
  - destruct Hd as [e He]. rewrite He in Hr. rewrite Hr.
    split; [reflexivity | now rewrite app_nil_r].
  - rewrite Hd in Hr.
    destruct Hr as [m [-> Hm]].
    eexists. split; [reflexivity |]. split; [reflexivity |]. split; [reflexivity |].
    unfold campos_de. cbn [mensaje]. apply Hm. apply sin_ConvS_repeat. discriminate.
Qed.

Lemma linea_con_d_testigo :
  (exists rec : LogRecord,
     snd (ejecutar libm_minima (LogaritmoNatural (VFloat 0x1.5be76c8b43958p+1)) []) =
       [rec] /\
     exists ln : linea,
       emit rec = Some ln /\
       escrito (snd (ejecutar libm_minima
                       (LogaritmoNatural (VFloat 0x1.5be76c8b43958p+1)) [])) = [ln] /\
       nivel_de_linea ln = levelname rec /\
       campos_de ln = [Entero 2]) /\
  (exists rec : LogRecord,
     snd (ejecutar libm_minima (Sumar (VFloat infinity) (VInt 1)) []) = [rec] /\
     emit rec = None /\
     escrito (snd (ejecutar libm_minima (Sumar (VFloat infinity) (VInt 1)) [])) = []).
Proof.
  split.
  - exact (linea_con_d libm_minima (LogaritmoNatural (VFloat 0x1.5be76c8b43958p+1)) []
             eq_refl eq_refl).
  - exact (linea_con_d libm_minima (Sumar (VFloat infinity) (VInt 1)) []
             eq_refl eq_refl).
Defined.

(** The limit is exact: 10^4300 is the first integer that [%d] does not
    write. *)
Example limite_de_digitos :
  sin_decimal (VInt (10 ^ max_str_digits)) = true /\
  sin_decimal (VInt (10 ^ max_str_digits - 1)) = false /\
  sin_decimal (VInt (- 10 ^ max_str_digits)) = true.
Proof.
  assert (H : 0 < 10 ^ max_str_digits) by (apply Z.pow_pos_nonneg; unfold max_str_digits; lia).
  unfold sin_decimal, excede_el_limite.
  split; [| split]; [apply Z.leb_le | apply Z.leb_gt | apply Z.leb_le]; lia.
Qed.

(** X8.  The three trigonometric methods, which format with [%f].  The
    angle is written as the double it is converted to, at level INFO;
    the line is lost exactly when the angle is an integer beyond the
    doubles, and then the call itself raises the same OverflowError. *)
Theorem linea_con_f (L : Libm) (c : llamada) (l : bitacora) :
  es_trigonometrica c = true ->
  forallb es_numero (argumentos_de c) = true ->
  exists (rec : LogRecord) (angulo : valor),
    snd (ejecutar L c l) = l ++ [rec] /\ argumentos_de c = [angulo] /\
    match PyFloat_AsDouble angulo with
    | Lanza e =>
        emit rec = None /\ escrito (snd (ejecutar L c l)) = escrito l /\
        salida (ejecutar L c) l = Lanza e /\ es_OverflowError e = true
    | Devuelve x =>
        exists ln : linea,
        emit rec = Some ln /\
        escrito (snd (ejecutar L c l)) = escrito l ++ [ln] /\
        nivel_de_linea ln = INFO /\
        campos_de ln = [Decimal6 x]
    end.
Proof.
  intros Htrig Hnum.
  destruct (plantilla_de_llamada L c l Hnum) as [rec [ps [Hl [Hargs [Hps Hks]]]]].
  rewrite Htrig in Hks.
  assert (Hc : exists angulo, argumentos_de c = [angulo] /\ es_numero angulo = true /\
                 salida (ejecutar L c) l = math_1 (match c with
                                                   | Coseno _ => c_cos L
                                                   | Tangente _ => c_tan L
                                                   | _ => c_sin L
                                                   end) angulo /\
                 levelname rec = INFO).
  { destruct c as [a b | a b | a b | a b | a b | x | x | x | x | x | x];
      try discriminate; simpl in Hnum; apply argumentos_numeros1 in Hnum;
      exists x; (split; [reflexivity | split; [exact Hnum |]]);
      unfold salida; simpl ejecutar in Hl |- *.
    - rewrite seno_numeros in Hl |- * by assumption. simpl in Hl.
      apply app_inv_head in Hl. injection Hl as <-. split; reflexivity.
    - rewrite coseno_numeros in Hl |- * by assumption. simpl in Hl.
      apply app_inv_head in Hl. injection Hl as <-. split; reflexivity.
    - rewrite tangente_numeros in Hl |- * by assumption. simpl in Hl.
      apply app_inv_head in Hl. injection Hl as <-. split; reflexivity. }
  destruct Hc as [angulo [Hang [Hn [Hsal Hlev]]]].
  exists rec, angulo. split; [exact Hl |]. split; [exact Hang |].
  rewrite Hl, escrito_uno.
  pose proof (rellenar_spec ps (argumentos_de c)) as Hr.
  rewrite Hks, repeat_length in Hr. specialize (Hr eq_refl).
  assert (Hget : getMessage rec = Some (rellenar ps (argumentos_de c))).
  { unfold getMessage. rewrite Hargs, Hps, Hang. reflexivity. }
  unfold emit. rewrite Hget. rewrite Hang in Hr. simpl in Hr.
  rewrite Hsal. unfold math_1.
  destruct (PyFloat_AsDouble_casos angulo Hn) as [[x Hx] | Hx]; rewrite Hx in Hr |- *.
  - destruct Hr as [m [Hr Hm]]. rewrite Hang, Hr.
    eexists. split; [reflexivity |]. split; [reflexivity |]. split; [exact Hlev |].
    unfold campos_de. simpl. now apply Hm.
  - rewrite Hang, Hr. split; [reflexivity |]. split; [now rewrite app_nil_r |].
    split; reflexivity.
Qed.

Lemma linea_con_f_testigo :
  exists (rec : LogRecord) (angulo : valor),
    snd (ejecutar libm_minima (Coseno (VInt 1)) []) = [rec] /\
    [VInt 1] = [angulo] /\
    match PyFloat_AsDouble angulo with
    | Lanza e =>
        emit rec = None /\
        escrito (snd (ejecutar libm_minima (Coseno (VInt 1)) [])) = [] /\
        salida (ejecutar libm_minima (Coseno (VInt 1))) [] = Lanza e /\
        es_OverflowError e = true
    | Devuelve x =>
        exists ln : linea,
          emit rec = Some ln /\
          escrito (snd (ejecutar libm_minima (Coseno (VInt 1)) [])) = [ln] /\
          nivel_de_linea ln = INFO /\
          campos_de ln = [Decimal6 x]
    end.
Proof.
  exact (linea_con_f libm_minima (Coseno (VInt 1)) [] eq_refl eq_refl).
Defined.

(** ** main *)

Lemma en_traza_agrega {A : Type} (c : M A) (r : resultado A) (rs : list LogRecord)
    (t : traza) :
  (forall l, c l = (r, l ++ rs)) ->
  en_traza c t = (r, t ++ map Registrado rs).
Proof.
  intros H. unfold en_traza. rewrite H.
  rewrite skipn_app, skipn_all, Nat.sub_diag. reflexivity.
Qed.

Lemma en_traza_init (t : traza) :
  en_traza init t =
  (Devuelve tt, t ++ [Registrado (mkLogRecord INFO "Iniciando calculadora científica" [])]).
Proof. now apply (en_traza_agrega init _ [_]). Qed.

Lemma en_traza_logger_error (plantilla : string) (vs : list valor) (t : traza) :
  en_traza (logger_error plantilla vs) t =
  (Devuelve tt, t ++ [Registrado (mkLogRecord ERROR plantilla vs)]).
Proof. now apply (en_traza_agrega (logger_error plantilla vs) _ [_]). Qed.

Lemma en_traza_llamada (L : Libm) (c : llamada) (t : traza) (r : resultado valor)
    (rs : list LogRecord) :
  ejecutar L c [] = (r, rs) ->
  en_traza (ejecutar L c) t = (r, t ++ map Registrado rs).
Proof.
  intros H.
  destruct (ejecutar_uniforme L c) as [r' [rs' [Hu _]]].
  rewrite (Hu []) in H. simpl in H. injection H as -> ->.
  now apply (en_traza_agrega (ejecutar L c)).
Qed.

(** The calls of [main], one by one. *)

Section Pasos_de_main.

Variable L : Libm.

Lemma main_sumar (t : traza) :
  en_traza (sumar (VInt 5) (VInt 3)) t =
  (Devuelve (VInt 8),
   t ++ [Registrado (mkLogRecord INFO "Sumando %d + %d" [VInt 5; VInt 3])]).
Proof. now apply (en_traza_llamada L (Sumar (VInt 5) (VInt 3)) t _ [_]). Qed.

Lemma main_restar (t : traza) :
  en_traza (restar (VInt 10) (VInt 4)) t =
  (Devuelve (VInt 6),
   t ++ [Registrado (mkLogRecord INFO "Restando %d - %d" [VInt 10; VInt 4])]).
Proof. now apply (en_traza_llamada L (Restar (VInt 10) (VInt 4)) t _ [_]). Qed.

Lemma main_multiplicar (t : traza) :
  en_traza (multiplicar (VInt 6) (VInt 7)) t =
  (Devuelve (VInt 42),
   t ++ [Registrado (mkLogRecord INFO "Multiplicando %d * %d" [VInt 6; VInt 7])]).
Proof. now apply (en_traza_llamada L (Multiplicar (VInt 6) (VInt 7)) t _ [_]). Qed.

Lemma main_dividir (t : traza) :
  en_traza (dividir (VInt 15) (VInt 3)) t =
  (Devuelve (VFloat 5),
   t ++ [Registrado (mkLogRecord INFO "Dividiendo %d / %d" [VInt 15; VInt 3])]).
Proof.
  apply (en_traza_llamada L (Dividir (VInt 15) (VInt 3)) t _ [_]). vm_compute. reflexivity.
Qed.

Lemma main_potencia (t : traza) :
  en_traza (potencia L (VInt 2) (VInt 3)) t =
  (if is_nan (c_pow L 2 3) then Lanza domain_error
   else if is_infinity (c_pow L 2 3) then Lanza range_error
        else Devuelve (VFloat (c_pow L 2 3)),
   t ++ [Registrado (mkLogRecord INFO "Calculando %d ^ %d" [VInt 2; VInt 3])]).
Proof.
  apply (en_traza_llamada L (Potencia (VInt 2) (VInt 3)) t _ [_]). simpl ejecutar.
  rewrite potencia_numeros by reflexivity.
  rewrite (math_pow_finitos L (VInt 2) (VInt 3) 2 3) by (vm_compute; reflexivity).
  reflexivity.
Qed.

Lemma main_raiz_cuadrada (t : traza) :
  en_traza (raiz_cuadrada (VInt 16)) t =
  (Devuelve (VFloat 4),
   t ++ [Registrado (mkLogRecord INFO "Calculando raíz cuadrada de %d" [VInt 16])]).
Proof.
  apply (en_traza_llamada L (RaizCuadrada (VInt 16)) t _ [_]). vm_compute. reflexivity.
Qed.

Lemma main_logaritmo_natural (t : traza) :
  en_traza (logaritmo_natural L (VFloat 0x1.5be76c8b43958p+1)) t =
  (Devuelve (VFloat (c_log L 0x1.5be76c8b43958p+1)),
   t ++ [Registrado (mkLogRecord INFO "Calculando logaritmo natural de %d"
                       [VFloat 0x1.5be76c8b43958p+1])]).
Proof.
  apply (en_traza_llamada L (LogaritmoNatural (VFloat 0x1.5be76c8b43958p+1)) t _ [_]).
  simpl ejecutar.
  rewrite (logaritmo_natural_numeros L _ _ false) by reflexivity.
  unfold math_log.
  rewrite (loghelper_positivo (c_log L)) by (try apply log_finito; reflexivity).
  reflexivity.
Qed.

Lemma main_logaritmo_base_10 (t : traza) :
  en_traza (logaritmo_base_10 L (VInt 100)) t =
  (Devuelve (VFloat (c_log10 L 100)),
   t ++ [Registrado (mkLogRecord INFO "Calculando logaritmo base 10 de %d"
                       [VInt 100])]).
Proof.
  apply (en_traza_llamada L (LogaritmoBase10 (VInt 100)) t _ [_]).
  simpl ejecutar.
  rewrite (logaritmo_base_10_numeros L _ _ false) by reflexivity.
  unfold math_log10.
  rewrite (loghelper_positivo (c_log10 L)) by (try apply log10_finito; reflexivity).
  reflexivity.
Qed.

Lemma main_trigonometrica (func : float -> float) (x : float) :
  (forall x, is_finite x = true -> is_finite (func x) = true) ->
  is_finite x = true ->
  math_1 func (VFloat x) = Devuelve (VFloat (func x)).
Proof.
  intros Hfin Hx. unfold math_1. cbn [PyFloat_AsDouble]. cbv zeta.
  apply Hfin, is_finite_partes in Hx. destruct Hx as [-> ->]. reflexivity.
Qed.

Lemma main_seno (t : traza) :
  en_traza (seno L (VFloat 0x1.921fb54442d18p+0)) t =
  (Devuelve (VFloat (c_sin L 0x1.921fb54442d18p+0)),
   t ++ [Registrado (mkLogRecord INFO "Calculando seno de %f radianes"
                       [VFloat 0x1.921fb54442d18p+0])]).
Proof.
  apply (en_traza_llamada L (Seno (VFloat 0x1.921fb54442d18p+0)) t _ [_]).
  simpl ejecutar. rewrite seno_numeros by reflexivity.
  unfold math_sin. rewrite main_trigonometrica; [reflexivity | apply sin_finito | reflexivity].
Qed.

Lemma main_coseno (t : traza) :
  en_traza (coseno L (VFloat 0x1.921fb54442d18p+0)) t =
  (Devuelve (VFloat (c_cos L 0x1.921fb54442d18p+0)),
   t ++ [Registrado (mkLogRecord INFO "Calculando coseno de %f radianes"
                       [VFloat 0x1.921fb54442d18p+0])]).
Proof.
  apply (en_traza_llamada L (Coseno (VFloat 0x1.921fb54442d18p+0)) t _ [_]).
  simpl ejecutar. rewrite coseno_numeros by reflexivity.
  unfold math_cos. rewrite main_trigonometrica; [reflexivity | apply cos_finito | reflexivity].
Qed.

Lemma main_tangente (t : traza) :
  en_traza (tangente L (VFloat 0x1.921fb54442d18p-1)) t =
  (Devuelve (VFloat (c_tan L 0x1.921fb54442d18p-1)),
   t ++ [Registrado (mkLogRecord INFO "Calculando tangente de %f radianes"
                       [VFloat 0x1.921fb54442d18p-1])]).
Proof.
  apply (en_traza_llamada L (Tangente (VFloat 0x1.921fb54442d18p-1)) t _ [_]).
  simpl ejecutar. rewrite tangente_numeros by reflexivity.
  unfold math_tan. rewrite main_trigonometrica; [reflexivity | apply tan_finito | reflexivity].
Qed.

Lemma main_dividir_por_cero (t : traza) :
  en_traza (dividir (VInt 5) (VInt 0)) t =
  (Lanza (ValueError "No se puede dividir por cero"),
   t ++ [Registrado
           (mkLogRecord ERROR
              "Intento de división por cero al intentar dividir %d por %d"
              [VInt 5; VInt 0])]).
Proof. now apply (en_traza_llamada L (Dividir (VInt 5) (VInt 0)) t _ [_]). Qed.

Lemma main_angulos :
  py_truediv (VFloat math_pi) (VInt 2) = Devuelve (VFloat 0x1.921fb54442d18p+0) /\
  py_truediv (VFloat math_pi) (VInt 4) = Devuelve (VFloat 0x1.921fb54442d18p-1).
Proof. split; vm_compute; reflexivity. Qed.

End Pasos_de_main.

Ltac hasta_potencia L :=
  unfold main, main_cuerpo, try_except, bindP, print, liftP;
  rewrite en_traza_init;
  rewrite (main_sumar L), (main_restar L), (main_multiplicar L), (main_dividir L),
    (main_potencia L).

Ltac tras_potencia L :=
  rewrite (main_raiz_cuadrada L), (main_logaritmo_natural L),
    (main_logaritmo_base_10 L);
  rewrite (proj1 main_angulos), (main_seno L), (main_coseno L);
  rewrite (proj2 main_angulos), (main_tangente L);
  rewrite (main_dividir_por_cero L).

(** A run of [main], by what the C [pow] gives for [pow(2, 3)]. *)
Lemma main_corrida (L : Libm) (t : traza) :
  exists es : traza,
    snd (main L t) = t ++ es /\
    sin_error_de_tipo (registros es) = true /\
    List.length (escrito (registros es)) = List.length (registros es) /\
    if is_nan (c_pow L 2 3) then
      fst (main L t) = Devuelve tt /\
      ultimos 2 es = despedida "math domain error" /\
      map levelname (registros es) = repeat INFO 6 ++ [ERROR] /\
      valores_impresos es = [VInt 8; VInt 6; VInt 42; VFloat 5]
    else if is_infinity (c_pow L 2 3) then
      fst (main L t) = Lanza range_error /\
      map levelname (registros es) = repeat INFO 6 /\
      valores_impresos es = [VInt 8; VInt 6; VInt 42; VFloat 5]
    else
      fst (main L t) = Devuelve tt /\
      ultimos 2 es = despedida "No se puede dividir por cero" /\
      map levelname (registros es) = repeat INFO 12 ++ [ERROR; ERROR] /\
      valores_impresos es =
      [VInt 8; VInt 6; VInt 42; VFloat 5; VFloat (c_pow L 2 3); VFloat 4;
       VFloat (c_log L 0x1.5be76c8b43958p+1); VFloat (c_log10 L 100);
       VFloat (c_sin L 0x1.921fb54442d18p+0); VFloat (c_cos L 0x1.921fb54442d18p+0);
       VFloat (c_tan L 0x1.921fb54442d18p-1)].
Proof.
  hasta_potencia L.
  destruct (is_nan (c_pow L 2 3)); [| destruct (is_infinity (c_pow L 2 3))].
  - cbv beta iota. unfold domain_error, main_manejador, bindP, print.
    rewrite en_traza_logger_error. cbv beta iota. unfold fst, snd.
    rewrite <- !app_assoc. eexists. split; [reflexivity |].
    repeat split; reflexivity.
  - cbv beta iota. unfold range_error, main_manejador. cbv beta iota. unfold fst, snd.
    rewrite <- !app_assoc. eexists. split; [reflexivity |].
    repeat split; reflexivity.
  - cbv beta iota. tras_potencia L.
    cbv beta iota. unfold main_manejador, bindP, print.
    rewrite en_traza_logger_error. cbv beta iota. unfold fst, snd.
    rewrite <- !app_assoc. eexists. split; [reflexivity |].
    repeat split; reflexivity.
Qed.

(** X9.  [main] on any C library and after any run.  It only appends to
    what was logged and printed.  No ValueError and no TypeError leaves
    it: the one exception that can is the OverflowError of [math.pow],
    when the C [pow(2.0, 3.0)] is infinite, for [main] has no clause for
    it.  When it returns, it has gone through the [except ValueError]
    clause, whose record and printed line end the run.  The
    [except TypeError] clause is never taken, and every record of the run
    is rendered to a line. *)
Theorem main_atrapa_los_errores (L : Libm) (t : traza) :
  exists es : traza,
    snd (main L t) = t ++ es /\
    sin_error_de_tipo (registros es) = true /\
    List.length (escrito (registros es)) = List.length (registros es) /\
    match fst (main L t) with
    | Devuelve _ =>
        is_infinity (c_pow L 2 3) = false /\
        exists m : string, ultimos 2 es = despedida m
    | Lanza e => e = range_error /\ is_infinity (c_pow L 2 3) = true
    end.
Proof.
  destruct (main_corrida L t) as [es [Hes [Htipo [Hlineas H]]]].
  exists es. split; [exact Hes |]. split; [exact Htipo |]. split; [exact Hlineas |].
  destruct (is_nan (c_pow L 2 3)) eqn:Hnan.
  - destruct H as [-> [Hult _]]. split; [| eauto].
    destruct (is_infinity (c_pow L 2 3)) eqn:Hinf; [| reflexivity].
    apply is_infinity_no_nan in Hinf. congruence.
  - destruct (is_infinity (c_pow L 2 3)).
    + destruct H as [-> _]. split; reflexivity.
    + destruct H as [-> [Hult _]]. split; [reflexivity | eauto].
Qed.

(** X10.  The whole run of [main], when the C [pow(2.0, 3.0)] is finite.
    [main] returns; it logs fourteen records: twelve at INFO (the start
    and the eleven operations) and two at ERROR (the division by zero,
    and the message of its ValueError, logged by the [except] clause,
    which also prints it last); it prints the eleven results in order:
    8, 6, 42, 5.0, then the C library's values, 4.0 for the root of 16. *)
Theorem main_corrida_completa (L : Libm) (t : traza) :
  is_finite (c_pow L 2 3) = true ->
  exists es : traza,
    main L t = (Devuelve tt, t ++ es) /\
    ultimos 2 es = despedida "No se puede dividir por cero" /\
    map levelname (registros es) = repeat INFO 12 ++ [ERROR; ERROR] /\
    valores_impresos es =
    [VInt 8; VInt 6; VInt 42; VFloat 5; VFloat (c_pow L 2 3); VFloat 4;
     VFloat (c_log L 0x1.5be76c8b43958p+1); VFloat (c_log10 L 100);
     VFloat (c_sin L 0x1.921fb54442d18p+0); VFloat (c_cos L 0x1.921fb54442d18p+0);
     VFloat (c_tan L 0x1.921fb54442d18p-1)].
Proof.
  intros Hfin. apply is_finite_partes in Hfin. destruct Hfin as [Hnan Hinf].
  destruct (main_corrida L t) as [es [Hes [_ [_ H]]]].
  rewrite Hnan, Hinf in H. destruct H as [Hr [Hult [Hniv Hval]]].
  exists es. split; [| auto].
  destruct (main L t) as [r t']. simpl in Hes, Hr. now subst.
Qed.

Lemma main_corrida_completa_testigo :
  exists es : traza,
    main libm_minima [] = (Devuelve tt, es) /\
    ultimos 2 es = despedida "No se puede dividir por cero" /\
    map levelname (registros es) = repeat INFO 12 ++ [ERROR; ERROR] /\
    valores_impresos es =
    [VInt 8; VInt 6; VInt 42; VFloat 5; VFloat 1; VFloat 4;
     VFloat 0; VFloat 0; VFloat 0; VFloat 0; VFloat 0].
Proof.
  exact (main_corrida_completa libm_minima [] eq_refl).
Defined.

(** ** A number against itself *)

Lemma new_location_cero (n : Z) : new_location n 0 = loc_Exact.
Proof. unfold new_location. destruct (Z.even n); reflexivity. Qed.

(** A binary number divided by itself is 1, with nothing to round. *)
Lemma SFdiv_mismo (s : bool) (m : positive) (e : Z) :
  SFdiv prec emax (S754_finite s m e) (S754_finite s m e) = Prim2SF 1.
Proof.
  unfold SFdiv, SFdiv_core_binary.
  replace (Zdigits2 (Zpos m) + e - (Zdigits2 (Zpos m) + e)) with 0 by lia.
  replace (e - e) with 0 by lia.
  change (Z.min (fexp prec emax 0) 0) with (-53).
  change (0 - -53) with 53.
  rewrite Z.shiftl_mul_pow2 by lia.
  assert (E : Z.div_eucl (Zpos m * 2 ^ 53) (Zpos m) = (2 ^ 53, 0)).
  { pose proof (Z.div_eucl_eq (Zpos m * 2 ^ 53) (Zpos m) ltac:(lia)) as H.
    pose proof (Z.mod_pos_bound (Zpos m * 2 ^ 53) (Zpos m) ltac:(lia)) as Hb.
    unfold Z.modulo in Hb.
    destruct (Z.div_eucl (Zpos m * 2 ^ 53) (Zpos m)) as [q r].
    assert (r = 0 /\ q = 2 ^ 53) as [-> ->]; [| reflexivity].
    assert (Hr : r = Zpos m * (2 ^ 53 - q)) by lia.
    assert (2 ^ 53 - q = 0) by nia. split; lia. }
  rewrite E, new_location_cero. rewrite xorb_nilpotent. reflexivity.
Qed.

Lemma div_mismo (f : float) :
  is_finite f = true -> (f =? 0)%float = false -> (f / f)%float = 1%float.
Proof.
  intros Hfin H0. apply is_finite_partes in Hfin. destruct Hfin as [Hnan Hinf].
  rewrite is_nan_signo in Hnan. rewrite is_infinity_Prim2SF in Hinf.
  rewrite eqb_0_signo in H0.
  apply Prim2SF_inj. rewrite div_spec. unfold SF64div.
  destruct (Prim2SF f) as [s | s | | s m e]; try discriminate.
  apply SFdiv_mismo.
Qed.

Lemma sub_mismo (f : float) :
  is_finite f = true -> (f - f)%float = 0%float.
Proof.
  intros Hfin. apply is_finite_partes in Hfin. destruct Hfin as [Hnan Hinf].
  rewrite is_nan_signo in Hnan. rewrite is_infinity_Prim2SF in Hinf.
  apply Prim2SF_inj. rewrite sub_spec. unfold SF64sub.
  destruct (Prim2SF f) as [[] | s | | s m e]; try discriminate; try reflexivity.
  unfold SFsub. now rewrite Z.sub_diag.
Qed.

(** X11.  A finite number against itself.  [restar(a, a)] is zero: the
    [int] 0 for an [int] or a [bool], the float [0.0] (never [-0.0]) for
    a float.  [dividir(a, a)] is exactly [1.0] when [a] is not zero, for
    every float and for every integer, however large: the quotient of an
    integer by itself never overflows. *)
Theorem numero_contra_si_mismo (a : valor) (l : bitacora) :
  es_numero a = true -> no_finito a = false ->
  salida (restar a a) l =
    Devuelve (match entero a with Some _ => VInt 0 | None => VFloat 0 end) /\
  (py_eq_0 a = false ->
   dividir a a l =
   (Devuelve (VFloat 1), l ++ [mkLogRecord INFO "Dividiendo %d / %d" [a; a]])).
Proof.
  intros Ha Hfin. split.
  - unfold salida. rewrite restar_numeros by assumption. simpl fst. unfold py_sub.
    destruct (entero a) as [z |] eqn:Ez.
    + rewrite (aritmetica_enteros _ _ _ a a z z Ez Ez). now rewrite Z.sub_diag.
    + destruct (no_entero_es_float a Ha Ez) as [f ->]. simpl in Hfin.
      apply negb_false_iff in Hfin.
      rewrite (aritmetica_doubles _ _ _ (VFloat f) (VFloat f) f f) by auto.
      now rewrite sub_mismo.
  - intros H0. rewrite dividir_numeros, H0 by assumption. f_equal.
    destruct (entero a) as [z |] eqn:Ez.
    + rewrite (py_truediv_enteros a a z z Ez Ez H0).
      rewrite (py_eq_0_entero a z Ez) in H0.
      destruct z as [| p | p]; [discriminate | |]; simpl Z2SF;
        rewrite SFdiv_mismo; reflexivity.
    + destruct (no_entero_es_float a Ha Ez) as [f ->]. simpl in H0, Hfin.
      apply negb_false_iff in Hfin.
      rewrite (py_truediv_doubles (VFloat f) (VFloat f) f f) by auto.
      now rewrite div_mismo.
Qed.

Lemma numero_contra_si_mismo_testigo :
  salida (restar (VFloat 0x1p-1074) (VFloat 0x1p-1074)) [] = Devuelve (VFloat 0) /\
  dividir (VInt (- 2 ^ 2000)) (VInt (- 2 ^ 2000)) [] =
  (Devuelve (VFloat 1),
   [mkLogRecord INFO "Dividiendo %d / %d" [VInt (- 2 ^ 2000); VInt (- 2 ^ 2000)]]).
Proof.
  split.
  - exact (proj1 (numero_contra_si_mismo (VFloat 0x1p-1074) [] eq_refl eq_refl)).
  - exact (proj2 (numero_contra_si_mismo (VInt (- 2 ^ 2000)) [] eq_refl eq_refl)
             eq_refl).
Defined.

(** ** The root of a square *)

Lemma shl_align_valor (mx : positive) (ex ex' : Z) :
  let '(mz, ez) := shl_align mx ex ex' in
  ez <= ex /\ Zpos mz = Zpos mx * 2 ^ (ex - ez).
Proof.
  unfold shl_align.
  destruct (ex' - ex) as [| d | d] eqn:E.
  - rewrite Z.sub_diag. simpl. lia.
  - rewrite Z.sub_diag. simpl. lia.
  - split; [lia |]. rewrite iter_xO. f_equal. f_equal. lia.
Qed.

(** Two valid binary numbers of the same value are the same. *)
Lemma valid_binary_unico (s : bool) (m1 m2 : positive) (e1 e2 k : Z) :
  valid_binary (S754_finite s m1 e1) = true ->
  valid_binary (S754_finite s m2 e2) = true ->
  k <= e1 -> k <= e2 ->
  Zpos m1 * 2 ^ (e1 - k) = Zpos m2 * 2 ^ (e2 - k) ->
  m1 = m2 /\ e1 = e2.
Proof.
  intros H1 H2 Hk1 Hk2 Hv.
  apply valid_binary_finite in H1, H2.
  destruct H1 as [Hd1 [He1 Hc1]], H2 as [Hd2 [He2 Hc2]].
  pose proof (Zdigits2_mul_pow2 (Zpos m1) (e1 - k) ltac:(lia) ltac:(lia)) as D1.
  pose proof (Zdigits2_mul_pow2 (Zpos m2) (e2 - k) ltac:(lia) ltac:(lia)) as D2.
  rewrite Hv in D1. rewrite D1 in D2.
  assert (e1 = e2) by lia. subst e2. split; [| reflexivity].
  assert (0 < 2 ^ (e1 - k)) by (apply Z.pow_pos_nonneg; lia).
  assert (Zpos m1 = Zpos m2) by nia. congruence.
Qed.

(** An integer of at most 53 bits is its double. *)
Lemma binary_normalize_exacto (p : positive) :
  Zdigits2 (Zpos p) <= 53 ->
  exists (m : positive) (e : Z),
    binary_normalize prec emax (Zpos p) 0 false = S754_finite false m e /\
    valid_binary (S754_finite false m e) = true /\
    e <= 0 /\ Zpos m = Zpos p * 2 ^ (- e).
Proof.
  intros Hd. pose proof (Zdigits2_pos (Zpos p) ltac:(lia)) as Hd0.
  pose proof (binary_round_spec false p 0) as [Hv _].
  simpl binary_normalize. unfold binary_round in Hv |- *.
  change (Zpos (digits2_pos p)) with (Zdigits2 (Zpos p)) in Hv |- *.
  pose proof (shl_align_spec p 0 (fexp prec emax (Zdigits2 (Zpos p) + 0))) as Hs.
  pose proof (shl_align_valor p 0 (fexp prec emax (Zdigits2 (Zpos p) + 0))) as Hw.
  destruct (shl_align p 0 (fexp prec emax (Zdigits2 (Zpos p) + 0))) as [mz ez].
  destruct Hs as [Hez HD]. destruct Hw as [Hle Hmz].
  rewrite fexp64 in Hez.
  destruct (binary_round_aux_canonico false (Zpos mz) ez loc_Exact)
    as [m2 [e2 [HR [Hle2 Hval]]]]; [lia | rewrite fexp64; lia | lia |].
  rewrite HR in Hv |- *. simpl round_nearest_even in Hval.
  exists m2, e2. split; [reflexivity |]. split; [exact Hv |].
  pose proof (valid_binary_finite _ _ _ Hv) as [Hd2 [He2 Hc2]].
  pose proof (Zdigits2_mul_pow2 (Zpos m2) (e2 - ez) ltac:(lia) ltac:(lia)) as D.
  rewrite Hval in D.
  assert (e2 = ez) by lia. subst e2.
  rewrite Z.sub_diag, Z.pow_0_r, Z.mul_1_r in Hval.
  split; [lia |]. rewrite Hval, Hmz. reflexivity.
Qed.

(** The root of the square of an integer below 2^26 is the integer. *)
Lemma SFsqrt_de_cuadrado (p : positive) :
  Zpos p < 2 ^ 26 ->
  exists (m : positive) (e : Z),
    binary_normalize prec emax (Zpos p) 0 false = S754_finite false m e /\
    SFsqrt prec emax (binary_normalize prec emax (Zpos (p * p)) 0 false) =
    S754_finite false m e.
Proof.
  intros Hp.
  assert (Hdp : Zdigits2 (Zpos p) <= 53).
  { pose proof (Zdigits2_bounds (Zpos p) ltac:(lia)) as [Hlo _].
    destruct (Z_le_gt_dec (Zdigits2 (Zpos p)) 53) as [H | H]; [exact H |].
    assert (2 ^ 26 <= 2 ^ (Zdigits2 (Zpos p) - 1)) by (apply Z.pow_le_mono_r; lia).
    lia. }
  assert (Hdq : Zdigits2 (Zpos (p * p)) <= 53).
  { pose proof (Zdigits2_bounds (Zpos (p * p)) ltac:(lia)) as [Hlo _].
    destruct (Z_le_gt_dec (Zdigits2 (Zpos (p * p))) 53) as [H | H]; [exact H |].
    assert (2 ^ 53 <= 2 ^ (Zdigits2 (Zpos (p * p)) - 1))
      by (apply Z.pow_le_mono_r; lia).
    rewrite Pos2Z.inj_mul in *. change (2 ^ 26) with 67108864 in Hp.
    change (2 ^ 53) with 9007199254740992 in *. nia. }
  destruct (binary_normalize_exacto p Hdp) as [mn [en [En [Hvn [Hen Hmn]]]]].
  destruct (binary_normalize_exacto (p * p) Hdq) as [mq [ec [Ec [Hvq [Hec Hmq]]]]].
  exists mn, en. split; [exact En |]. rewrite Ec.
  destruct (SFsqrt_exacto mq ec Hvq) as [my [ey [e' [Ey [He' [Hey [Hcerca Hgrande]]]]]]].
  rewrite Ey.
  assert (Hvy : valid_binary (S754_finite false my ey) = true).
  { pose proof (Prim2SF_valid (PrimFloat.sqrt (SF2Prim (S754_finite false mq ec)))) as H.
    rewrite sqrt_spec, (Prim2SF_SF2Prim _ Hvq) in H. unfold SF64sqrt in H.
    now rewrite Ey in H. }
  set (Y := Zpos my * 2 ^ (ey - e')) in *.
  set (N := Zpos p * 2 ^ (- e')).
  assert (HN : 0 < N) by (apply Z.mul_pos_pos; [lia | apply Z.pow_pos_nonneg; lia]).
  assert (HX : Zpos mq * 2 ^ (ec - 2 * e') = N * N).
  { unfold N. rewrite Hmq, Pos2Z.inj_mul.
    replace (Zpos p * 2 ^ (- e') * (Zpos p * 2 ^ (- e')))
      with (Zpos p * Zpos p * (2 ^ (- e') * 2 ^ (- e'))) by ring.
    rewrite <- Z.mul_assoc, <- !Z.pow_add_r by lia.
    f_equal. f_equal. lia. }
  rewrite HX in Hcerca.
  assert (HYN : Y = N) by nia.
  destruct (valid_binary_unico false my mn ey en (Z.min e' en) Hvy Hvn
              ltac:(lia) ltac:(lia)) as [-> ->]; [| reflexivity].
  rewrite Hmn.
  replace (ey - Z.min e' en) with ((ey - e') + (e' - Z.min e' en)) by lia.
  rewrite Z.pow_add_r, Z.mul_assoc by lia. fold Y. rewrite HYN. unfold N.
  rewrite <- !Z.mul_assoc, <- !Z.pow_add_r by lia.
  f_equal. f_equal. lia.
Qed.

Lemma sqrt_de_cuadrado (n : Z) :
  Z.abs n < 2 ^ 26 ->
  PyLong_AsDouble (n * n) = Devuelve (double_de_entero (n * n)) /\
  PyLong_AsDouble (Z.abs n) = Devuelve (double_de_entero (Z.abs n)) /\
  PrimFloat.sqrt (double_de_entero (n * n)) = double_de_entero (Z.abs n).
Proof.
  intros Hn. destruct (Z.eq_dec n 0) as [-> | Hn0].
  - repeat split; reflexivity.
  - assert (Hp : exists p, Z.abs n = Zpos p /\ n * n = Zpos (p * p)).
    { destruct n as [| p | p]; [lia | |]; exists p; split; reflexivity. }
    destruct Hp as [p [Hp Hpp]]. rewrite Hp in Hn |- *. rewrite Hpp.
    destruct (SFsqrt_de_cuadrado p Hn) as [m [e [En Es]]].
    unfold PyLong_AsDouble, double_de_entero.
    pose proof (binary_normalize_entero (Zpos (p * p))) as [Hv [Hs [Hz Hnan]]].
    cbv zeta in Hv.
    destruct (binary_normalize prec emax (Zpos (p * p)) 0 false)
      as [s | [] | | s mq eq'] eqn:Eq'; try discriminate Es.
    rewrite En. split; [reflexivity | split; [reflexivity |]].
    apply Prim2SF_inj. rewrite sqrt_spec, (Prim2SF_SF2Prim _ Hv).
    unfold SF64sqrt. rewrite Es. symmetry. apply Prim2SF_SF2Prim.
    pose proof (binary_normalize_entero (Zpos p)) as [Hvn _]. cbv zeta in Hvn.
    now rewrite En in Hvn.
Qed.

(** X12.  The root of a square.  For an integer [n] of magnitude below
    2^26, [raiz_cuadrada(multiplicar(n, n))] returns [float(abs(n))]
    exactly: the square is an exact [int], its double is exact, and the
    correctly rounded root of an exact square is the root.  The two
    calls leave two INFO records, the second with the square. *)
Theorem raiz_del_cuadrado (n : Z) (l : bitacora) :
  Z.abs n < 2 ^ 26 ->
  PyFloat_AsDouble (VInt (Z.abs n)) = Devuelve (double_de_entero (Z.abs n)) /\
  (v <- multiplicar (VInt n) (VInt n) ;; raiz_cuadrada v) l =
  (Devuelve (VFloat (double_de_entero (Z.abs n))),
   l ++ [mkLogRecord INFO "Multiplicando %d * %d" [VInt n; VInt n];
         mkLogRecord INFO "Calculando raíz cuadrada de %d" [VInt (n * n)]]).
Proof.
  intros Hn. destruct (sqrt_de_cuadrado n Hn) as [Hq [Ha Hs]].
  split; [exact Ha |].
  unfold bind. rewrite multiplicar_numeros by reflexivity.
  unfold py_mul. rewrite (aritmetica_enteros _ _ _ (VInt n) (VInt n) n n) by reflexivity.
  rewrite (raiz_cuadrada_numeros (VInt (n * n)) _ false); [| reflexivity |].
  - rewrite <- app_assoc. simpl app. f_equal.
    destruct (math_sqrt_no_negativo (VInt (n * n)) (double_de_entero (n * n)))
      as [-> _]; [exact Hq | | now rewrite Hs].
    destruct (signo_de_numero (VInt (n * n)) (double_de_entero (n * n)) eq_refl Hq)
      as (_ & _ & _ & <- & _).
    simpl. apply Z.leb_le. nia.
  - simpl. f_equal. apply Z.ltb_ge. nia.
Qed.

Lemma raiz_del_cuadrado_testigo :
  (v <- multiplicar (VInt (-12345)) (VInt (-12345)) ;; raiz_cuadrada v) [] =
  (Devuelve (VFloat 12345),
   [mkLogRecord INFO "Multiplicando %d * %d" [VInt (-12345); VInt (-12345)];
    mkLogRecord INFO "Calculando raíz cuadrada de %d" [VInt 152399025]]).
Proof.
  exact (proj2 (raiz_del_cuadrado (-12345) [] eq_refl)).
Defined.
